(** * Load-cell ADC sampling core: HX71x, ADS1220 and ADS1256 drivers

    A shallow embedding of the three sensor drivers (the bit-banged
    HX711/HX717 driver, and the SPI drivers for the ADS1220 and the
    ADS1256) together with the properties of their poll pipeline:
    decoding of the 24-bit conversion word, buffering and flushing of
    samples, error reporting, timer rearming and the start/stop command.

    Conventions.  C integers are integers of [Z] with the wrap-around of
    the C type written out ([u8], [u32], [s32]).  Every read of the
    outside world made by one call (GPIO levels, SPI bytes, timer reads)
    is a field of an input record handed to the call.  A call that may
    halt the firmware or write outside an array returns an [outcome]. *)

From Stdlib Require Import ZArith Lia Bool String.
From stdpp Require Import base list.

Local Open Scope Z_scope.

(** ** Machine integers *)

Module Word.

(** Conversion to [uint8_t]. *)
Definition u8 (z : Z) : Z := z mod 256.

(** Conversion to [uint32_t]. *)
Definition u32 (z : Z) : Z := z mod 2 ^ 32.

(** Conversion to [int32_t] (two's complement wrap-around). *)
Definition s32 (z : Z) : Z := (z + 2 ^ 31) mod 2 ^ 32 - 2 ^ 31.

(** A GPIO level as the integer [gpio_in_read] returns. *)
Definition level (b : bool) : Z := if b then 1 else 0.

(** The four bytes [add_sample] stores for [counts], in the order it
    stores them: [counts], [counts >> 8], [counts >> 16], [counts >> 24],
    each truncated to [uint8_t]; [counts] has been converted to the
    unsigned parameter type. *)
Definition le32 (counts : Z) : list Z :=
  [ u8 (u32 counts);
    u8 (Z.shiftr (u32 counts) 8);
    u8 (Z.shiftr (u32 counts) 16);
    u8 (Z.shiftr (u32 counts) 24) ].

(** The 32-bit word a host reads back from four little-endian bytes. *)
Definition of_le32 (bs : list Z) : Z :=
  match bs with
  | [b0; b1; b2; b3] => b0 + 256 * b1 + 65536 * b2 + 16777216 * b3
  | _ => 0
  end.

End Word.
Export Word.

(** ** Results of a call *)

(** A driver call returns normally ([Done]), halts the firmware through
    [shutdown(msg)] ([Shutdown]), or stores outside [sb.data]
    ([OutOfBounds], undefined behaviour in C). *)
Inductive outcome (A : Type) : Type :=
| Done (a : A)
| Shutdown (msg : string)
| OutOfBounds.
Arguments Done {A} a.
Arguments Shutdown {A} msg.
Arguments OutOfBounds {A}.

Definition bind {A B : Type} (m : outcome A) (k : A -> outcome B) : outcome B :=
  match m with
  | Done a => k a
  | Shutdown msg => Shutdown msg
  | OutOfBounds => OutOfBounds
  end.

Notation "'let*' x ':=' m 'in' k" := (bind m (fun x => k))
  (at level 10, x name, m at level 100, k at level 200).

(** ** The scheduler's timer *)

Module Sched.

(** Modelled from the spec: [struct timer], [sched_add_timer] and
    [sched_del_timer] belong to the scheduler (sched.h, sched.c), which
    is not part of the sources.  A timer is "a single outstanding
    scheduled wake event": [scheduled] says whether the wake event is
    outstanding, [waketime] is the field the drivers assign. *)
Record timer : Type := Timer { waketime : Z; scheduled : bool }.

(** Modelled from the spec: "arm schedules a one-shot wake". *)
Definition sched_add_timer (t : timer) : timer :=
  {| waketime := waketime t; scheduled := true |}.

(** Modelled from the spec: "disarm cancels any outstanding wake". *)
Definition sched_del_timer (t : timer) : timer :=
  {| waketime := waketime t; scheduled := false |}.

(** Modelled from the spec: the wake event is one-shot; an event handler
    that returns [SF_DONE] leaves its timer unscheduled. *)
Definition timer_fired (t : timer) : timer :=
  {| waketime := waketime t; scheduled := false |}.

End Sched.
Export Sched.

(** ** The sample buffer *)

Module Bulk.

(** One [sensor_bulk_data] message handed to the host. *)
Record report : Type := Report { r_oid : Z; r_data : list Z }.

(** Modelled from the spec: [struct sensor_bulk] is declared in
    sensor_bulk.h, which is not part of the sources.  "Fixed-capacity
    byte buffer holding encoded 32-bit samples plus an error/overflow
    marker field": [data] is the byte array (its length is the capacity,
    [ARRAY_SIZE(sb.data)]), [data_count] the bytes currently filled,
    [possible_overflows] the marker field.  [reported] is the history of
    messages sent from this buffer, oldest first; the code never reads
    it. *)
Record sensor_bulk : Type := SensorBulk {
  possible_overflows : Z;
  data_count : nat;
  data : list Z;
  reported : list report
}.

Definition ARRAY_SIZE (d : list Z) : nat := length d.

(** Modelled from the spec: [sensor_bulk_report] is defined in
    sensor_bulk.c, which is not part of the sources.  "Flush: delivering
    the accumulated sample buffer to the host and resetting its fill
    count to zero." *)
Definition sensor_bulk_report (sb : sensor_bulk) (oid : Z) : sensor_bulk :=
  {| possible_overflows := possible_overflows sb;
     data_count := 0;
     data := data sb;
     reported := reported sb ++ [Report oid (take (data_count sb) (data sb))] |}.

(** Modelled from the spec: [sensor_bulk_reset] is defined in
    sensor_bulk.c, which is not part of the sources.  Starting sampling
    "resets the sample buffer". *)
Definition sensor_bulk_reset (sb : sensor_bulk) : sensor_bulk :=
  {| possible_overflows := possible_overflows sb;
     data_count := 0;
     data := data sb;
     reported := reported sb |}.

(** [sb->data[i] = b]: the stored value is truncated to [uint8_t]; a
    store outside the array is [OutOfBounds]. *)
Definition store (i : nat) (b : Z) (sb : sensor_bulk) : outcome sensor_bulk :=
  if (i <? ARRAY_SIZE (data sb))%nat then
    Done {| possible_overflows := possible_overflows sb;
            data_count := data_count sb;
            data := <[i := u8 b]> (data sb);
            reported := reported sb |}
  else OutOfBounds.

Definition BYTES_PER_SAMPLE : nat := 4.

(** The body shared by the three copies of [add_sample] (they differ in
    the name of the sensor struct only), on the [sb] field. *)
Definition add_sample (sb : sensor_bulk) (counts : Z) : outcome sensor_bulk :=
  let counts := u32 counts in
  let* sb1 := store (data_count sb) counts sb in
  let* sb2 := store (data_count sb + 1) (Z.shiftr counts 8) sb1 in
  let* sb3 := store (data_count sb + 2) (Z.shiftr counts 16) sb2 in
  let* sb4 := store (data_count sb + 3) (Z.shiftr counts 24) sb3 in
  Done {| possible_overflows := possible_overflows sb4;
          data_count := data_count sb + BYTES_PER_SAMPLE;
          data := data sb4;
          reported := reported sb4 |}.

(** The body shared by the three copies of [flush_samples]. *)
Definition flush_samples (sb : sensor_bulk) (oid : Z) : sensor_bulk :=
  if (ARRAY_SIZE (data sb) <? data_count sb + BYTES_PER_SAMPLE)%nat
  then sensor_bulk_report sb oid
  else sb.

(** [sb->possible_overflows = error_code], with [uint8_t error_code]. *)
Definition set_possible_overflows (sb : sensor_bulk) (error_code : Z) : sensor_bulk :=
  {| possible_overflows := u8 error_code;
     data_count := data_count sb;
     data := data sb;
     reported := reported sb |}.

(** Every byte handed or still to be handed to the host: the data of
    the reports already sent, then the bytes filled in the buffer. *)
Definition stream (sb : sensor_bulk) : list Z :=
  concat (map r_data (reported sb)) ++ take (data_count sb) (data sb).

(** The buffer can take one more sample: [data_count] is a multiple of
    the sample size and one more sample fits. *)
Definition append_ready (sb : sensor_bulk) : Prop :=
  (data_count sb mod 4 = 0 /\ data_count sb + 4 <= ARRAY_SIZE (data sb))%nat.

(** [0 <= data_count <= capacity], a multiple of 4. *)
Definition within_capacity (sb : sensor_bulk) : Prop :=
  (data_count sb mod 4 = 0 /\ data_count sb <= ARRAY_SIZE (data sb))%nat.

End Bulk.
Export Bulk.

(** ** The task that polls a driver family *)

Module Task.

(** [foreach_oid(oid, dev, ...)]: the configured sensors of a family in
    the order of their object ids; the sensor at position [n] of the list
    has object id [first + n].  The loop stops at the first call that
    does not return. *)
Fixpoint foreach_oid {D : Type} (body : Z -> D -> outcome D)
    (first : Z) (objs : list D) : outcome (list D) :=
  match objs with
  | [] => Done []
  | d :: rest =>
      let* d' := body first d in
      let* rest' := foreach_oid body (first + 1) rest in
      Done (d' :: rest')
  end.

(** A driver family: its [struct task_wake] flag and its sensors. *)
Record family (D : Type) : Type := Family { wake : bool; objs : list D }.
Arguments Family {D} wake objs.
Arguments wake {D} f.
Arguments objs {D} f.

(** Modelled from the spec: [sched_wake_task] (sched.c, not part of the
    sources) raises the family's single shared wake signal. *)
Definition sched_wake_task {D : Type} (f : family D) : family D :=
  Family true (objs f).

(** A timer of the family comes due: the scheduler runs the event
    handler of sensor [oid] if its timer is outstanding. [event] is the
    handler, [armed] reads the timer's state. *)
Definition timer_due {D : Type} (armed : D -> bool) (event : D -> D)
    (oid : nat) (f : family D) : family D :=
  match objs f !! oid with
  | Some d =>
      if armed d then sched_wake_task (Family (wake f) (<[oid := event d]> (objs f)))
      else f
  | None => f
  end.

End Task.
Export Task.

(** ** HX711 / HX717: the bit-banged driver *)

Module HX71x.

Record hx71x_adc : Type := Hx71xAdc {
  gain_channel : Z;      (* uint8_t: the gain+channel selection (1-4) *)
  pending_flag : Z;      (* uint8_t *)
  rest_ticks : Z;        (* uint32_t *)
  timer : Sched.timer;
  sclk : bool;           (* level last written to the clock pin *)
  sb : sensor_bulk
}.

Definition set_pending_flag (v : Z) (s : hx71x_adc) : hx71x_adc :=
  {| gain_channel := gain_channel s; pending_flag := v; rest_ticks := rest_ticks s;
     timer := timer s; sclk := sclk s; sb := sb s |}.

Definition set_rest_ticks (v : Z) (s : hx71x_adc) : hx71x_adc :=
  {| gain_channel := gain_channel s; pending_flag := pending_flag s; rest_ticks := v;
     timer := timer s; sclk := sclk s; sb := sb s |}.

Definition set_timer (v : Sched.timer) (s : hx71x_adc) : hx71x_adc :=
  {| gain_channel := gain_channel s; pending_flag := pending_flag s;
     rest_ticks := rest_ticks s; timer := v; sclk := sclk s; sb := sb s |}.

Definition set_sb (v : sensor_bulk) (s : hx71x_adc) : hx71x_adc :=
  {| gain_channel := gain_channel s; pending_flag := pending_flag s;
     rest_ticks := rest_ticks s; timer := timer s; sclk := sclk s; sb := v |}.

(** [gpio_out_write(hx71x->sclk, v)]. *)
Definition gpio_out_write (v : bool) (s : hx71x_adc) : hx71x_adc :=
  {| gain_channel := gain_channel s; pending_flag := pending_flag s;
     rest_ticks := rest_ticks s; timer := timer s; sclk := v; sb := sb s |}.

Definition SAMPLE_ERROR : Z := 0x80000000.
Definition ERROR_READY_AFTER_READ : Z := 1.
Definition ERROR_READ_TOO_LONG : Z := 2.
Definition ERROR_OUT_OF_RANGE : Z := 3.

(** What one call of [hx71x_read_adc] reads from the outside: the level
    of the data pin at the readiness check, at each of the 24 bit reads
    and at the check after the read, and the value of [timer_read_time()]
    at the start of the read, after it, and in
    [hx71x_reschedule_timer]. *)
Record io : Type := Io {
  dout_before : bool;
  dout_bit : nat -> bool;
  dout_after : bool;
  time_start : Z;
  time_end : Z;
  time_resched : Z
}.

(** The value of the word the first loop shifts in from bit [idx] on,
    most significant bit first (see [read_bits_shifted]). *)
Fixpoint shifted (x : io) (idx n : nat) (acc : Z) : Z :=
  match n with
  | O => acc
  | S n' => shifted x (S idx) n' (2 * acc + level (dout_bit x idx))
  end.

(** The 24-bit word one read shifts in. *)
Definition raw_word (x : io) : Z := shifted x 0 24 0.

(** [time_diff]: [timer_read_time() - start_time] on the unsigned
    [hx71x_time_t], 32 bits wide as on the boards whose [unsigned int]
    has the width of the timer (not the AVR build, where it has 16). *)
Definition elapsed (x : io) : Z := u32 (u32 (time_end x) - u32 (time_start x)).

Section Board.

(** [timer_from_us] is the board's conversion from microseconds to timer
    ticks (board/misc.h, not part of the sources). *)
Variable timer_from_us : Z -> Z.

Definition MAX_READ_TIME : Z := u32 (timer_from_us 50).

(** [hx71x_event]: the handler of the sensor's timer.  It returns
    [SF_DONE]. *)
Definition hx71x_event (s : hx71x_adc) : hx71x_adc :=
  set_timer (timer_fired (timer s)) (set_pending_flag 1 s).

(** [hx71x_reschedule_timer]; [now] is [timer_read_time()]. *)
Definition hx71x_reschedule_timer (now : Z) (s : hx71x_adc) : hx71x_adc :=
  set_timer
    (sched_add_timer
       {| waketime := u32 (u32 now + rest_ticks s); scheduled := scheduled (timer s) |})
    s.

(** [hx71x_is_data_ready]: if the dout pin is high the sample is not
    ready. *)
Definition hx71x_is_data_ready (dout : bool) : bool := negb dout.

Definition add_sample (s : hx71x_adc) (counts : Z) : outcome hx71x_adc :=
  let* sb' := Bulk.add_sample (sb s) counts in
  Done (set_sb sb' s).

Definition flush_samples (s : hx71x_adc) (oid : Z) : hx71x_adc :=
  set_sb (Bulk.flush_samples (sb s) oid) s.

(** [send_error]: log the error to the data stream and flush. *)
Definition send_error (s : hx71x_adc) (oid : Z) (error_code : Z) : outcome hx71x_adc :=
  let s := set_pending_flag 0 s in
  let* s := add_sample s SAMPLE_ERROR in
  let s := set_sb (set_possible_overflows (sb s) error_code) s in
  Done (set_sb (sensor_bulk_report (sb s) oid) s).

(** [hx71x_pulse_clocks]: the clock pin goes high, then low; the two
    busy waits between the writes change no state. *)
Definition hx71x_pulse_clocks (s : hx71x_adc) : hx71x_adc :=
  gpio_out_write false (gpio_out_write true s).

(** The first loop of [hx71x_read_adc]: 24 pulses, each followed by
    [counts = (counts << 1) | gpio_in_read(dout)] on [int32_t counts]. *)
Fixpoint read_bits (x : io) (sample_idx : nat) (n : nat) (s : hx71x_adc) (counts : Z)
    : hx71x_adc * Z :=
  match n with
  | O => (s, counts)
  | S n' =>
      let s := hx71x_pulse_clocks s in
      let counts := s32 (Z.lor (Z.shiftl counts 1) (level (dout_bit x sample_idx))) in
      read_bits x (S sample_idx) n' s counts
  end.

(** The second loop: [gain_channel] more pulses. *)
Definition gain_pulses (s : hx71x_adc) : hx71x_adc :=
  Nat.iter (Z.to_nat (gain_channel s)) hx71x_pulse_clocks s.

(** The "handle -0 value" statement of [hx71x_read_adc]: the midpoint
    becomes 0 and a larger word is extended from 24 to 32 bits.
    [counts |= 0xFF000000] is computed on unsigned operands and
    converted back to [int32_t]. *)
Definition extend_counts (counts : Z) : Z :=
  if counts =? 0x800000 then 0
  else if counts >? 0x800000 then s32 (Z.lor (u32 counts) 0xFF000000)
  else counts.

(** The condition of the range check, [counts < -0x7FFFFF || counts >
    0x7FFFFF]. *)
Definition out_of_range (counts : Z) : bool :=
  (counts <? - 0x7FFFFF) || (counts >? 0x7FFFFF).

(** The end of [hx71x_read_adc], from the range check on. *)
Definition store_counts (x : io) (s : hx71x_adc) (oid : Z) (counts : Z)
    : outcome hx71x_adc :=
  if out_of_range counts then send_error s oid ERROR_OUT_OF_RANGE
  else
    let* s := add_sample s counts in
    let s := flush_samples s oid in
    let s := set_pending_flag 0 s in
    Done (hx71x_reschedule_timer (time_resched x) s).

(** [hx71x_read_adc]: one poll of the sensor. *)
Definition hx71x_read_adc (x : io) (s : hx71x_adc) (oid : Z) : outcome hx71x_adc :=
  if negb (hx71x_is_data_ready (dout_before x)) then
    Done (hx71x_reschedule_timer (time_resched x) s)
  else
    let '(s, counts) := read_bits x 0 24 s 0 in
    let s := gain_pulses s in
    if hx71x_is_data_ready (dout_after x) then
      send_error s oid ERROR_READY_AFTER_READ
    else
      let time_diff := elapsed x in
      if time_diff >=? MAX_READ_TIME then
        send_error s oid ERROR_READ_TOO_LONG
      else
        store_counts x s oid (extend_counts counts).

(** [command_config_hx71x]: the sensor as it is created.  [oid_alloc]
    hands out zeroed memory; [capacity] is the size of [sb.data].  A
    gain/channel selection outside 1-4 halts the firmware. *)
Definition command_config_hx71x (capacity : nat) (gain_channel : Z) : outcome hx71x_adc :=
  let gain_channel := u8 gain_channel in
  if (gain_channel <? 1) || (gain_channel >? 4) then
    Shutdown "HX71x gain/channel out of range 1-4"
  else
    Done {| gain_channel := gain_channel;
            pending_flag := 0;
            rest_ticks := 0;
            timer := {| waketime := 0; scheduled := false |};
            sclk := true;
            sb := {| possible_overflows := 0; data_count := 0;
                     data := replicate capacity 0; reported := [] |} |}.

(** [command_query_hx71x]: start/stop capturing ADC data.  [rest] is
    [args[1]]; [now] is the [timer_read_time()] of the reschedule. *)
Definition command_query_hx71x (rest : Z) (now : Z) (s : hx71x_adc) : hx71x_adc :=
  let s := set_timer (sched_del_timer (timer s)) s in
  let s := set_pending_flag 0 s in
  let s := set_rest_ticks (u32 rest) s in
  if rest_ticks s =? 0 then
    gpio_out_write true s
  else
    let s := gpio_out_write false s in
    let s := set_sb (sensor_bulk_reset (sb s)) s in
    hx71x_reschedule_timer now s.

(** The body of the loop of [hx71x_capture_task]. *)
Definition capture_one (ios : Z -> io) (oid : Z) (s : hx71x_adc) : outcome hx71x_adc :=
  if pending_flag s =? 0 then Done s else hx71x_read_adc (ios oid) s oid.

(** [hx71x_capture_task]: the background task that performs
    measurements.  [sched_check_wake] reads and clears the wake flag. *)
Definition hx71x_capture_task (ios : Z -> io) (f : family hx71x_adc)
    : outcome (family hx71x_adc) :=
  if negb (wake f) then Done f
  else
    let* l := foreach_oid (capture_one ios) 0 (objs f) in
    Done (Family false l).

End Board.

End HX71x.

(** What one call of an SPI driver's read function reads from the
    outside: the level of the data-ready pin, the three bytes
    [spidev_transfer] leaves in [msg], and the value of
    [timer_read_time()] before the transfer, after it, and in the
    reschedule helper. *)
Module Spi.

Record io : Type := Io {
  data_ready : bool;
  msg0 : Z;
  msg1 : Z;
  msg2 : Z;
  time_start : Z;
  time_end : Z;
  time_resched : Z
}.

(** [(msg[0] << 16) | (msg[1] << 8) | msg[2]] on [uint8_t msg[3]],
    assigned to an [int32_t]. *)
Definition word24 (x : io) : Z :=
  s32 (Z.lor (Z.lor (Z.shiftl (u8 (msg0 x)) 16) (Z.shiftl (u8 (msg1 x)) 8)) (u8 (msg2 x))).

(** [timer_read_time() - start_time] on [uint32_t]. *)
Definition time_diff (x : io) : Z := u32 (u32 (time_end x) - u32 (time_start x)).

End Spi.

(** ** ADS1220: SPI driver with error records *)

Module ADS1220.

Import Spi.

Record ads1220_adc : Type := Ads1220Adc {
  timer : Sched.timer;
  rest_ticks : Z;        (* uint32_t *)
  pending_flag : Z;      (* uint8_t *)
  sb : sensor_bulk
}.

Definition set_pending_flag (v : Z) (s : ads1220_adc) : ads1220_adc :=
  {| timer := timer s; rest_ticks := rest_ticks s; pending_flag := v; sb := sb s |}.

Definition set_rest_ticks (v : Z) (s : ads1220_adc) : ads1220_adc :=
  {| timer := timer s; rest_ticks := v; pending_flag := pending_flag s; sb := sb s |}.

Definition set_timer (v : Sched.timer) (s : ads1220_adc) : ads1220_adc :=
  {| timer := v; rest_ticks := rest_ticks s; pending_flag := pending_flag s; sb := sb s |}.

Definition set_sb (v : sensor_bulk) (s : ads1220_adc) : ads1220_adc :=
  {| timer := timer s; rest_ticks := rest_ticks s; pending_flag := pending_flag s; sb := v |}.

Definition SAMPLE_ERROR : Z := 0x80000000.
Definition ERROR_READ_TOO_LONG : Z := 1.
Definition ERROR_OUT_OF_RANGE : Z := 2.

Section Board.

Variable timer_from_us : Z -> Z.

Definition MAX_SPI_READ_TIME : Z := u32 (timer_from_us 150).

(** [ads1220_event]; it returns [SF_DONE]. *)
Definition ads1220_event (s : ads1220_adc) : ads1220_adc :=
  set_timer (timer_fired (timer s)) (set_pending_flag 1 s).

(** [ads1220_reschedule_timer]. *)
Definition ads1220_reschedule_timer (now : Z) (s : ads1220_adc) : ads1220_adc :=
  set_timer
    (sched_add_timer
       {| waketime := u32 (u32 now + rest_ticks s); scheduled := scheduled (timer s) |})
    s.

(** [ads1220_is_data_ready]: [gpio_in_read(data_ready) == 0]. *)
Definition ads1220_is_data_ready (pin : bool) : bool := level pin =? 0.

Definition add_sample (s : ads1220_adc) (counts : Z) : outcome ads1220_adc :=
  let* sb' := Bulk.add_sample (sb s) counts in
  Done (set_sb sb' s).

Definition flush_samples (s : ads1220_adc) (oid : Z) : ads1220_adc :=
  set_sb (Bulk.flush_samples (sb s) oid) s.

(** [send_error]: log the error to the data stream and flush. *)
Definition send_error (s : ads1220_adc) (oid : Z) (error_code : Z) : outcome ads1220_adc :=
  let s := set_pending_flag 0 s in
  let* s := add_sample s SAMPLE_ERROR in
  let s := set_sb (set_possible_overflows (sb s) error_code) s in
  Done (set_sb (sensor_bulk_report (sb s) oid) s).

(** The "handle -0 value" statement of [ads1220_read_adc]. *)
Definition extend_counts (counts : Z) : Z :=
  if counts =? 0x800000 then 0
  else if counts >? 0x800000 then s32 (Z.lor (u32 counts) 0xFF000000)
  else counts.

Definition out_of_range (counts : Z) : bool :=
  (counts <? - 0x7FFFFF) || (counts >? 0x7FFFFF).

(** The end of [ads1220_read_adc], from the range check on. *)
Definition store_counts (x : io) (s : ads1220_adc) (oid : Z) (counts : Z)
    : outcome ads1220_adc :=
  if out_of_range counts then send_error s oid ERROR_OUT_OF_RANGE
  else
    let* s := add_sample s counts in
    let s := flush_samples s oid in
    let s := set_pending_flag 0 s in
    Done (ads1220_reschedule_timer (time_resched x) s).

(** [ads1220_read_adc]: one poll of the sensor. *)
Definition ads1220_read_adc (x : io) (s : ads1220_adc) (oid : Z) : outcome ads1220_adc :=
  if negb (ads1220_is_data_ready (data_ready x)) then
    Done (ads1220_reschedule_timer (time_resched x) s)
  else
    if time_diff x >=? MAX_SPI_READ_TIME then
      send_error s oid ERROR_READ_TOO_LONG
    else
      store_counts x s oid (extend_counts (word24 x)).

(** [command_config_ads1220]: the sensor as it is created. *)
Definition command_config_ads1220 (capacity : nat) : ads1220_adc :=
  {| timer := {| waketime := 0; scheduled := false |};
     rest_ticks := 0;
     pending_flag := 0;
     sb := {| possible_overflows := 0; data_count := 0;
              data := replicate capacity 0; reported := [] |} |}.

(** [command_query_ads1220]: start/stop capturing ADC data. *)
Definition command_query_ads1220 (rest : Z) (now : Z) (s : ads1220_adc) : ads1220_adc :=
  let s := set_timer (sched_del_timer (timer s)) s in
  let s := set_pending_flag 0 s in
  let s := set_rest_ticks (u32 rest) s in
  if rest_ticks s =? 0 then s
  else
    let s := set_sb (sensor_bulk_reset (sb s)) s in
    ads1220_reschedule_timer now s.

Definition capture_one (ios : Z -> io) (oid : Z) (s : ads1220_adc) : outcome ads1220_adc :=
  if pending_flag s =? 0 then Done s else ads1220_read_adc (ios oid) s oid.

(** [ads1220_capture_task]. *)
Definition ads1220_capture_task (ios : Z -> io) (f : family ads1220_adc)
    : outcome (family ads1220_adc) :=
  if negb (wake f) then Done f
  else
    let* l := foreach_oid (capture_one ios) 0 (objs f) in
    Done (Family false l).

End Board.

End ADS1220.

(** ** ADS1256: SPI driver that halts on a bad read *)

Module ADS1256.

Import Spi.

(** Modelled from the spec: the load-cell endstop (load_cell_endstop.h)
    is not part of the sources; "if attached, every valid sample is also
    forwarded to it with its acquisition timestamp".  An attached endstop
    is the list of the (sample, timestamp) pairs it was given, oldest
    first. *)
Definition load_cell_endstop : Type := list (Z * Z).

Definition load_cell_endstop_report_sample (lce : load_cell_endstop)
    (sample : Z) (ticks : Z) : load_cell_endstop :=
  lce ++ [(sample, ticks)].

Record ads1256_adc : Type := Ads1256Adc {
  timer : Sched.timer;
  rest_ticks : Z;        (* uint32_t *)
  flags : Z;             (* uint8_t *)
  sb : sensor_bulk;
  lce : option load_cell_endstop
}.

Definition set_flags (v : Z) (s : ads1256_adc) : ads1256_adc :=
  {| timer := timer s; rest_ticks := rest_ticks s; flags := v; sb := sb s; lce := lce s |}.

Definition set_rest_ticks (v : Z) (s : ads1256_adc) : ads1256_adc :=
  {| timer := timer s; rest_ticks := v; flags := flags s; sb := sb s; lce := lce s |}.

Definition set_timer (v : Sched.timer) (s : ads1256_adc) : ads1256_adc :=
  {| timer := v; rest_ticks := rest_ticks s; flags := flags s; sb := sb s; lce := lce s |}.

Definition set_sb (v : sensor_bulk) (s : ads1256_adc) : ads1256_adc :=
  {| timer := timer s; rest_ticks := rest_ticks s; flags := flags s; sb := v; lce := lce s |}.

Definition set_lce (v : option load_cell_endstop) (s : ads1256_adc) : ads1256_adc :=
  {| timer := timer s; rest_ticks := rest_ticks s; flags := flags s; sb := sb s; lce := v |}.

Definition FLAG_PENDING : Z := Z.shiftl 1 0.

(** [is_flag_set]: [!!(mask & ads1256->flags)]. *)
Definition is_flag_set (mask : Z) (s : ads1256_adc) : bool :=
  negb (Z.land mask (flags s) =? 0).

(** [set_flag]: [ads1256->flags |= mask]. *)
Definition set_flag (mask : Z) (s : ads1256_adc) : ads1256_adc :=
  set_flags (u8 (Z.lor (flags s) mask)) s.

(** [clear_flag]: [ads1256->flags &= ~mask]. *)
Definition clear_flag (mask : Z) (s : ads1256_adc) : ads1256_adc :=
  set_flags (u8 (Z.land (flags s) (Z.lnot mask))) s.

Section Board.

Variable timer_from_us : Z -> Z.

Definition MAX_SPI_READ_TIME : Z := u32 (timer_from_us 150).

(** [ads1256_event]; it returns [SF_DONE]. *)
Definition ads1256_event (s : ads1256_adc) : ads1256_adc :=
  set_timer (timer_fired (timer s)) (set_flag FLAG_PENDING s).

(** [ads1256_reschedule_timer]: it sets [FLAG_PENDING] before it arms
    the timer. *)
Definition ads1256_reschedule_timer (now : Z) (s : ads1256_adc) : ads1256_adc :=
  let s := set_flag FLAG_PENDING s in
  set_timer
    (sched_add_timer
       {| waketime := u32 (u32 now + rest_ticks s); scheduled := scheduled (timer s) |})
    s.

(** [ads1256_is_data_ready]: [gpio_in_read(data_ready) == 0]. *)
Definition ads1256_is_data_ready (pin : bool) : bool := level pin =? 0.

Definition add_sample (s : ads1256_adc) (counts : Z) : outcome ads1256_adc :=
  let* sb' := Bulk.add_sample (sb s) counts in
  Done (set_sb sb' s).

Definition flush_samples (s : ads1256_adc) (oid : Z) : ads1256_adc :=
  set_sb (Bulk.flush_samples (sb s) oid) s.

(** "extend 2's complement 24 bits to 32 bits":
    [uint32_t m = 1u << (24 - 1); int32_t counts = (counts_original ^ m) - m;]
    The operands of [^] and [-] are converted to [uint32_t]. *)
Definition extend_counts (counts_original : Z) : Z :=
  let m := u32 (Z.shiftl 1 (24 - 1)) in
  s32 (u32 (u32 (Z.lxor (u32 counts_original) m) - m)).

(** The endstop is optional: report the sample if one is attached. *)
Definition report_to_endstop (s : ads1256_adc) (counts : Z) (start_time : Z)
    : ads1256_adc :=
  match lce s with
  | Some e => set_lce (Some (load_cell_endstop_report_sample e counts start_time)) s
  | None => s
  end.

(** [ads1256_read_adc]: one poll of the sensor. *)
Definition ads1256_read_adc (x : io) (s : ads1256_adc) (oid : Z) : outcome ads1256_adc :=
  if negb (ads1256_is_data_ready (data_ready x)) then
    Done (ads1256_reschedule_timer (time_resched x) s)
  else
    let start_time := u32 (time_start x) in
    if time_diff x >=? MAX_SPI_READ_TIME then
      Shutdown "ads1256 read timing error, read took too long"
    else
      let counts_original := word24 x in
      let counts := extend_counts counts_original in
      if counts =? -1 then Shutdown "ads1256: Possible bad read"
      else if counts >=? 0x800000 then Shutdown "ads1256: Invalid Counts"
      else
        let* s := add_sample s counts in
        let s := report_to_endstop s counts start_time in
        let s := flush_samples s oid in
        Done (ads1256_reschedule_timer (time_resched x) s).

(** [command_config_ads1256]: the sensor as it is created. *)
Definition command_config_ads1256 (capacity : nat) : ads1256_adc :=
  {| timer := {| waketime := 0; scheduled := false |};
     rest_ticks := 0;
     flags := 0;
     sb := {| possible_overflows := 0; data_count := 0;
              data := replicate capacity 0; reported := [] |};
     lce := None |}.

(** [command_attach_endstop_ads1256]; the endstop has been given no
    sample by this sensor yet. *)
Definition command_attach_endstop_ads1256 (s : ads1256_adc) : ads1256_adc :=
  set_lce (Some []) s.

(** [command_query_ads1256]: start/stop capturing ADC data. *)
Definition command_query_ads1256 (rest : Z) (now : Z) (s : ads1256_adc) : ads1256_adc :=
  let s := set_timer (sched_del_timer (timer s)) s in
  let s := set_flags 0 s in
  let s := set_rest_ticks (u32 rest) s in
  if rest_ticks s =? 0 then s
  else
    let s := set_sb (sensor_bulk_reset (sb s)) s in
    ads1256_reschedule_timer now s.

Definition capture_one (ios : Z -> io) (oid : Z) (s : ads1256_adc) : outcome ads1256_adc :=
  if Z.land (flags s) FLAG_PENDING =? 0 then Done s
  else ads1256_read_adc (ios oid) s oid.

(** [ads1256_capture_task]. *)
Definition ads1256_capture_task (ios : Z -> io) (f : family ads1256_adc)
    : outcome (family ads1256_adc) :=
  if negb (wake f) then Done f
  else
    let* l := foreach_oid (capture_one ios) 0 (objs f) in
    Done (Family false l).

End Board.

End ADS1256.

(** ** The life of a driver family *)

Module Pipeline.

(** What happens to a family between two commands of the host: a timer
    of sensor [oid] comes due, the background task runs (reading [ios oid]
    for the sensor it polls), or the host sends the start/stop command
    for sensor [oid]. *)
Inductive event (IO : Type) : Type :=
| TimerDue (oid : nat)
| TaskRun (ios : Z -> IO)
| Query (oid : nat) (rest now : Z).
Arguments TimerDue {IO} oid.
Arguments TaskRun {IO} ios.
Arguments Query {IO} oid rest now.

(** The command handler [query] applied to sensor [oid] ([oid_lookup]);
    an unknown object id changes nothing here. *)
Definition on_sensor {D : Type} (query : D -> D) (oid : nat) (f : family D) : family D :=
  match objs f !! oid with
  | Some d => Family (wake f) (<[oid := query d]> (objs f))
  | None => f
  end.

(** The events of a list, one after the other, until one does not
    return. *)
Fixpoint run {D IO : Type} (step : event IO -> family D -> outcome (family D))
    (events : list (event IO)) (f : family D) : outcome (family D) :=
  match events with
  | [] => Done f
  | e :: rest => let* f' := step e f in run step rest f'
  end.

Definition hx71x_step (timer_from_us : Z -> Z) (e : event HX71x.io)
    (f : family HX71x.hx71x_adc) : outcome (family HX71x.hx71x_adc) :=
  match e with
  | TimerDue oid =>
      Done (timer_due (fun d => scheduled (HX71x.timer d)) HX71x.hx71x_event oid f)
  | TaskRun ios => HX71x.hx71x_capture_task timer_from_us ios f
  | Query oid rest now => Done (on_sensor (HX71x.command_query_hx71x rest now) oid f)
  end.

Definition ads1220_step (timer_from_us : Z -> Z) (e : event Spi.io)
    (f : family ADS1220.ads1220_adc) : outcome (family ADS1220.ads1220_adc) :=
  match e with
  | TimerDue oid =>
      Done (timer_due (fun d => scheduled (ADS1220.timer d)) ADS1220.ads1220_event oid f)
  | TaskRun ios => ADS1220.ads1220_capture_task timer_from_us ios f
  | Query oid rest now => Done (on_sensor (ADS1220.command_query_ads1220 rest now) oid f)
  end.

Definition ads1256_step (timer_from_us : Z -> Z) (e : event Spi.io)
    (f : family ADS1256.ads1256_adc) : outcome (family ADS1256.ads1256_adc) :=
  match e with
  | TimerDue oid =>
      Done (timer_due (fun d => scheduled (ADS1256.timer d)) ADS1256.ads1256_event oid f)
  | TaskRun ios => ADS1256.ads1256_capture_task timer_from_us ios f
  | Query oid rest now => Done (on_sensor (ADS1256.command_query_ads1256 rest now) oid f)
  end.

End Pipeline.
Export Pipeline.

(** ** Sign extension as the specification words it *)

(** "The standard two's-complement sign extension": [v] below the sign
    bit, [v | 0xFF000000] read as a signed 32-bit value from the sign
    bit on. *)
Definition sign_extend24 (v : Z) : Z :=
  if v <? 0x800000 then v else s32 (Z.lor v 0xFF000000).

(** ** Inputs of the examples *)

Module Examples.

(** A board with a 72 MHz timer: [timer_from_us(us) = us * 72]. *)
Definition board_72mhz (us : Z) : Z := us * 72.

(** An HX71x sensor with gain/channel selection 1 and an 8-byte buffer,
    as [command_config_hx71x 8 1] creates it; then started with a poll
    interval of 1000 ticks at time 5, with its timer fired: it is
    pending, and the task is about to poll it. *)
Definition hx71x_configured : HX71x.hx71x_adc :=
  {| HX71x.gain_channel := 1; HX71x.pending_flag := 0; HX71x.rest_ticks := 0;
     HX71x.timer := {| waketime := 0; scheduled := false |};
     HX71x.sclk := true;
     HX71x.sb := {| possible_overflows := 0; data_count := 0;
                    data := replicate 8 0; reported := [] |} |}.

Definition hx71x_pending : HX71x.hx71x_adc :=
  HX71x.hx71x_event (HX71x.command_query_hx71x 1000 5 hx71x_configured).

(** The same sensor with one sample in its buffer: a second sample
    fills the buffer. *)
Definition hx71x_half_full : HX71x.hx71x_adc :=
  HX71x.set_sb
    {| possible_overflows := 0; data_count := 4;
       data := [1; 0; 0; 0; 0; 0; 0; 0]; reported := [] |}
    hx71x_pending.

(** A clean read of the word [0xAAAAAA]: the chip is ready, the bits
    alternate from 1, the data line is high after the read, the read
    takes 100 ticks, and the reschedule reads the time 300. *)
Definition hx71x_clean : HX71x.io :=
  {| HX71x.dout_before := false; HX71x.dout_bit := Nat.even; HX71x.dout_after := true;
     HX71x.time_start := 100; HX71x.time_end := 200; HX71x.time_resched := 300 |}.

(** A read after which the data line is low again. *)
Definition hx71x_ready_again : HX71x.io :=
  {| HX71x.dout_before := false; HX71x.dout_bit := Nat.even; HX71x.dout_after := false;
     HX71x.time_start := 100; HX71x.time_end := 200; HX71x.time_resched := 300 |}.

(** A poll that finds the chip not ready. *)
Definition hx71x_busy : HX71x.io :=
  {| HX71x.dout_before := true; HX71x.dout_bit := Nat.even; HX71x.dout_after := true;
     HX71x.time_start := 100; HX71x.time_end := 200; HX71x.time_resched := 300 |}.

(** A clean read that takes exactly [MAX_READ_TIME] = 3600 ticks. *)
Definition hx71x_on_the_limit : HX71x.io :=
  {| HX71x.dout_before := false; HX71x.dout_bit := Nat.even; HX71x.dout_after := true;
     HX71x.time_start := 100; HX71x.time_end := 3700; HX71x.time_resched := 3800 |}.

(** ADS1220 and ADS1256 sensors with an 8-byte buffer, started with a
    poll interval of 1000 ticks at time 5, whose timer has fired. *)
Definition ads1220_pending : ADS1220.ads1220_adc :=
  ADS1220.ads1220_event
    (ADS1220.command_query_ads1220 1000 5 (ADS1220.command_config_ads1220 8)).

Definition ads1256_pending : ADS1256.ads1256_adc :=
  ADS1256.ads1256_event
    (ADS1256.command_query_ads1256 1000 5 (ADS1256.command_config_ads1256 8)).

(** A transfer of the bytes [b0 b1 b2] that takes [ticks] ticks, with
    the chip ready. *)
Definition transfer (b0 b1 b2 ticks : Z) : Spi.io :=
  {| Spi.data_ready := false; Spi.msg0 := b0; Spi.msg1 := b1; Spi.msg2 := b2;
     Spi.time_start := 100; Spi.time_end := 100 + ticks; Spi.time_resched := 300 + ticks |}.

(** A poll that finds the chip not ready. *)
Definition spi_busy : Spi.io :=
  {| Spi.data_ready := true; Spi.msg0 := 0; Spi.msg1 := 0; Spi.msg2 := 0;
     Spi.time_start := 100; Spi.time_end := 200; Spi.time_resched := 300 |}.

End Examples.

(** ** HX71x: waiting on the timer *)

(** The timing helpers of the HX71x driver, as compiled for the boards
    that are not AVR (on AVR the two delays are empty macros).  The
    successive values of [timer_read_time()] are a list of readings, the
    next one first; a helper that reads the timer takes the readings it
    needs and returns the rest, or [None] when the readings run out
    while it still waits. *)
Module Timing.

Section Board.

Variable timer_from_us : Z -> Z.

(** [nsecs_to_ticks]: [timer_from_us(ns * 1000) / 1000000] on
    [uint32_t]. *)
Definition nsecs_to_ticks (ns : Z) : Z :=
  u32 (timer_from_us (u32 (u32 ns * 1000))) / 1000000.

(** Both HX717 and HX711 have a 200 ns minimum pulse time. *)
Definition MIN_PULSE_TIME : Z := nsecs_to_ticks 200.

End Board.

(** [hx71x_check_elapsed]: [t2 - t1 >= ticks] on the unsigned
    [hx71x_time_t], 32 bits wide as on the boards whose [unsigned int]
    has the width of the timer (not the AVR build, where it has 16). *)
Definition hx71x_check_elapsed (t1 t2 ticks : Z) : bool := u32 (t2 - t1) >=? ticks.

(** [hx71x_get_time]: the next reading of the timer. *)
Definition hx71x_get_time (clock : list Z) : option (Z * list Z) :=
  match clock with
  | [] => None
  | t :: rest => Some (u32 t, rest)
  end.

(** [hx71x_delay_no_irq]: read the timer until [ticks] have elapsed
    since [start].  The result is the reading that ended the wait and
    the readings left. *)
Fixpoint hx71x_delay_no_irq (start ticks : Z) (clock : list Z) : option (Z * list Z) :=
  match clock with
  | [] => None
  | t :: rest =>
      if hx71x_check_elapsed start (u32 t) ticks then Some (u32 t, rest)
      else hx71x_delay_no_irq start ticks rest
  end.

(** [hx71x_delay]: the same wait, with a call of [irq_poll()] after each
    reading that does not end it.  The result also counts these calls. *)
Fixpoint hx71x_delay (start ticks : Z) (clock : list Z) : option (nat * Z * list Z) :=
  match clock with
  | [] => None
  | t :: rest =>
      if hx71x_check_elapsed start (u32 t) ticks then Some (O, u32 t, rest)
      else
        match hx71x_delay start ticks rest with
        | Some (polls, last, rest') => Some (S polls, last, rest')
        | None => None
        end
  end.

(** The timer readings that bracket the two halves of one clock pulse:
    the clock pin is written high before [high_from] is read and low
    after [high_until] is read; it stays low from before [low_from] to
    after [low_until]. *)
Record pulse : Type := Pulse {
  high_from : Z;
  high_until : Z;
  low_from : Z;
  low_until : Z
}.

(** [hx71x_pulse_clocks], with the timer readings of its two waits of
    [min_pulse] ticks ([MIN_PULSE_TIME] in the source). *)
Definition hx71x_pulse_clocks (min_pulse : Z) (clock : list Z) : option (pulse * list Z) :=
  match hx71x_get_time clock with
  | None => None
  | Some (t0, clock) =>
      match hx71x_delay_no_irq t0 min_pulse clock with
      | None => None
      | Some (t1, clock) =>
          match hx71x_get_time clock with
          | None => None
          | Some (t2, clock) =>
              match hx71x_delay_no_irq t2 min_pulse clock with
              | None => None
              | Some (t3, clock) => Some (Pulse t0 t1 t2 t3, clock)
              end
          end
      end
  end.

End Timing.

(** ** Sample after sample *)

(** What the sample path of the three read functions does to the buffer,
    for one sample after the other: [add_sample], then
    [flush_samples]. *)
Fixpoint store_all (oid : Z) (samples : list Z) (sb : sensor_bulk) : outcome sensor_bulk :=
  match samples with
  | [] => Done sb
  | counts :: rest =>
      let* sb1 := Bulk.add_sample sb counts in
      store_all oid rest (Bulk.flush_samples sb1 oid)
  end.

(** An event that is not a command of the host. *)
Definition no_command {IO : Type} (e : event IO) : bool :=
  match e with
  | Query _ _ _ => false
  | _ => true
  end.

(** Splits a conjunction whose parts are hypotheses or hold by
    computation. *)
Ltac split_all :=
  repeat (split; [first [assumption | reflexivity] |]);
  first [assumption | reflexivity].

(** * Properties *)

(** ** Machine integers *)

Section WordFacts.

Lemma u32_small z : 0 <= z < 2 ^ 32 -> u32 z = z.
Proof. intros H. unfold u32. now apply Z.mod_small. Qed.

Lemma u32_range z : 0 <= u32 z < 2 ^ 32.
Proof. unfold u32. apply Z.mod_pos_bound. lia. Qed.

Lemma u8_small z : 0 <= z < 256 -> u8 z = z.
Proof. intros H. unfold u8. now apply Z.mod_small. Qed.

Lemma u8_range z : 0 <= u8 z < 256.
Proof. unfold u8. apply Z.mod_pos_bound. lia. Qed.

Lemma s32_small z : - 2 ^ 31 <= z < 2 ^ 31 -> s32 z = z.
Proof. intros H. unfold s32. rewrite Z.mod_small; lia. Qed.

Lemma s32_range z : - 2 ^ 31 <= s32 z < 2 ^ 31.
Proof.
  unfold s32. pose proof (Z.mod_pos_bound (z + 2 ^ 31) (2 ^ 32)). lia.
Qed.

(** A word below [2^k] has no bit in common with a multiple of [2^k]. *)
Lemma land_low_high v h k :
  0 <= k -> 0 <= v < 2 ^ k -> Z.land v (Z.shiftl h k) = 0.
Proof.
  intros Hk Hv. apply Z.bits_inj'. intros n Hn.
  rewrite Z.land_spec, Z.bits_0, Z.shiftl_spec by assumption.
  destruct (Z.ltb_spec n k) as [Hlt | Hge].
  - rewrite (Z.testbit_neg_r h) by lia. apply andb_false_r.
  - rewrite <- (Z.mod_small v (2 ^ k)) by assumption.
    rewrite Z.mod_pow2_bits_high by lia. reflexivity.
Qed.

Lemma lor_low_high v h k :
  0 <= k -> 0 <= v < 2 ^ k -> Z.lor v (Z.shiftl h k) = v + h * 2 ^ k.
Proof.
  intros Hk Hv. rewrite <- Z.lxor_lor by now apply land_low_high.
  rewrite <- Z.add_nocarry_lxor by now apply land_low_high.
  now rewrite Z.shiftl_mul_pow2.
Qed.

Lemma lxor_low_high v h k :
  0 <= k -> 0 <= v < 2 ^ k -> Z.lxor v (Z.shiftl h k) = v + h * 2 ^ k.
Proof.
  intros Hk Hv. rewrite <- Z.add_nocarry_lxor by now apply land_low_high.
  now rewrite Z.shiftl_mul_pow2.
Qed.

(** [v | 0xFF000000] on a 24-bit word. *)
Lemma lor_sign_bits v : 0 <= v < 2 ^ 24 -> Z.lor v 0xFF000000 = v + 0xFF000000.
Proof.
  intros Hv. change 0xFF000000 with (Z.shiftl 255 24) at 1.
  rewrite lor_low_high by lia. reflexivity.
Qed.

(** [v ^ 0x800000] on a 24-bit word: the sign bit is flipped. *)
Lemma lxor_sign_bit v :
  0 <= v < 2 ^ 24 ->
  Z.lxor v 0x800000 = if v <? 0x800000 then v + 0x800000 else v - 0x800000.
Proof.
  intros Hv. change 0x800000 with (Z.shiftl 1 23) at 1.
  destruct (Z.ltb_spec v 0x800000) as [Hlt | Hge].
  - rewrite lxor_low_high by lia. reflexivity.
  - replace v with (Z.lxor (v - 0x800000) (Z.shiftl 1 23)) at 1
      by (rewrite lxor_low_high by lia; change (1 * 2 ^ 23) with 0x800000; lia).
    rewrite Z.lxor_assoc, Z.lxor_nilpotent, Z.lxor_0_r. reflexivity.
Qed.

(** The four stored bytes are the little-endian digits of the 32-bit
    word. *)
Lemma of_le32_le32 c : of_le32 (le32 c) = u32 c.
Proof.
  unfold le32, of_le32, u8. pose proof (u32_range c) as Hr.
  rewrite !Z.shiftr_div_pow2 by lia.
  change (2 ^ 8) with 256. change (2 ^ 16) with 65536. change (2 ^ 24) with 16777216.
  change (2 ^ 32) with 4294967296 in Hr.
  generalize dependent (u32 c). intros w Hr.
  Z.div_mod_to_equations. lia.
Qed.

Lemma length_le32 c : length (le32 c) = 4%nat.
Proof. reflexivity. Qed.

End WordFacts.

(** ** The sample buffer *)

Section BulkFacts.

Lemma take_S_insert (l : list Z) (n : nat) (x : Z) :
  (n < length l)%nat -> take (S n) (<[n := x]> l) = take n l ++ [x].
Proof.
  intros Hn. rewrite (take_S_r _ _ x) by now apply list_lookup_insert_eq.
  rewrite take_insert_ge by lia. reflexivity.
Qed.

Lemma store_inside i b sb :
  (i < length (data sb))%nat ->
  store i b sb =
    Done (SensorBulk (possible_overflows sb) (data_count sb)
            (<[i := u8 b]> (data sb)) (reported sb)).
Proof.
  intros Hi. unfold store, ARRAY_SIZE.
  destruct (Nat.ltb_spec i (length (data sb))); [reflexivity | lia].
Qed.

Lemma store_outside i b sb :
  (length (data sb) <= i)%nat -> store i b sb = OutOfBounds.
Proof.
  intros Hi. unfold store, ARRAY_SIZE.
  destruct (Nat.ltb_spec i (length (data sb))); [lia | reflexivity].
Qed.

(** An append that fits stores the four bytes of the sample after the
    bytes already filled, and changes nothing else. *)
Lemma add_sample_fits sb counts :
  (data_count sb + 4 <= length (data sb))%nat ->
  exists d,
    Bulk.add_sample sb counts =
      Done (SensorBulk (possible_overflows sb) (data_count sb + 4) d (reported sb))
    /\ length d = length (data sb)
    /\ take (data_count sb + 4) d = take (data_count sb) (data sb) ++ le32 counts.
Proof.
  intros Hfit. unfold Bulk.add_sample.
  rewrite store_inside by lia. cbn [bind data data_count possible_overflows reported].
  rewrite store_inside by (cbn [data]; rewrite length_insert; lia).
  cbn [bind data data_count possible_overflows reported].
  rewrite store_inside by (cbn [data]; rewrite !length_insert; lia).
  cbn [bind data data_count possible_overflows reported].
  rewrite store_inside by (cbn [data]; rewrite !length_insert; lia).
  cbn [bind data data_count possible_overflows reported].
  eexists. split; [reflexivity |]. split.
  - now rewrite !length_insert.
  - set (n := data_count sb) in *.
    replace (n + 4)%nat with (S (n + 3)) by lia.
    rewrite take_S_insert by (rewrite !length_insert; lia).
    replace (n + 3)%nat with (S (n + 2)) by lia.
    rewrite take_S_insert by (rewrite !length_insert; lia).
    replace (n + 2)%nat with (S (n + 1)) by lia.
    rewrite take_S_insert by (rewrite !length_insert; lia).
    replace (n + 1)%nat with (S n) by lia.
    rewrite take_S_insert by lia.
    unfold le32. rewrite <- !app_assoc. reflexivity.
Qed.

(** An append that does not fit stores outside the array. *)
Lemma add_sample_overflows sb counts :
  (length (data sb) < data_count sb + 4)%nat ->
  Bulk.add_sample sb counts = OutOfBounds.
Proof.
  intros Hover. unfold Bulk.add_sample.
  destruct (Nat.ltb_spec (data_count sb) (length (data sb))) as [H0 | H0];
    [rewrite store_inside by lia | now rewrite store_outside by lia].
  cbn [bind data data_count].
  destruct (Nat.ltb_spec (data_count sb + 1) (length (data sb))) as [H1 | H1];
    [rewrite store_inside by (cbn [data]; rewrite length_insert; lia)
    | now rewrite store_outside by (cbn [data]; rewrite length_insert; lia)].
  cbn [bind data data_count].
  destruct (Nat.ltb_spec (data_count sb + 2) (length (data sb))) as [H2 | H2];
    [rewrite store_inside by (cbn [data]; rewrite !length_insert; lia)
    | now rewrite store_outside by (cbn [data]; rewrite !length_insert; lia)].
  cbn [bind data data_count].
  now rewrite store_outside by (cbn [data]; rewrite !length_insert; lia).
Qed.

Lemma stream_report sb oid : stream (sensor_bulk_report sb oid) = stream sb.
Proof.
  unfold stream, sensor_bulk_report. cbn [reported data_count data r_data].
  rewrite map_app, concat_app. cbn [map concat r_data].
  rewrite take_0, !app_nil_r. reflexivity.
Qed.

Lemma stream_flush sb oid : stream (Bulk.flush_samples sb oid) = stream sb.
Proof.
  unfold Bulk.flush_samples. destruct (_ <? _)%nat; [apply stream_report | reflexivity].
Qed.

Lemma stream_set_possible_overflows sb code :
  stream (set_possible_overflows sb code) = stream sb.
Proof. reflexivity. Qed.

(** The buffer of a sensor just created can take a sample when its
    array holds at least one. *)
Lemma config_buffer_ready capacity :
  (4 <= capacity)%nat ->
  append_ready (SensorBulk 0 0 (replicate capacity 0) []).
Proof.
  intros Hcap. unfold append_ready, ARRAY_SIZE. cbn [data_count data].
  rewrite length_replicate. split; [reflexivity | lia].
Qed.

(** After [flush_samples] one more sample fits, whenever the array can
    hold a sample at all. *)
Lemma flush_samples_ready sb oid :
  (4 <= length (data sb))%nat ->
  within_capacity sb -> append_ready (Bulk.flush_samples sb oid).
Proof.
  intros Hcap [Hmod Hle]. unfold Bulk.flush_samples, append_ready, ARRAY_SIZE, BYTES_PER_SAMPLE.
  destruct (Nat.ltb_spec (length (data sb)) (data_count sb + 4)) as [Hfull | Hroom].
  - cbn [sensor_bulk_report data_count data]. split; [reflexivity | lia].
  - split; [assumption | lia].
Qed.

Lemma flush_samples_length sb oid :
  length (data (Bulk.flush_samples sb oid)) = length (data sb).
Proof. unfold Bulk.flush_samples. now destruct (_ <? _)%nat. Qed.

End BulkFacts.

Section PipelineFacts.

(** How the error path treats the buffer: the sentinel is appended, the
    error code is recorded, and the buffer is reported once. *)
Lemma error_record_buffer sb counts code oid :
  (data_count sb + 4 <= length (data sb))%nat ->
  exists sb1,
    Bulk.add_sample sb counts = Done sb1
    /\ data_count (sensor_bulk_report (set_possible_overflows sb1 code) oid) = 0%nat
    /\ possible_overflows (sensor_bulk_report (set_possible_overflows sb1 code) oid)
       = u8 code
    /\ reported (sensor_bulk_report (set_possible_overflows sb1 code) oid)
       = reported sb ++ [Report oid (take (data_count sb) (data sb) ++ le32 counts)]
    /\ stream (sensor_bulk_report (set_possible_overflows sb1 code) oid)
       = stream sb ++ le32 counts
    /\ length (data (sensor_bulk_report (set_possible_overflows sb1 code) oid))
       = length (data sb).
Proof.
  intros Hfit. destruct (add_sample_fits sb counts Hfit) as (d & Hadd & Hlen & Htake).
  eexists. split; [exact Hadd |].
  cbn [sensor_bulk_report set_possible_overflows data_count possible_overflows
       reported data].
  repeat split; try assumption; try reflexivity.
  - now rewrite Htake.
  - unfold stream.
    cbn [sensor_bulk_report set_possible_overflows reported data_count data].
    rewrite map_app, concat_app. cbn [map concat r_data].
    rewrite Htake, take_0, !app_nil_r, app_assoc. reflexivity.
Qed.

(** How the sample path treats the buffer: the sample is appended, and
    the buffer is reported exactly when one more sample would not fit. *)
Lemma sample_buffer sb counts oid :
  append_ready sb ->
  exists sb1,
    Bulk.add_sample sb counts = Done sb1
    /\ within_capacity sb1
    /\ append_ready (Bulk.flush_samples sb1 oid)
    /\ stream (Bulk.flush_samples sb1 oid) = stream sb ++ le32 counts
    /\ possible_overflows (Bulk.flush_samples sb1 oid) = possible_overflows sb
    /\ length (data (Bulk.flush_samples sb1 oid)) = length (data sb)
    /\ (if (length (data sb) <? data_count sb + 8)%nat
        then data_count (Bulk.flush_samples sb1 oid) = 0%nat
             /\ reported (Bulk.flush_samples sb1 oid)
                = reported sb ++ [Report oid (take (data_count sb) (data sb) ++ le32 counts)]
        else data_count (Bulk.flush_samples sb1 oid) = (data_count sb + 4)%nat
             /\ reported (Bulk.flush_samples sb1 oid) = reported sb).
Proof.
  intros [Hmod Hfit]. unfold ARRAY_SIZE in Hfit.
  destruct (add_sample_fits sb counts Hfit) as (d & Hadd & Hlen & Htake).
  eexists. split; [exact Hadd |].
  set (sb1 := SensorBulk _ _ d _).
  assert (Hwithin : within_capacity sb1).
  { unfold within_capacity, ARRAY_SIZE. cbn [sb1 data_count data]. split.
    - rewrite <- Nat.Div0.add_mod_idemp_l, Hmod. reflexivity.
    - lia. }
  split; [exact Hwithin |]. split.
  { apply flush_samples_ready; [cbn [sb1 data]; lia | exact Hwithin]. }
  split.
  { rewrite stream_flush. unfold stream. cbn [sb1 reported data_count data].
    rewrite Htake, app_assoc. reflexivity. }
  unfold Bulk.flush_samples, ARRAY_SIZE, BYTES_PER_SAMPLE. cbn [sb1 data data_count].
  rewrite Hlen. replace (data_count sb + 4 + 4)%nat with (data_count sb + 8)%nat by lia.
  destruct (_ <? _)%nat;
    cbn [sensor_bulk_report possible_overflows data data_count reported];
    subst sb1; cbn [possible_overflows data data_count reported];
    rewrite ?Htake; repeat split; auto.
Qed.

End PipelineFacts.

(** ** HX71x: the read and its decoding *)

Section HX71xFacts.

Import HX71x.

Lemma level_range b : 0 <= level b < 2 ^ 1.
Proof. destruct b; cbn; lia. Qed.

Lemma shifted_range x n : forall idx acc k,
  0 <= k -> 0 <= acc < 2 ^ k -> 0 <= shifted x idx n acc < 2 ^ (k + Z.of_nat n).
Proof.
  induction n as [| n IH]; intros idx acc k Hk Hacc.
  - cbn [shifted]. now rewrite Z.add_0_r.
  - cbn [shifted]. replace (k + Z.of_nat (S n)) with ((k + 1) + Z.of_nat n) by lia.
    apply IH; [lia |]. rewrite Z.pow_add_r by lia.
    pose proof (level_range (dout_bit x idx)). change (2 ^ 1) with 2 in *. lia.
Qed.

Lemma raw_word_range x : 0 <= raw_word x < 2 ^ 24.
Proof. apply (shifted_range x 24 0%nat 0 0); lia. Qed.

Lemma pulse_twice s : hx71x_pulse_clocks (hx71x_pulse_clocks s) = hx71x_pulse_clocks s.
Proof. reflexivity. Qed.

Lemma pulses_clock_low n s :
  Nat.iter (S n) hx71x_pulse_clocks s = gpio_out_write false s.
Proof.
  induction n as [| n IH]; [reflexivity |].
  change (Nat.iter (S (S n)) hx71x_pulse_clocks s)
    with (hx71x_pulse_clocks (Nat.iter (S n) hx71x_pulse_clocks s)).
  rewrite IH. reflexivity.
Qed.

Lemma pulses_after_low n s :
  Nat.iter n hx71x_pulse_clocks (gpio_out_write false s) = gpio_out_write false s.
Proof. destruct n; [reflexivity | now rewrite pulses_clock_low]. Qed.

(** One step of the loop on a word that still fits 30 bits: shift and
    add the level read. *)
Lemma shift_step acc b :
  0 <= acc < 2 ^ 30 -> s32 (Z.lor (Z.shiftl acc 1) (level b)) = 2 * acc + level b.
Proof.
  intros Hacc. pose proof (level_range b) as Hb.
  rewrite Z.lor_comm, lor_low_high by lia.
  change (2 ^ 1) with 2 in *. rewrite s32_small; lia.
Qed.

(** The first loop leaves the pulsed sensor and the shifted word. *)
Lemma read_bits_shifted x n : forall idx s acc k,
  0 <= k -> k + Z.of_nat n <= 30 -> 0 <= acc < 2 ^ k ->
  read_bits x idx n s acc = (Nat.iter n hx71x_pulse_clocks s, shifted x idx n acc).
Proof.
  induction n as [| n IH]; intros idx s acc k Hk Hn Hacc; [reflexivity |].
  cbn [read_bits shifted].
  assert (Hlt : 2 ^ k <= 2 ^ 29) by (apply Z.pow_le_mono_r; lia).
  rewrite shift_step by (change (2 ^ 30) with (2 * 2 ^ 29); lia).
  rewrite (IH _ _ _ (k + 1)); try lia.
  - f_equal. symmetry. apply Nat.iter_succ_r.
  - rewrite Z.pow_add_r by lia.
    pose proof (level_range (dout_bit x idx)). change (2 ^ 1) with 2 in *. lia.
Qed.

(** What the read stage of [hx71x_read_adc] computes. *)
Lemma read_stage x s :
  read_bits x 0 24 s 0 = (gpio_out_write false s, raw_word x)
  /\ gain_pulses (gpio_out_write false s) = gpio_out_write false s.
Proof.
  split.
  - rewrite (read_bits_shifted x 24 0%nat s 0 0) by lia.
    rewrite pulses_clock_low. unfold raw_word. f_equal.
  - unfold gain_pulses. apply pulses_after_low.
Qed.

(** [hx71x_read_adc] when the chip reports a conversion. *)
Lemma hx71x_read_adc_ready (timer_from_us : Z -> Z) x s oid :
  dout_before x = false ->
  hx71x_read_adc timer_from_us x s oid =
    if negb (dout_after x) then
      send_error (gpio_out_write false s) oid ERROR_READY_AFTER_READ
    else if elapsed x >=? MAX_READ_TIME timer_from_us then
      send_error (gpio_out_write false s) oid ERROR_READ_TOO_LONG
    else
      store_counts x (gpio_out_write false s) oid (extend_counts (raw_word x)).
Proof.
  intros Hready. unfold hx71x_read_adc, hx71x_is_data_ready. rewrite Hready.
  cbn [negb]. destruct (read_stage x s) as [-> ->]. reflexivity.
Qed.

(** [hx71x_read_adc] when the chip is not ready: the poll is deferred. *)
Lemma hx71x_read_adc_not_ready (timer_from_us : Z -> Z) x s oid :
  dout_before x = true ->
  hx71x_read_adc timer_from_us x s oid =
    Done (hx71x_reschedule_timer (time_resched x) s).
Proof.
  intros Hbusy. unfold hx71x_read_adc, hx71x_is_data_ready. now rewrite Hbusy.
Qed.

(** The three cases of the decoding. *)
Lemma hx71x_extend_cases v :
  0 <= v <= 0xFFFFFF ->
  extend_counts v =
    if v =? 0x800000 then 0 else if v <? 0x800000 then v else v - 2 ^ 24.
Proof.
  intros Hv. unfold extend_counts.
  destruct (Z.eqb_spec v 0x800000) as [-> | Hne]; [reflexivity |].
  destruct (Z.gtb_spec v 0x800000) as [Hgt | Hle];
    destruct (Z.ltb_spec v 0x800000) as [Hlt | Hge]; try lia.
  rewrite u32_small by lia. rewrite lor_sign_bits by lia.
  unfold s32. Z.div_mod_to_equations. lia.
Qed.

Lemma hx71x_extend_in_range v :
  0 <= v <= 0xFFFFFF -> - 0x7FFFFF <= extend_counts v <= 0x7FFFFF.
Proof.
  intros Hv. rewrite hx71x_extend_cases by assumption.
  destruct (Z.eqb_spec v 0x800000); [lia |].
  destruct (Z.ltb_spec v 0x800000); lia.
Qed.

Lemma hx71x_out_of_range_iff c :
  out_of_range c = true <-> c < - 0x7FFFFF \/ c > 0x7FFFFF.
Proof.
  unfold out_of_range. rewrite orb_true_iff.
  destruct (Z.ltb_spec c (- 0x7FFFFF)), (Z.gtb_spec c 0x7FFFFF);
    split; intros; try lia; auto; intuition discriminate.
Qed.

(** [send_error] on a buffer with room for the sentinel. *)
Lemma hx71x_send_error_record s oid code :
  (data_count (sb s) + 4 <= length (data (sb s)))%nat ->
  exists s',
    send_error s oid code = Done s'
    /\ pending_flag s' = 0 /\ timer s' = timer s /\ rest_ticks s' = rest_ticks s
    /\ gain_channel s' = gain_channel s /\ sclk s' = sclk s
    /\ data_count (sb s') = 0%nat
    /\ possible_overflows (sb s') = u8 code
    /\ reported (sb s')
       = reported (sb s)
         ++ [Report oid (take (data_count (sb s)) (data (sb s)) ++ le32 SAMPLE_ERROR)]
    /\ stream (sb s') = stream (sb s) ++ le32 SAMPLE_ERROR
    /\ length (data (sb s')) = length (data (sb s)).
Proof.
  intros Hfit.
  destruct (error_record_buffer (sb s) SAMPLE_ERROR code oid Hfit)
    as (sb1 & Hadd & H0 & Hcode & Hrep & Hstream & Hlen).
  unfold send_error, add_sample. cbn [sb set_pending_flag]. rewrite Hadd.
  cbn [bind]. eexists. split; [reflexivity |].
  cbn [set_sb set_pending_flag pending_flag timer rest_ticks gain_channel sclk sb].
  split_all.
Qed.

(** The sample path of [store_counts]. *)
Lemma hx71x_store_counts_sample x s oid counts :
  append_ready (sb s) -> out_of_range counts = false ->
  exists s',
    store_counts x s oid counts = Done s'
    /\ pending_flag s' = 0
    /\ timer s' = Timer (u32 (u32 (time_resched x) + rest_ticks s)) true
    /\ rest_ticks s' = rest_ticks s
    /\ gain_channel s' = gain_channel s /\ sclk s' = sclk s
    /\ append_ready (sb s')
    /\ stream (sb s') = stream (sb s) ++ le32 counts
    /\ possible_overflows (sb s') = possible_overflows (sb s)
    /\ length (data (sb s')) = length (data (sb s)).
Proof.
  intros Hready Hin.
  destruct (sample_buffer (sb s) counts oid Hready)
    as (sb1 & Hadd & _ & Hnext & Hstream & Hcode & Hlen & _).
  unfold store_counts, add_sample. rewrite Hin, Hadd. cbn [bind].
  eexists. split; [reflexivity |].
  cbn [hx71x_reschedule_timer flush_samples set_sb set_timer set_pending_flag
       sched_add_timer pending_flag timer rest_ticks gain_channel sclk sb waketime].
  split_all.
Qed.

End HX71xFacts.

(** ** The SPI word *)

Section SpiFacts.

Import Spi.

(** The three bytes are the big-endian digits of the word. *)
Lemma word24_value x :
  word24 x = 65536 * u8 (msg0 x) + 256 * u8 (msg1 x) + u8 (msg2 x).
Proof.
  unfold word24.
  pose proof (u8_range (msg0 x)) as H0. pose proof (u8_range (msg1 x)) as H1.
  pose proof (u8_range (msg2 x)) as H2.
  set (b0 := u8 (msg0 x)) in *. set (b1 := u8 (msg1 x)) in *. set (b2 := u8 (msg2 x)) in *.
  rewrite (Z.lor_comm (Z.shiftl b0 16)).
  rewrite (Z.shiftl_mul_pow2 b1 8) by lia.
  rewrite lor_low_high by (change (2 ^ 16) with 65536; change (2 ^ 8) with 256; lia).
  replace (b1 * 2 ^ 8 + b0 * 2 ^ 16) with (Z.shiftl (b1 + 256 * b0) 8)
    by (rewrite Z.shiftl_mul_pow2 by lia; change (2 ^ 16) with 65536;
        change (2 ^ 8) with 256; lia).
  rewrite Z.lor_comm, lor_low_high by (change (2 ^ 8) with 256; lia).
  change (2 ^ 8) with 256. rewrite s32_small; lia.
Qed.

Lemma word24_range x : 0 <= word24 x < 2 ^ 24.
Proof.
  rewrite word24_value.
  pose proof (u8_range (msg0 x)). pose proof (u8_range (msg1 x)).
  pose proof (u8_range (msg2 x)). lia.
Qed.

(** Every 24-bit word is the word of some transfer. *)
Lemma word24_onto v (ready : bool) (t0 t1 t2 : Z) :
  0 <= v < 2 ^ 24 ->
  word24 (Io ready (v / 65536) (v / 256) v t0 t1 t2) = v.
Proof.
  intros Hv. rewrite word24_value. cbn [msg0 msg1 msg2]. unfold u8.
  change (2 ^ 24) with 16777216 in Hv. Z.div_mod_to_equations. lia.
Qed.

End SpiFacts.

(** ** ADS1220: the read and its decoding *)

Section ADS1220Facts.

Import Spi ADS1220.

Lemma ads1220_read_adc_ready (timer_from_us : Z -> Z) x s oid :
  data_ready x = false ->
  ads1220_read_adc timer_from_us x s oid =
    if time_diff x >=? MAX_SPI_READ_TIME timer_from_us then
      send_error s oid ERROR_READ_TOO_LONG
    else
      store_counts x s oid (extend_counts (word24 x)).
Proof.
  intros Hready. unfold ads1220_read_adc, ads1220_is_data_ready. now rewrite Hready.
Qed.

Lemma ads1220_read_adc_not_ready (timer_from_us : Z -> Z) x s oid :
  data_ready x = true ->
  ads1220_read_adc timer_from_us x s oid =
    Done (ads1220_reschedule_timer (time_resched x) s).
Proof.
  intros Hbusy. unfold ads1220_read_adc, ads1220_is_data_ready. now rewrite Hbusy.
Qed.

(** The two drivers decode a word alike. *)
Lemma ads1220_extend_hx71x v : ADS1220.extend_counts v = HX71x.extend_counts v.
Proof. reflexivity. Qed.

Lemma ads1220_out_of_range_hx71x c : ADS1220.out_of_range c = HX71x.out_of_range c.
Proof. reflexivity. Qed.

Lemma ads1220_send_error_record s oid code :
  (data_count (sb s) + 4 <= length (data (sb s)))%nat ->
  exists s',
    send_error s oid code = Done s'
    /\ pending_flag s' = 0 /\ timer s' = timer s /\ rest_ticks s' = rest_ticks s
    /\ data_count (sb s') = 0%nat
    /\ possible_overflows (sb s') = u8 code
    /\ reported (sb s')
       = reported (sb s)
         ++ [Report oid (take (data_count (sb s)) (data (sb s)) ++ le32 SAMPLE_ERROR)]
    /\ stream (sb s') = stream (sb s) ++ le32 SAMPLE_ERROR
    /\ length (data (sb s')) = length (data (sb s)).
Proof.
  intros Hfit.
  destruct (error_record_buffer (sb s) SAMPLE_ERROR code oid Hfit)
    as (sb1 & Hadd & H0 & Hcode & Hrep & Hstream & Hlen).
  unfold send_error, add_sample. cbn [sb set_pending_flag]. rewrite Hadd.
  cbn [bind]. eexists. split; [reflexivity |].
  cbn [set_sb set_pending_flag pending_flag timer rest_ticks sb].
  split_all.
Qed.

Lemma ads1220_store_counts_sample x s oid counts :
  append_ready (sb s) -> out_of_range counts = false ->
  exists s',
    store_counts x s oid counts = Done s'
    /\ pending_flag s' = 0
    /\ timer s' = Timer (u32 (u32 (time_resched x) + rest_ticks s)) true
    /\ rest_ticks s' = rest_ticks s
    /\ append_ready (sb s')
    /\ stream (sb s') = stream (sb s) ++ le32 counts
    /\ possible_overflows (sb s') = possible_overflows (sb s)
    /\ length (data (sb s')) = length (data (sb s)).
Proof.
  intros Hready Hin.
  destruct (sample_buffer (sb s) counts oid Hready)
    as (sb1 & Hadd & _ & Hnext & Hstream & Hcode & Hlen & _).
  unfold store_counts, add_sample. rewrite Hin, Hadd. cbn [bind].
  eexists. split; [reflexivity |].
  cbn [ads1220_reschedule_timer flush_samples set_sb set_timer set_pending_flag
       sched_add_timer pending_flag timer rest_ticks sb waketime].
  split_all.
Qed.

End ADS1220Facts.

(** ** ADS1256: the read and its decoding *)

Section ADS1256Facts.

Import Spi ADS1256.

(** The XOR/subtract extension on a 24-bit word. *)
Lemma ads1256_extend_cases v :
  0 <= v < 2 ^ 24 ->
  extend_counts v = if v <? 0x800000 then v else v - 2 ^ 24.
Proof.
  intros Hv. unfold extend_counts.
  change (u32 (Z.shiftl 1 (24 - 1))) with 0x800000.
  rewrite (u32_small v) by lia. rewrite lxor_sign_bit by assumption.
  destruct (Z.ltb_spec v 0x800000) as [Hlt | Hge].
  - rewrite (u32_small (v + 0x800000)) by lia.
    replace (v + 0x800000 - 0x800000) with v by lia.
    rewrite u32_small by lia. apply s32_small. lia.
  - rewrite (u32_small (v - 0x800000)) by lia.
    unfold u32, s32. Z.div_mod_to_equations. lia.
Qed.

Lemma ads1256_extend_range v :
  0 <= v < 2 ^ 24 -> - 0x800000 <= extend_counts v <= 0x7FFFFF.
Proof.
  intros Hv. rewrite ads1256_extend_cases by assumption.
  destruct (Z.ltb_spec v 0x800000); lia.
Qed.

(** The low bit of the flags after [set_flag(FLAG_PENDING, ...)]. *)
Lemma pending_after_set f : Z.land (u8 (Z.lor f FLAG_PENDING)) FLAG_PENDING = 1.
Proof.
  change FLAG_PENDING with 1. change 1 with (Z.ones 1) at 2.
  rewrite Z.land_ones by lia. change (2 ^ 1) with 2. unfold u8.
  assert (Hodd : Z.lor f 1 mod 2 = 1).
  { rewrite <- Z.bit0_mod, Z.lor_spec. change (Z.testbit 1 0) with true.
    now rewrite orb_true_r. }
  Z.div_mod_to_equations. lia.
Qed.

Lemma set_flag_pending s : is_flag_set FLAG_PENDING (set_flag FLAG_PENDING s) = true.
Proof.
  unfold is_flag_set, set_flag. cbn [set_flags flags].
  now rewrite Z.land_comm, pending_after_set.
Qed.

Lemma ads1256_read_adc_not_ready (timer_from_us : Z -> Z) x s oid :
  data_ready x = true ->
  ads1256_read_adc timer_from_us x s oid =
    Done (ads1256_reschedule_timer (time_resched x) s).
Proof.
  intros Hbusy. unfold ads1256_read_adc, ads1256_is_data_ready. now rewrite Hbusy.
Qed.

(** [ads1256_read_adc] when the chip reports a conversion: the
    "Invalid Counts" test never holds, so the read either halts on the
    timing test or on the word [-1], or appends the sample. *)
Lemma ads1256_read_adc_ready (timer_from_us : Z -> Z) x s oid :
  data_ready x = false ->
  ads1256_read_adc timer_from_us x s oid =
    if time_diff x >=? MAX_SPI_READ_TIME timer_from_us then
      Shutdown "ads1256 read timing error, read took too long"
    else if word24 x =? 0xFFFFFF then Shutdown "ads1256: Possible bad read"
    else
      let* s1 := add_sample s (extend_counts (word24 x)) in
      Done (ads1256_reschedule_timer (time_resched x)
              (flush_samples
                 (report_to_endstop s1 (extend_counts (word24 x)) (u32 (time_start x)))
                 oid)).
Proof.
  intros Hready. unfold ads1256_read_adc, ads1256_is_data_ready. rewrite Hready.
  cbn [negb level Z.eqb]. destruct (time_diff x >=? _); [reflexivity |].
  pose proof (word24_range x) as Hw.
  pose proof (ads1256_extend_range _ Hw) as Hr.
  rewrite (ads1256_extend_cases (word24 x) Hw) in *.
  destruct (Z.eqb_spec (word24 x) 0xFFFFFF) as [-> | Hne]; [reflexivity |].
  set (c := if word24 x <? 0x800000 then word24 x else word24 x - 2 ^ 24) in *.
  assert (Hc : c <> -1 /\ c < 0x800000)
    by (subst c; destruct (Z.ltb_spec (word24 x) 0x800000); lia).
  destruct (Z.eqb_spec c (-1)); [lia |].
  destruct (Z.geb_spec c 0x800000); [lia | reflexivity].
Qed.

(** The sample path of [ads1256_read_adc]. *)
Lemma ads1256_sample (timer_from_us : Z -> Z) x s oid :
  data_ready x = false ->
  time_diff x < MAX_SPI_READ_TIME timer_from_us ->
  word24 x <> 0xFFFFFF ->
  append_ready (sb s) ->
  exists s',
    ads1256_read_adc timer_from_us x s oid = Done s'
    /\ flags s' = u8 (Z.lor (flags s) FLAG_PENDING)
    /\ timer s' = Timer (u32 (u32 (time_resched x) + rest_ticks s)) true
    /\ rest_ticks s' = rest_ticks s
    /\ append_ready (sb s')
    /\ stream (sb s') = stream (sb s) ++ le32 (extend_counts (word24 x))
    /\ possible_overflows (sb s') = possible_overflows (sb s)
    /\ length (data (sb s')) = length (data (sb s)).
Proof.
  intros Hready Htime Hword Hroom.
  rewrite ads1256_read_adc_ready by assumption.
  destruct (Z.geb_spec (time_diff x) (MAX_SPI_READ_TIME timer_from_us)); [lia |].
  destruct (Z.eqb_spec (word24 x) 0xFFFFFF); [contradiction |].
  destruct (sample_buffer (sb s) (extend_counts (word24 x)) oid Hroom)
    as (sb1 & Hadd & _ & Hnext & Hstream & Hcode & Hlen & _).
  unfold add_sample. rewrite Hadd. cbn [bind].
  eexists. split; [reflexivity |].
  unfold report_to_endstop. cbn [set_sb lce].
  destruct (lce s);
    cbn [ads1256_reschedule_timer flush_samples set_flag set_flags set_sb set_timer
         set_lce sched_add_timer flags timer rest_ticks sb waketime];
    split_all.
Qed.

End ADS1256Facts.

(** ** What one poll does *)

Section Polls.

Lemma append_ready_fits sb0 :
  append_ready sb0 -> (data_count sb0 + 4 <= length (data sb0))%nat.
Proof. now intros [_ Hfit]. Qed.

Lemma append_ready_emptied (sb0 sb1 : sensor_bulk) :
  (data_count sb0 + 4 <= length (data sb0))%nat -> data_count sb1 = 0%nat ->
  length (data sb1) = length (data sb0) -> append_ready sb1.
Proof.
  intros Hfit H0 Hlen. unfold append_ready, ARRAY_SIZE in *.
  rewrite H0, Hlen. split; [reflexivity | lia].
Qed.

(** An HX71x poll that ends in an error record: the data line is low
    again after the read, or the read took [MAX_READ_TIME] or longer. *)
Lemma hx71x_poll_error (timer_from_us : Z -> Z) x s oid :
  HX71x.dout_before x = false ->
  HX71x.dout_after x = false \/ HX71x.MAX_READ_TIME timer_from_us <= HX71x.elapsed x ->
  (data_count (HX71x.sb s) + 4 <= length (data (HX71x.sb s)))%nat ->
  exists s',
    HX71x.hx71x_read_adc timer_from_us x s oid = Done s'
    /\ HX71x.pending_flag s' = 0
    /\ HX71x.timer s' = HX71x.timer s
    /\ HX71x.rest_ticks s' = HX71x.rest_ticks s
    /\ data_count (HX71x.sb s') = 0%nat
    /\ possible_overflows (HX71x.sb s')
       = (if HX71x.dout_after x then HX71x.ERROR_READ_TOO_LONG
          else HX71x.ERROR_READY_AFTER_READ)
    /\ reported (HX71x.sb s')
       = reported (HX71x.sb s)
         ++ [Report oid (take (data_count (HX71x.sb s)) (data (HX71x.sb s))
                         ++ le32 HX71x.SAMPLE_ERROR)]
    /\ stream (HX71x.sb s') = stream (HX71x.sb s) ++ le32 HX71x.SAMPLE_ERROR
    /\ append_ready (HX71x.sb s').
Proof.
  intros Hready Hbad Hfit. rewrite hx71x_read_adc_ready by assumption.
  assert (Hcase : exists code,
    (if negb (HX71x.dout_after x) then
       HX71x.send_error (HX71x.gpio_out_write false s) oid HX71x.ERROR_READY_AFTER_READ
     else if HX71x.elapsed x >=? HX71x.MAX_READ_TIME timer_from_us then
       HX71x.send_error (HX71x.gpio_out_write false s) oid HX71x.ERROR_READ_TOO_LONG
     else HX71x.store_counts x (HX71x.gpio_out_write false s) oid
            (HX71x.extend_counts (HX71x.raw_word x)))
    = HX71x.send_error (HX71x.gpio_out_write false s) oid code
    /\ u8 code = (if HX71x.dout_after x then HX71x.ERROR_READ_TOO_LONG
                  else HX71x.ERROR_READY_AFTER_READ)).
  { destruct (HX71x.dout_after x) eqn:Hafter; cbn [negb].
    - destruct Hbad as [Hbad | Hlong]; [discriminate |].
      destruct (Z.geb_spec (HX71x.elapsed x) (HX71x.MAX_READ_TIME timer_from_us));
        [| lia].
      now exists HX71x.ERROR_READ_TOO_LONG.
    - now exists HX71x.ERROR_READY_AFTER_READ. }
  destruct Hcase as (code & -> & Hcode).
  destruct (hx71x_send_error_record (HX71x.gpio_out_write false s) oid code Hfit)
    as (s' & Hrun & Hp & Ht & Hr & _ & _ & H0 & Hpo & Hrep & Hstr & Hlen).
  exists s'. rewrite Hpo, Hcode.
  cbn [HX71x.gpio_out_write HX71x.sb HX71x.timer HX71x.rest_ticks] in *.
  pose proof (append_ready_emptied _ _ Hfit H0 Hlen). split_all.
Qed.

(** An HX71x poll that produces a sample. *)
Lemma hx71x_poll_sample (timer_from_us : Z -> Z) x s oid :
  HX71x.dout_before x = false ->
  HX71x.dout_after x = true ->
  HX71x.elapsed x < HX71x.MAX_READ_TIME timer_from_us ->
  append_ready (HX71x.sb s) ->
  exists s',
    HX71x.hx71x_read_adc timer_from_us x s oid = Done s'
    /\ HX71x.pending_flag s' = 0
    /\ HX71x.timer s'
       = Timer (u32 (u32 (HX71x.time_resched x) + HX71x.rest_ticks s)) true
    /\ HX71x.rest_ticks s' = HX71x.rest_ticks s
    /\ possible_overflows (HX71x.sb s') = possible_overflows (HX71x.sb s)
    /\ stream (HX71x.sb s')
       = stream (HX71x.sb s) ++ le32 (HX71x.extend_counts (HX71x.raw_word x))
    /\ append_ready (HX71x.sb s').
Proof.
  intros Hready Hafter Htime Hroom. rewrite hx71x_read_adc_ready by assumption.
  rewrite Hafter. cbn [negb].
  destruct (Z.geb_spec (HX71x.elapsed x) (HX71x.MAX_READ_TIME timer_from_us)); [lia |].
  assert (Hin : HX71x.out_of_range (HX71x.extend_counts (HX71x.raw_word x)) = false).
  { pose proof (raw_word_range x) as Hraw.
    pose proof (hx71x_extend_in_range (HX71x.raw_word x) ltac:(lia)) as Hr.
    destruct (HX71x.out_of_range _) eqn:Hout; [| reflexivity].
    apply hx71x_out_of_range_iff in Hout. lia. }
  destruct (hx71x_store_counts_sample x (HX71x.gpio_out_write false s) oid _ Hroom Hin)
    as (s' & Hrun & Hp & Ht & Hr & _ & _ & Hnext & Hstr & Hpo & _).
  exists s'. cbn [HX71x.gpio_out_write HX71x.sb HX71x.timer HX71x.rest_ticks] in *.
  split_all.
Qed.

(** Every HX71x poll on a buffer that can take a sample returns and
    leaves a buffer that can take a sample. *)
Lemma hx71x_poll_keeps_ready (timer_from_us : Z -> Z) x s oid :
  append_ready (HX71x.sb s) ->
  exists s',
    HX71x.hx71x_read_adc timer_from_us x s oid = Done s'
    /\ append_ready (HX71x.sb s').
Proof.
  intros Hroom. destruct (HX71x.dout_before x) eqn:Hbefore.
  - rewrite hx71x_read_adc_not_ready by assumption. eexists. split; [reflexivity |].
    exact Hroom.
  - destruct (HX71x.dout_after x) eqn:Hafter.
    + destruct (Z.lt_ge_cases (HX71x.elapsed x) (HX71x.MAX_READ_TIME timer_from_us)).
      * destruct (hx71x_poll_sample timer_from_us x s oid) as (s' & Hrun & H'); try assumption.
        exists s'. split; [exact Hrun | apply H'].
      * destruct (hx71x_poll_error timer_from_us x s oid) as (s' & Hrun & H');
          try assumption; [now right | now apply append_ready_fits |].
        exists s'. split; [exact Hrun | apply H'].
    + destruct (hx71x_poll_error timer_from_us x s oid) as (s' & Hrun & H');
        try assumption; [now left | now apply append_ready_fits |].
      exists s'. split; [exact Hrun | apply H'].
Qed.

(** An ADS1220 poll that ends in an error record: the transfer took
    [MAX_SPI_READ_TIME] or longer. *)
Lemma ads1220_poll_error (timer_from_us : Z -> Z) x s oid :
  Spi.data_ready x = false ->
  ADS1220.MAX_SPI_READ_TIME timer_from_us <= Spi.time_diff x ->
  (data_count (ADS1220.sb s) + 4 <= length (data (ADS1220.sb s)))%nat ->
  exists s',
    ADS1220.ads1220_read_adc timer_from_us x s oid = Done s'
    /\ ADS1220.pending_flag s' = 0
    /\ ADS1220.timer s' = ADS1220.timer s
    /\ ADS1220.rest_ticks s' = ADS1220.rest_ticks s
    /\ data_count (ADS1220.sb s') = 0%nat
    /\ possible_overflows (ADS1220.sb s') = ADS1220.ERROR_READ_TOO_LONG
    /\ reported (ADS1220.sb s')
       = reported (ADS1220.sb s)
         ++ [Report oid (take (data_count (ADS1220.sb s)) (data (ADS1220.sb s))
                         ++ le32 ADS1220.SAMPLE_ERROR)]
    /\ stream (ADS1220.sb s') = stream (ADS1220.sb s) ++ le32 ADS1220.SAMPLE_ERROR
    /\ append_ready (ADS1220.sb s').
Proof.
  intros Hready Hlong Hfit. rewrite ads1220_read_adc_ready by assumption.
  destruct (Z.geb_spec (Spi.time_diff x) (ADS1220.MAX_SPI_READ_TIME timer_from_us));
    [| lia].
  destruct (ads1220_send_error_record s oid ADS1220.ERROR_READ_TOO_LONG Hfit)
    as (s' & Hrun & Hp & Ht & Hr & H0 & Hpo & Hrep & Hstr & Hlen).
  exists s'. pose proof (append_ready_emptied _ _ Hfit H0 Hlen). split_all.
Qed.

(** An ADS1220 poll that produces a sample. *)
Lemma ads1220_poll_sample (timer_from_us : Z -> Z) x s oid :
  Spi.data_ready x = false ->
  Spi.time_diff x < ADS1220.MAX_SPI_READ_TIME timer_from_us ->
  append_ready (ADS1220.sb s) ->
  exists s',
    ADS1220.ads1220_read_adc timer_from_us x s oid = Done s'
    /\ ADS1220.pending_flag s' = 0
    /\ ADS1220.timer s'
       = Timer (u32 (u32 (Spi.time_resched x) + ADS1220.rest_ticks s)) true
    /\ ADS1220.rest_ticks s' = ADS1220.rest_ticks s
    /\ possible_overflows (ADS1220.sb s') = possible_overflows (ADS1220.sb s)
    /\ stream (ADS1220.sb s')
       = stream (ADS1220.sb s) ++ le32 (ADS1220.extend_counts (Spi.word24 x))
    /\ append_ready (ADS1220.sb s').
Proof.
  intros Hready Htime Hroom. rewrite ads1220_read_adc_ready by assumption.
  destruct (Z.geb_spec (Spi.time_diff x) (ADS1220.MAX_SPI_READ_TIME timer_from_us));
    [lia |].
  assert (Hin : ADS1220.out_of_range (ADS1220.extend_counts (Spi.word24 x)) = false).
  { pose proof (word24_range x) as Hraw.
    pose proof (hx71x_extend_in_range (Spi.word24 x) ltac:(lia)) as Hr.
    rewrite ads1220_out_of_range_hx71x, ads1220_extend_hx71x.
    destruct (HX71x.out_of_range _) eqn:Hout; [| reflexivity].
    apply hx71x_out_of_range_iff in Hout. lia. }
  destruct (ads1220_store_counts_sample x s oid _ Hroom Hin)
    as (s' & Hrun & Hp & Ht & Hr & Hnext & Hstr & Hpo & _).
  exists s'. split_all.
Qed.

Lemma ads1220_poll_keeps_ready (timer_from_us : Z -> Z) x s oid :
  append_ready (ADS1220.sb s) ->
  exists s',
    ADS1220.ads1220_read_adc timer_from_us x s oid = Done s'
    /\ append_ready (ADS1220.sb s').
Proof.
  intros Hroom. destruct (Spi.data_ready x) eqn:Hbefore.
  - rewrite ads1220_read_adc_not_ready by assumption. eexists. split; [reflexivity |].
    exact Hroom.
  - destruct (Z.lt_ge_cases (Spi.time_diff x) (ADS1220.MAX_SPI_READ_TIME timer_from_us)).
    + destruct (ads1220_poll_sample timer_from_us x s oid) as (s' & Hrun & H');
        try assumption.
      exists s'. split; [exact Hrun | apply H'].
    + destruct (ads1220_poll_error timer_from_us x s oid) as (s' & Hrun & H');
        try assumption; [now apply append_ready_fits |].
      exists s'. split; [exact Hrun | apply H'].
Qed.

(** An ADS1256 poll on a buffer that can take a sample returns with a
    buffer that can take a sample, or halts the firmware; it never
    stores outside the buffer. *)
Lemma ads1256_poll_keeps_ready (timer_from_us : Z -> Z) x s oid :
  append_ready (ADS1256.sb s) ->
  (exists s',
     ADS1256.ads1256_read_adc timer_from_us x s oid = Done s'
     /\ append_ready (ADS1256.sb s')
     /\ ADS1256.timer s'
        = Timer (u32 (u32 (Spi.time_resched x) + ADS1256.rest_ticks s)) true
     /\ ADS1256.flags s' = u8 (Z.lor (ADS1256.flags s) ADS1256.FLAG_PENDING))
  \/ (exists msg, ADS1256.ads1256_read_adc timer_from_us x s oid = Shutdown msg).
Proof.
  intros Hroom. destruct (Spi.data_ready x) eqn:Hbefore.
  - left. rewrite ads1256_read_adc_not_ready by assumption. eexists.
    split; [reflexivity |]. split; [exact Hroom |]. split; reflexivity.
  - destruct (Z.lt_ge_cases (Spi.time_diff x) (ADS1256.MAX_SPI_READ_TIME timer_from_us))
      as [Htime | Hlong].
    + destruct (Z.eq_dec (Spi.word24 x) 0xFFFFFF) as [Hbad | Hword].
      * right. rewrite ads1256_read_adc_ready by assumption.
        destruct (Z.geb_spec (Spi.time_diff x)
                    (ADS1256.MAX_SPI_READ_TIME timer_from_us)); [lia |].
        rewrite Hbad. cbn [Z.eqb Pos.eqb]. eauto.
      * left.
        destruct (ads1256_sample timer_from_us x s oid)
          as (s' & Hrun & Hf & Ht & _ & Hnext & _); try assumption.
        exists s'. split_all.
    + right. rewrite ads1256_read_adc_ready by assumption.
      destruct (Z.geb_spec (Spi.time_diff x)
                  (ADS1256.MAX_SPI_READ_TIME timer_from_us)); [| lia].
      eauto.
Qed.

End Polls.

(** ** Sequences of events *)

Section Families.

Context {D : Type} (P : D -> Prop).

(** A loop over the sensors whose body returns and keeps [P] returns
    and keeps [P] for every sensor. *)
Lemma foreach_oid_keeps (body : Z -> D -> outcome D) :
  (forall oid d, P d -> exists d', body oid d = Done d' /\ P d') ->
  forall l first, Forall P l ->
    exists l', foreach_oid body first l = Done l' /\ Forall P l'.
Proof.
  intros Hbody l. induction l as [| d l IH]; intros first Hall.
  - exists []. split; [reflexivity | constructor].
  - apply Forall_cons in Hall as [Hd Hl].
    destruct (Hbody first d Hd) as (d' & Hrun & Hd').
    destruct (IH (first + 1) Hl) as (l' & Hrest & Hl').
    exists (d' :: l'). cbn [foreach_oid]. rewrite Hrun. cbn [bind]. rewrite Hrest.
    split; [reflexivity | now constructor].
Qed.

(** The same when the body may halt the firmware: the loop returns and
    keeps [P], or halts; it never stores outside a buffer. *)
Lemma foreach_oid_keeps_or_halts (body : Z -> D -> outcome D) :
  (forall oid d, P d ->
     (exists d', body oid d = Done d' /\ P d') \/ (exists msg, body oid d = Shutdown msg)) ->
  forall l first, Forall P l ->
    (exists l', foreach_oid body first l = Done l' /\ Forall P l')
    \/ (exists msg, foreach_oid body first l = Shutdown msg).
Proof.
  intros Hbody l. induction l as [| d l IH]; intros first Hall.
  - left. exists []. split; [reflexivity | constructor].
  - apply Forall_cons in Hall as [Hd Hl]. cbn [foreach_oid].
    destruct (Hbody first d Hd) as [(d' & Hrun & Hd') | (msg & Hrun)]; rewrite Hrun;
      cbn [bind]; [| right; eauto].
    destruct (IH (first + 1) Hl) as [(l' & Hrest & Hl') | (msg & Hrest)]; rewrite Hrest;
      cbn [bind]; [left | right; eauto].
    exists (d' :: l'). split; [reflexivity | now constructor].
Qed.

Lemma timer_due_keeps (armed : D -> bool) (handler : D -> D) oid f :
  (forall d, P d -> P (handler d)) ->
  Forall P (objs f) -> Forall P (objs (timer_due armed handler oid f)).
Proof.
  intros Hev Hall. unfold timer_due.
  destruct (objs f !! oid) as [d |] eqn:Hd; [| exact Hall].
  destruct (armed d); [| exact Hall].
  cbn [sched_wake_task objs]. apply Forall_insert; [exact Hall |].
  apply Hev. exact (Forall_lookup_1 _ _ _ _ Hall Hd).
Qed.

Lemma on_sensor_keeps (query : D -> D) oid f :
  (forall d, P d -> P (query d)) ->
  Forall P (objs f) -> Forall P (objs (on_sensor query oid f)).
Proof.
  intros Hq Hall. unfold on_sensor.
  destruct (objs f !! oid) as [d |] eqn:Hd; [| exact Hall].
  cbn [objs]. apply Forall_insert; [exact Hall |].
  apply Hq. exact (Forall_lookup_1 _ _ _ _ Hall Hd).
Qed.

(** A sequence of events whose steps return and keep an invariant of
    the family returns and keeps it. *)
Lemma run_keeps {IO : Type} (step : event IO -> family D -> outcome (family D)) :
  (forall e f, Forall P (objs f) ->
     exists f', step e f = Done f' /\ Forall P (objs f')) ->
  forall events f, Forall P (objs f) ->
    exists f', run step events f = Done f' /\ Forall P (objs f').
Proof.
  intros Hstep events. induction events as [| e events IH]; intros f Hall.
  - exists f. split; [reflexivity | exact Hall].
  - destruct (Hstep e f Hall) as (f1 & Hrun & Hall1). cbn [run]. rewrite Hrun.
    cbn [bind]. now apply IH.
Qed.

Lemma run_keeps_or_halts {IO : Type}
    (step : event IO -> family D -> outcome (family D)) :
  (forall e f, Forall P (objs f) ->
     (exists f', step e f = Done f' /\ Forall P (objs f'))
     \/ (exists msg, step e f = Shutdown msg)) ->
  forall events f, Forall P (objs f) ->
    (exists f', run step events f = Done f' /\ Forall P (objs f'))
    \/ (exists msg, run step events f = Shutdown msg).
Proof.
  intros Hstep events. induction events as [| e events IH]; intros f Hall.
  - left. exists f. split; [reflexivity | exact Hall].
  - cbn [run].
    destruct (Hstep e f Hall) as [(f1 & Hrun & Hall1) | (msg & Hrun)]; rewrite Hrun;
      cbn [bind]; [now apply IH | right; eauto].
Qed.

End Families.

Section Steps.

Lemma hx71x_query_keeps_ready rest now s :
  append_ready (HX71x.sb s) ->
  append_ready (HX71x.sb (HX71x.command_query_hx71x rest now s)).
Proof.
  intros Hroom. unfold HX71x.command_query_hx71x.
  cbn [HX71x.set_rest_ticks HX71x.rest_ticks].
  destruct (u32 rest =? 0); [exact Hroom |].
  cbn [HX71x.hx71x_reschedule_timer HX71x.set_timer HX71x.set_sb HX71x.sb].
  apply (append_ready_emptied (HX71x.sb s)); [now apply append_ready_fits | reflexivity ..].
Qed.

Lemma ads1220_query_keeps_ready rest now s :
  append_ready (ADS1220.sb s) ->
  append_ready (ADS1220.sb (ADS1220.command_query_ads1220 rest now s)).
Proof.
  intros Hroom. unfold ADS1220.command_query_ads1220.
  cbn [ADS1220.set_rest_ticks ADS1220.rest_ticks].
  destruct (u32 rest =? 0); [exact Hroom |].
  cbn [ADS1220.ads1220_reschedule_timer ADS1220.set_timer ADS1220.set_sb ADS1220.sb].
  apply (append_ready_emptied (ADS1220.sb s));
    [now apply append_ready_fits | reflexivity ..].
Qed.

Lemma ads1256_query_keeps_ready rest now s :
  append_ready (ADS1256.sb s) ->
  append_ready (ADS1256.sb (ADS1256.command_query_ads1256 rest now s)).
Proof.
  intros Hroom. unfold ADS1256.command_query_ads1256.
  cbn [ADS1256.set_rest_ticks ADS1256.rest_ticks].
  destruct (u32 rest =? 0); [exact Hroom |].
  cbn [ADS1256.ads1256_reschedule_timer ADS1256.set_timer ADS1256.set_sb ADS1256.sb
       ADS1256.set_flag ADS1256.set_flags].
  apply (append_ready_emptied (ADS1256.sb s));
    [now apply append_ready_fits | reflexivity ..].
Qed.

Lemma hx71x_step_keeps_ready timer_from_us e f :
  Forall (fun d => append_ready (HX71x.sb d)) (objs f) ->
  exists f',
    hx71x_step timer_from_us e f = Done f'
    /\ Forall (fun d => append_ready (HX71x.sb d)) (objs f').
Proof.
  intros Hall. destruct e as [oid | ios | oid rest now]; cbn [hx71x_step].
  - eexists. split; [reflexivity |]. now apply timer_due_keeps.
  - unfold HX71x.hx71x_capture_task. destruct (wake f); cbn [negb]; [| eauto].
    destruct (foreach_oid_keeps (fun d => append_ready (HX71x.sb d))
                (HX71x.capture_one timer_from_us ios)) with (l := objs f) (first := 0)
      as (l' & Hrun & Hall'); [| exact Hall |].
    + intros oid d Hd. unfold HX71x.capture_one.
      destruct (HX71x.pending_flag d =? 0); [eauto |].
      now apply hx71x_poll_keeps_ready.
    + rewrite Hrun. cbn [bind]. eauto.
  - eexists. split; [reflexivity |]. apply on_sensor_keeps; [| exact Hall].
    intros d. apply hx71x_query_keeps_ready.
Qed.

Lemma ads1220_step_keeps_ready timer_from_us e f :
  Forall (fun d => append_ready (ADS1220.sb d)) (objs f) ->
  exists f',
    ads1220_step timer_from_us e f = Done f'
    /\ Forall (fun d => append_ready (ADS1220.sb d)) (objs f').
Proof.
  intros Hall. destruct e as [oid | ios | oid rest now]; cbn [ads1220_step].
  - eexists. split; [reflexivity |]. now apply timer_due_keeps.
  - unfold ADS1220.ads1220_capture_task. destruct (wake f); cbn [negb]; [| eauto].
    destruct (foreach_oid_keeps (fun d => append_ready (ADS1220.sb d))
                (ADS1220.capture_one timer_from_us ios)) with (l := objs f) (first := 0)
      as (l' & Hrun & Hall'); [| exact Hall |].
    + intros oid d Hd. unfold ADS1220.capture_one.
      destruct (ADS1220.pending_flag d =? 0); [eauto |].
      now apply ads1220_poll_keeps_ready.
    + rewrite Hrun. cbn [bind]. eauto.
  - eexists. split; [reflexivity |]. apply on_sensor_keeps; [| exact Hall].
    intros d. apply ads1220_query_keeps_ready.
Qed.

Lemma ads1256_step_keeps_ready timer_from_us e f :
  Forall (fun d => append_ready (ADS1256.sb d)) (objs f) ->
  (exists f',
     ads1256_step timer_from_us e f = Done f'
     /\ Forall (fun d => append_ready (ADS1256.sb d)) (objs f'))
  \/ (exists msg, ads1256_step timer_from_us e f = Shutdown msg).
Proof.
  intros Hall. destruct e as [oid | ios | oid rest now]; cbn [ads1256_step].
  - left. eexists. split; [reflexivity |]. now apply timer_due_keeps.
  - unfold ADS1256.ads1256_capture_task. destruct (wake f); cbn [negb]; [| eauto].
    destruct (foreach_oid_keeps_or_halts (fun d => append_ready (ADS1256.sb d))
                (ADS1256.capture_one timer_from_us ios)) with (l := objs f) (first := 0)
      as [(l' & Hrun & Hall') | (msg & Hrun)]; [| exact Hall | |].
    + intros oid d Hd. unfold ADS1256.capture_one.
      destruct (Z.land (ADS1256.flags d) ADS1256.FLAG_PENDING =? 0); [eauto |].
      destruct (ads1256_poll_keeps_ready timer_from_us (ios oid) d oid Hd)
        as [(d' & Hrun & Hd' & _) | Hhalt]; eauto.
    + rewrite Hrun. cbn [bind]. eauto.
    + rewrite Hrun. cbn [bind]. eauto.
  - left. eexists. split; [reflexivity |]. apply on_sensor_keeps; [| exact Hall].
    intros d. apply ads1256_query_keeps_ready.
Qed.

End Steps.

(** ** Worked examples *)

Section Worked.

Import Examples.

Example hx71x_config_creates :
  HX71x.command_config_hx71x 8 1 = Done hx71x_configured.
Proof. reflexivity. Qed.

Example hx71x_config_rejects_gain_5 :
  HX71x.command_config_hx71x 8 5 = Shutdown "HX71x gain/channel out of range 1-4".
Proof. reflexivity. Qed.

(** The alternating bits from 1 are the word [0xAAAAAA], a negative
    reading; it decodes to [0xAAAAAA - 2^24]. *)
Example hx71x_clean_word :
  HX71x.raw_word hx71x_clean = 0xAAAAAA
  /\ HX71x.extend_counts (HX71x.raw_word hx71x_clean) = -5592406
  /\ le32 (-5592406) = [0xAA; 0xAA; 0xAA; 0xFF].
Proof. repeat split. Qed.

(** The first sample of an 8-byte buffer stays in the buffer; the
    second fills it and the buffer is reported; the third starts it
    again. *)
Example hx71x_three_polls :
  exists s,
    run (hx71x_step board_72mhz)
      [TaskRun (fun _ => hx71x_clean);
       TimerDue 0; TaskRun (fun _ => hx71x_clean);
       TimerDue 0; TaskRun (fun _ => hx71x_clean)]
      (Family true [hx71x_pending]) = Done (Family false [s])
    /\ reported (HX71x.sb s)
       = [Report 0 [0xAA; 0xAA; 0xAA; 0xFF; 0xAA; 0xAA; 0xAA; 0xFF]]
    /\ data_count (HX71x.sb s) = 4%nat
    /\ HX71x.timer s = Timer 1300 true.
Proof. eexists. split; [vm_compute; reflexivity | repeat split]. Qed.

(** An append on a buffer without room stores outside the array. *)
Example add_sample_on_full_buffer :
  Bulk.add_sample (SensorBulk 0 8 (replicate 8 0) []) 1 = OutOfBounds.
Proof. reflexivity. Qed.

(** A poll while the timer is still outstanding: the task skips a
    sensor that is not pending. *)
Example ads1220_task_skips_idle_sensor :
  ADS1220.ads1220_capture_task board_72mhz (fun _ => transfer 0 0 1 100)
    (Family true [ADS1220.command_query_ads1220 1000 5 (ADS1220.command_config_ads1220 8)])
  = Done (Family false
            [ADS1220.command_query_ads1220 1000 5 (ADS1220.command_config_ads1220 8)]).
Proof. reflexivity. Qed.

End Worked.

(** * The claims *)

(** ** Decoding *)

(** C3.  For every 24-bit raw value [v] read by the HX71x and ADS1220
    decoders (which decode alike): the midpoint [0x800000] decodes to 0;
    [v] in [0, 0x7FFFFF] decodes to [v]; [v] in [0x800001, 0xFFFFFF]
    decodes to [v | 0xFF000000] read as a signed 32-bit value, that is
    [v - 2^24]; and the end of either read function reports any counts
    outside [-0x7FFFFF, 0x7FFFFF] as an out-of-range error record (the
    sentinel and error code, not the counts, reach the stream). *)
Theorem C3_decode_midpoint_and_sign_extension (v : Z) :
  0 <= v <= 0xFFFFFF ->
  ADS1220.extend_counts v = HX71x.extend_counts v
  /\ (v = 0x800000 -> HX71x.extend_counts v = 0)
  /\ (0 <= v <= 0x7FFFFF -> HX71x.extend_counts v = v)
  /\ (0x800001 <= v <= 0xFFFFFF ->
        HX71x.extend_counts v = s32 (Z.lor v 0xFF000000)
        /\ HX71x.extend_counts v = v - 2 ^ 24)
  /\ (forall counts x s oid,
        counts < - 0x7FFFFF \/ counts > 0x7FFFFF ->
        (data_count (HX71x.sb s) + 4 <= length (data (HX71x.sb s)))%nat ->
        exists s',
          HX71x.store_counts x s oid counts = Done s'
          /\ stream (HX71x.sb s') = stream (HX71x.sb s) ++ le32 HX71x.SAMPLE_ERROR
          /\ possible_overflows (HX71x.sb s') = HX71x.ERROR_OUT_OF_RANGE)
  /\ (forall counts x s oid,
        counts < - 0x7FFFFF \/ counts > 0x7FFFFF ->
        (data_count (ADS1220.sb s) + 4 <= length (data (ADS1220.sb s)))%nat ->
        exists s',
          ADS1220.store_counts x s oid counts = Done s'
          /\ stream (ADS1220.sb s') = stream (ADS1220.sb s) ++ le32 ADS1220.SAMPLE_ERROR
          /\ possible_overflows (ADS1220.sb s') = ADS1220.ERROR_OUT_OF_RANGE).
Proof.
  intros Hv. split; [reflexivity |].
  pose proof (hx71x_extend_cases v Hv) as Hcases.
  split; [intros ->; reflexivity |].
  split.
  { intros Hlow. rewrite Hcases.
    destruct (Z.eqb_spec v 0x800000); [lia |].
    destruct (Z.ltb_spec v 0x800000); lia. }
  split.
  { intros Hhigh. split.
    - unfold HX71x.extend_counts.
      destruct (Z.eqb_spec v 0x800000); [lia |].
      destruct (Z.gtb_spec v 0x800000); [| lia].
      now rewrite u32_small by lia.
    - rewrite Hcases.
      destruct (Z.eqb_spec v 0x800000); [lia |].
      destruct (Z.ltb_spec v 0x800000); lia. }
  split.
  - intros counts x s oid Hout Hfit. apply hx71x_out_of_range_iff in Hout.
    unfold HX71x.store_counts. rewrite Hout.
    destruct (hx71x_send_error_record s oid HX71x.ERROR_OUT_OF_RANGE Hfit)
      as (s' & Hrun & _ & _ & _ & _ & _ & _ & Hpo & _ & Hstr & _).
    exists s'. split_all.
  - intros counts x s oid Hout Hfit. apply hx71x_out_of_range_iff in Hout.
    unfold ADS1220.store_counts. rewrite ads1220_out_of_range_hx71x, Hout.
    destruct (ads1220_send_error_record s oid ADS1220.ERROR_OUT_OF_RANGE Hfit)
      as (s' & Hrun & _ & _ & _ & _ & Hpo & _ & Hstr & _).
    exists s'. split_all.
Qed.

(** The word [0x800001] is in range, and decodes to [-0x7FFFFF]. *)
Lemma C3_witness_most_negative :
  0 <= 0x800001 <= 0xFFFFFF /\ HX71x.extend_counts 0x800001 = - 0x7FFFFF.
Proof.
  split; [lia |].
  destruct (C3_decode_midpoint_and_sign_extension 0x800001 ltac:(lia))
    as (_ & _ & _ & Hhigh & _).
  destruct Hhigh as [_ Hvalue]; [lia |]. rewrite Hvalue. reflexivity.
Defined.

(** C9.  For every 24-bit raw word [v], the XOR/subtract extension of
    the ADS1256 driver, [(v ^ 0x800000) - 0x800000], equals the standard
    two's-complement sign extension ([v] below [0x800000],
    [v | 0xFF000000] as a signed 32-bit value from there on); it equals
    what the other two drivers compute on every word but the midpoint
    [0x800000], which they map to 0. *)
Theorem C9_xor_subtract_is_sign_extension (v : Z) :
  0 <= v <= 0xFFFFFF ->
  ADS1256.extend_counts v = sign_extend24 v
  /\ (v <> 0x800000 -> ADS1256.extend_counts v = HX71x.extend_counts v)
  /\ (v <> 0x800000 -> ADS1256.extend_counts v = ADS1220.extend_counts v).
Proof.
  intros Hv.
  pose proof (ads1256_extend_cases v ltac:(lia)) as H56.
  pose proof (hx71x_extend_cases v Hv) as H71.
  split.
  - rewrite H56. unfold sign_extend24.
    destruct (Z.ltb_spec v 0x800000); [reflexivity |].
    rewrite lor_sign_bits by lia. unfold s32. Z.div_mod_to_equations. lia.
  - assert (Hsame : v <> 0x800000 -> ADS1256.extend_counts v = HX71x.extend_counts v).
    { intros Hmid. rewrite H56, H71.
      destruct (Z.eqb_spec v 0x800000); [contradiction | reflexivity]. }
    split; [exact Hsame |]. intros Hmid. rewrite ads1220_extend_hx71x. now apply Hsame.
Qed.

(** The midpoint word: the XOR/subtract extension gives [-0x800000]. *)
Lemma C9_witness_midpoint :
  0 <= 0x800000 <= 0xFFFFFF
  /\ ADS1256.extend_counts 0x800000 = sign_extend24 0x800000.
Proof.
  split; [lia |].
  exact (proj1 (C9_xor_subtract_is_sign_extension 0x800000 ltac:(lia))).
Defined.

(** C10.  For every 24-bit raw value, the sample decoded by the HX71x
    and ADS1220 rules lies in [-0x7FFFFF, 0x7FFFFF]; so its 32-bit
    encoding is never the error sentinel [0x80000000], and the test of
    the out-of-range branch is false on the decoded word of every read
    (the word the HX71x loop shifts in and the word of an ADS1220
    transfer are 24-bit values). *)
Theorem C10_decoded_sample_in_range :
  (forall v, 0 <= v <= 0xFFFFFF ->
     - 0x7FFFFF <= HX71x.extend_counts v <= 0x7FFFFF
     /\ - 0x7FFFFF <= ADS1220.extend_counts v <= 0x7FFFFF
     /\ u32 (HX71x.extend_counts v) <> HX71x.SAMPLE_ERROR
     /\ le32 (HX71x.extend_counts v) <> le32 HX71x.SAMPLE_ERROR
     /\ HX71x.out_of_range (HX71x.extend_counts v) = false
     /\ ADS1220.out_of_range (ADS1220.extend_counts v) = false)
  /\ (forall x s,
        0 <= snd (HX71x.read_bits x 0 24 s 0) <= 0xFFFFFF
        /\ HX71x.out_of_range
             (HX71x.extend_counts (snd (HX71x.read_bits x 0 24 s 0))) = false)
  /\ (forall x,
        0 <= Spi.word24 x <= 0xFFFFFF
        /\ ADS1220.out_of_range (ADS1220.extend_counts (Spi.word24 x)) = false).
Proof.
  assert (Hin : forall v, 0 <= v <= 0xFFFFFF ->
            HX71x.out_of_range (HX71x.extend_counts v) = false).
  { intros v Hv. pose proof (hx71x_extend_in_range v Hv) as Hr.
    destruct (HX71x.out_of_range _) eqn:Hout; [| reflexivity].
    apply hx71x_out_of_range_iff in Hout. lia. }
  split; [| split].
  - intros v Hv. pose proof (hx71x_extend_in_range v Hv) as Hr.
    assert (Hword : u32 (HX71x.extend_counts v) <> HX71x.SAMPLE_ERROR).
    { unfold u32, HX71x.SAMPLE_ERROR. Z.div_mod_to_equations. lia. }
    split; [exact Hr |]. split; [exact Hr |]. split; [exact Hword |].
    split; [| split; [now apply Hin | now apply Hin]].
    intros Heq. apply Hword.
    rewrite <- of_le32_le32, Heq, of_le32_le32. reflexivity.
  - intros x s. destruct (read_stage x s) as [-> _]. cbn [snd].
    pose proof (raw_word_range x). split; [lia | apply Hin; lia].
  - intros x. pose proof (word24_range x). split; [lia | apply Hin; lia].
Qed.

(** The most negative word [0x800001]: its sample [-0x7FFFFF] is
    encoded as [0xFF800001], not as the sentinel. *)
Lemma C10_witness_most_negative :
  0 <= 0x800001 <= 0xFFFFFF
  /\ u32 (HX71x.extend_counts 0x800001) <> HX71x.SAMPLE_ERROR.
Proof.
  split; [lia |].
  destruct (proj1 C10_decoded_sample_in_range 0x800001 ltac:(lia))
    as (_ & _ & Hword & _).
  exact Hword.
Defined.

(** ** Error records *)

(** C5.  Whatever the fill level of the buffer when an error occurs (any
    level that leaves room for one record, [data_count = capacity - 4]
    included), [send_error] of the HX71x and ADS1220 drivers appends
    exactly one sentinel record, puts the error code in the side field,
    and reports the buffer exactly once, without looking at the near-full
    threshold: one report is added, it carries every byte filled so far
    followed by the sentinel, and [data_count] is 0 afterwards. *)
Theorem C5_error_record_is_flushed_at_once (oid error_code : Z)
    (h : HX71x.hx71x_adc) (a : ADS1220.ads1220_adc) :
  (data_count (HX71x.sb h) + 4 <= length (data (HX71x.sb h)))%nat ->
  (data_count (ADS1220.sb a) + 4 <= length (data (ADS1220.sb a)))%nat ->
  (exists h',
     HX71x.send_error h oid error_code = Done h'
     /\ stream (HX71x.sb h') = stream (HX71x.sb h) ++ le32 HX71x.SAMPLE_ERROR
     /\ possible_overflows (HX71x.sb h') = u8 error_code
     /\ reported (HX71x.sb h')
        = reported (HX71x.sb h)
          ++ [Report oid (take (data_count (HX71x.sb h)) (data (HX71x.sb h))
                          ++ le32 HX71x.SAMPLE_ERROR)]
     /\ data_count (HX71x.sb h') = 0%nat)
  /\ (exists a',
        ADS1220.send_error a oid error_code = Done a'
        /\ stream (ADS1220.sb a') = stream (ADS1220.sb a) ++ le32 ADS1220.SAMPLE_ERROR
        /\ possible_overflows (ADS1220.sb a') = u8 error_code
        /\ reported (ADS1220.sb a')
           = reported (ADS1220.sb a)
             ++ [Report oid (take (data_count (ADS1220.sb a)) (data (ADS1220.sb a))
                             ++ le32 ADS1220.SAMPLE_ERROR)]
        /\ data_count (ADS1220.sb a') = 0%nat)
  /\ of_le32 (le32 HX71x.SAMPLE_ERROR) = 0x80000000.
Proof.
  intros Hh Ha. split; [| split; [| reflexivity]].
  - destruct (hx71x_send_error_record h oid error_code Hh)
      as (h' & Hrun & _ & _ & _ & _ & _ & H0 & Hpo & Hrep & Hstr & _).
    exists h'. split_all.
  - destruct (ads1220_send_error_record a oid error_code Ha)
      as (a' & Hrun & _ & _ & _ & H0 & Hpo & Hrep & Hstr & _).
    exists a'. split_all.
Qed.

(** An 8-byte HX71x buffer that holds one sample ([data_count =
    capacity - 4]): the error record fills it, and it is reported with
    both records at once. *)
Lemma C5_witness_last_slot :
  exists h',
    HX71x.send_error Examples.hx71x_half_full 0 HX71x.ERROR_READ_TOO_LONG = Done h'
    /\ reported (HX71x.sb h') = [Report 0 [1; 0; 0; 0; 0; 0; 0; 128]]
    /\ data_count (HX71x.sb h') = 0%nat.
Proof.
  destruct (C5_error_record_is_flushed_at_once 0 HX71x.ERROR_READ_TOO_LONG
              Examples.hx71x_half_full Examples.ads1220_pending)
    as ((h' & Hrun & _ & _ & Hrep & H0) & _).
  - vm_compute. lia.
  - vm_compute. lia.
  - exists h'. split; [exact Hrun |]. split; [exact Hrep | exact H0].
Defined.

(** C7.  A poll whose measured read or transfer time equals the maximum
    exactly is rejected as a timing error: an error record with
    [ERROR_READ_TOO_LONG] in the HX71x and ADS1220 drivers (in the HX71x
    driver the time is measured once the data line has been found high
    after the read), the "read timing error" halt in the ADS1256 driver.
    The comparison is inclusive: a read that took less is not rejected
    for its time, and its sample is stored. *)
Theorem C7_timeout_boundary_is_inclusive (timer_from_us : Z -> Z) :
  (forall x s oid,
     HX71x.dout_before x = false -> HX71x.dout_after x = true ->
     (data_count (HX71x.sb s) + 4 <= length (data (HX71x.sb s)))%nat ->
     HX71x.elapsed x = HX71x.MAX_READ_TIME timer_from_us ->
     exists s',
       HX71x.hx71x_read_adc timer_from_us x s oid = Done s'
       /\ possible_overflows (HX71x.sb s') = HX71x.ERROR_READ_TOO_LONG
       /\ stream (HX71x.sb s') = stream (HX71x.sb s) ++ le32 HX71x.SAMPLE_ERROR)
  /\ (forall x s oid,
        Spi.data_ready x = false ->
        (data_count (ADS1220.sb s) + 4 <= length (data (ADS1220.sb s)))%nat ->
        Spi.time_diff x = ADS1220.MAX_SPI_READ_TIME timer_from_us ->
        exists s',
          ADS1220.ads1220_read_adc timer_from_us x s oid = Done s'
          /\ possible_overflows (ADS1220.sb s') = ADS1220.ERROR_READ_TOO_LONG
          /\ stream (ADS1220.sb s') = stream (ADS1220.sb s) ++ le32 ADS1220.SAMPLE_ERROR)
  /\ (forall x s oid,
        Spi.data_ready x = false ->
        Spi.time_diff x = ADS1256.MAX_SPI_READ_TIME timer_from_us ->
        ADS1256.ads1256_read_adc timer_from_us x s oid
        = Shutdown "ads1256 read timing error, read took too long")
  /\ (forall x s oid,
        HX71x.dout_before x = false -> HX71x.dout_after x = true ->
        append_ready (HX71x.sb s) ->
        HX71x.elapsed x < HX71x.MAX_READ_TIME timer_from_us ->
        exists s',
          HX71x.hx71x_read_adc timer_from_us x s oid = Done s'
          /\ stream (HX71x.sb s')
             = stream (HX71x.sb s) ++ le32 (HX71x.extend_counts (HX71x.raw_word x)))
  /\ (forall x s oid,
        Spi.data_ready x = false ->
        append_ready (ADS1220.sb s) ->
        Spi.time_diff x < ADS1220.MAX_SPI_READ_TIME timer_from_us ->
        exists s',
          ADS1220.ads1220_read_adc timer_from_us x s oid = Done s'
          /\ stream (ADS1220.sb s')
             = stream (ADS1220.sb s) ++ le32 (ADS1220.extend_counts (Spi.word24 x)))
  /\ (forall x s oid,
        Spi.data_ready x = false ->
        Spi.time_diff x < ADS1256.MAX_SPI_READ_TIME timer_from_us ->
        ADS1256.ads1256_read_adc timer_from_us x s oid
        <> Shutdown "ads1256 read timing error, read took too long").
Proof.
  repeat apply conj.
  - intros x s oid Hready Hafter Hfit Htime.
    destruct (hx71x_poll_error timer_from_us x s oid)
      as (s' & Hrun & _ & _ & _ & _ & Hpo & _ & Hstr & _);
      try assumption; [right; lia |].
    rewrite Hafter in Hpo. exists s'. split_all.
  - intros x s oid Hready Hfit Htime.
    destruct (ads1220_poll_error timer_from_us x s oid)
      as (s' & Hrun & _ & _ & _ & _ & Hpo & _ & Hstr & _);
      try assumption; [lia |].
    exists s'. split_all.
  - intros x s oid Hready Htime. rewrite ads1256_read_adc_ready by assumption.
    rewrite Htime. now destruct (Z.geb_spec (ADS1256.MAX_SPI_READ_TIME timer_from_us)
                                   (ADS1256.MAX_SPI_READ_TIME timer_from_us)); [| lia].
  - intros x s oid Hready Hafter Hroom Htime.
    destruct (hx71x_poll_sample timer_from_us x s oid)
      as (s' & Hrun & _ & _ & _ & _ & Hstr & _); try assumption.
    exists s'. split_all.
  - intros x s oid Hready Hroom Htime.
    destruct (ads1220_poll_sample timer_from_us x s oid)
      as (s' & Hrun & _ & _ & _ & _ & Hstr & _); try assumption.
    exists s'. split_all.
  - intros x s oid Hready Htime. rewrite ads1256_read_adc_ready by assumption.
    destruct (Z.geb_spec (Spi.time_diff x) (ADS1256.MAX_SPI_READ_TIME timer_from_us));
      [lia |].
    destruct (Spi.word24 x =? 0xFFFFFF); [intros Heq; discriminate Heq |].
    unfold ADS1256.add_sample.
    destruct (Nat.le_gt_cases (data_count (ADS1256.sb s) + 4)
                (length (data (ADS1256.sb s)))) as [Hfit | Hover].
    + destruct (add_sample_fits _ (ADS1256.extend_counts (Spi.word24 x)) Hfit)
        as (d & -> & _).
      cbn [bind]. intros Heq; discriminate Heq.
    + rewrite add_sample_overflows by assumption.
      cbn [bind]. intros Heq; discriminate Heq.
Qed.

(** On a 72 MHz board [MAX_READ_TIME] is 3600 ticks; an HX71x read
    that starts at 100 and ends at 3700 is rejected. *)
Lemma C7_witness_exactly_on_the_limit :
  HX71x.elapsed Examples.hx71x_on_the_limit
  = HX71x.MAX_READ_TIME Examples.board_72mhz
  /\ exists s',
       HX71x.hx71x_read_adc Examples.board_72mhz Examples.hx71x_on_the_limit
         Examples.hx71x_pending 0 = Done s'
       /\ possible_overflows (HX71x.sb s') = HX71x.ERROR_READ_TOO_LONG.
Proof.
  split; [reflexivity |].
  destruct (proj1 (C7_timeout_boundary_is_inclusive Examples.board_72mhz)
              Examples.hx71x_on_the_limit Examples.hx71x_pending 0)
    as (s' & Hrun & Hpo & _); try reflexivity.
  - vm_compute. lia.
  - exists s'. split; [exact Hrun | exact Hpo].
Defined.

(** ** The stop command *)

(** C8.  Issuing the stop command ([rest_ticks = 0]) twice in a row, on
    any sensor state of any of the three drivers: after each of the two
    calls the sensor is disarmed (no outstanding timer, pending cleared,
    [rest_ticks = 0]; the HX71x clock pin is high, the power-down state),
    and the second call leaves the state of the first. *)
Theorem C8_stop_twice_is_idempotent (now1 now2 : Z)
    (h : HX71x.hx71x_adc) (a : ADS1220.ads1220_adc) (b : ADS1256.ads1256_adc) :
  let h1 := HX71x.command_query_hx71x 0 now1 h in
  let h2 := HX71x.command_query_hx71x 0 now2 h1 in
  let a1 := ADS1220.command_query_ads1220 0 now1 a in
  let a2 := ADS1220.command_query_ads1220 0 now2 a1 in
  let b1 := ADS1256.command_query_ads1256 0 now1 b in
  let b2 := ADS1256.command_query_ads1256 0 now2 b1 in
  (scheduled (HX71x.timer h1) = false /\ HX71x.pending_flag h1 = 0
   /\ HX71x.rest_ticks h1 = 0 /\ HX71x.sclk h1 = true /\ h2 = h1)
  /\ (scheduled (ADS1220.timer a1) = false /\ ADS1220.pending_flag a1 = 0
      /\ ADS1220.rest_ticks a1 = 0 /\ a2 = a1)
  /\ (scheduled (ADS1256.timer b1) = false /\ ADS1256.flags b1 = 0
      /\ ADS1256.is_flag_set ADS1256.FLAG_PENDING b1 = false
      /\ ADS1256.rest_ticks b1 = 0 /\ b2 = b1).
Proof.
  cbv zeta. repeat apply conj; reflexivity.
Qed.

(** ** Rearming and the pending flag *)

(** C1 (as amended).  After a poll that is deferred (chip not ready) or
    that produces a sample, the sensor's timer has been rearmed at
    [now + rest_ticks], in all three drivers.  A poll of the HX71x or
    ADS1220 driver that ends in an error record returns without rearming:
    the timer and [rest_ticks] are left exactly as they were before the
    poll, so a timer that was not outstanding before the poll (it had
    fired) is not outstanding after it, and one that was outstanding
    still is.  A poll of the ADS1256 driver that returns has rearmed the
    timer; otherwise it has halted the firmware.  The buffer has room
    for the record, as it always has (C6). *)
Theorem C1_timer_rearmed_except_after_error_record (timer_from_us : Z -> Z) :
  (forall x s oid,
     HX71x.dout_before x = true ->
     exists s',
       HX71x.hx71x_read_adc timer_from_us x s oid = Done s'
       /\ HX71x.timer s'
          = Timer (u32 (u32 (HX71x.time_resched x) + HX71x.rest_ticks s)) true)
  /\ (forall x s oid,
        HX71x.dout_before x = false -> HX71x.dout_after x = true ->
        HX71x.elapsed x < HX71x.MAX_READ_TIME timer_from_us ->
        append_ready (HX71x.sb s) ->
        exists s',
          HX71x.hx71x_read_adc timer_from_us x s oid = Done s'
          /\ stream (HX71x.sb s')
             = stream (HX71x.sb s) ++ le32 (HX71x.extend_counts (HX71x.raw_word x))
          /\ HX71x.timer s'
             = Timer (u32 (u32 (HX71x.time_resched x) + HX71x.rest_ticks s)) true)
  /\ (forall x s oid,
        HX71x.dout_before x = false ->
        HX71x.dout_after x = false
        \/ HX71x.MAX_READ_TIME timer_from_us <= HX71x.elapsed x ->
        append_ready (HX71x.sb s) ->
        exists s',
          HX71x.hx71x_read_adc timer_from_us x s oid = Done s'
          /\ stream (HX71x.sb s') = stream (HX71x.sb s) ++ le32 HX71x.SAMPLE_ERROR
          /\ HX71x.timer s' = HX71x.timer s
          /\ HX71x.rest_ticks s' = HX71x.rest_ticks s
          /\ scheduled (HX71x.timer s') = scheduled (HX71x.timer s))
  /\ (forall x s oid,
        Spi.data_ready x = true ->
        exists s',
          ADS1220.ads1220_read_adc timer_from_us x s oid = Done s'
          /\ ADS1220.timer s'
             = Timer (u32 (u32 (Spi.time_resched x) + ADS1220.rest_ticks s)) true)
  /\ (forall x s oid,
        Spi.data_ready x = false ->
        Spi.time_diff x < ADS1220.MAX_SPI_READ_TIME timer_from_us ->
        append_ready (ADS1220.sb s) ->
        exists s',
          ADS1220.ads1220_read_adc timer_from_us x s oid = Done s'
          /\ stream (ADS1220.sb s')
             = stream (ADS1220.sb s) ++ le32 (ADS1220.extend_counts (Spi.word24 x))
          /\ ADS1220.timer s'
             = Timer (u32 (u32 (Spi.time_resched x) + ADS1220.rest_ticks s)) true)
  /\ (forall x s oid,
        Spi.data_ready x = false ->
        ADS1220.MAX_SPI_READ_TIME timer_from_us <= Spi.time_diff x ->
        append_ready (ADS1220.sb s) ->
        exists s',
          ADS1220.ads1220_read_adc timer_from_us x s oid = Done s'
          /\ stream (ADS1220.sb s') = stream (ADS1220.sb s) ++ le32 ADS1220.SAMPLE_ERROR
          /\ ADS1220.timer s' = ADS1220.timer s
          /\ ADS1220.rest_ticks s' = ADS1220.rest_ticks s
          /\ scheduled (ADS1220.timer s') = scheduled (ADS1220.timer s))
  /\ (forall x s oid,
        append_ready (ADS1256.sb s) ->
        (exists s',
           ADS1256.ads1256_read_adc timer_from_us x s oid = Done s'
           /\ ADS1256.timer s'
              = Timer (u32 (u32 (Spi.time_resched x) + ADS1256.rest_ticks s)) true)
        \/ (exists msg, ADS1256.ads1256_read_adc timer_from_us x s oid = Shutdown msg)).
Proof.
  repeat apply conj.
  - intros x s oid Hbusy. rewrite hx71x_read_adc_not_ready by assumption.
    eexists. split; reflexivity.
  - intros x s oid Hready Hafter Htime Hroom.
    destruct (hx71x_poll_sample timer_from_us x s oid)
      as (s' & Hrun & _ & Ht & _ & _ & Hstr & _); try assumption.
    exists s'. split_all.
  - intros x s oid Hready Hbad Hroom.
    destruct (hx71x_poll_error timer_from_us x s oid)
      as (s' & Hrun & _ & Ht & Hr & _ & _ & _ & Hstr & _);
      try assumption; [now apply append_ready_fits |].
    assert (Hs : scheduled (HX71x.timer s') = scheduled (HX71x.timer s))
      by now rewrite Ht.
    exists s'. split_all.
  - intros x s oid Hbusy. rewrite ads1220_read_adc_not_ready by assumption.
    eexists. split; reflexivity.
  - intros x s oid Hready Htime Hroom.
    destruct (ads1220_poll_sample timer_from_us x s oid)
      as (s' & Hrun & _ & Ht & _ & _ & Hstr & _); try assumption.
    exists s'. split_all.
  - intros x s oid Hready Hlong Hroom.
    destruct (ads1220_poll_error timer_from_us x s oid)
      as (s' & Hrun & _ & Ht & Hr & _ & _ & _ & Hstr & _);
      try assumption; [now apply append_ready_fits |].
    assert (Hs : scheduled (ADS1220.timer s') = scheduled (ADS1220.timer s))
      by now rewrite Ht.
    exists s'. split_all.
  - intros x s oid Hroom.
    destruct (ads1256_poll_keeps_ready timer_from_us x s oid Hroom)
      as [(s' & Hrun & _ & Ht & _) | Hhalt]; [left | now right].
    exists s'. split_all.
Qed.

(** A clean HX71x read of the word [0xAAAAAA] on the pending sensor: the
    timer is rearmed at 300 + 1000. *)
Lemma C1_witness_sample_rearms :
  exists s',
    HX71x.hx71x_read_adc Examples.board_72mhz Examples.hx71x_clean
      Examples.hx71x_pending 0 = Done s'
    /\ HX71x.timer s' = Timer 1300 true.
Proof.
  destruct (C1_timer_rearmed_except_after_error_record Examples.board_72mhz)
    as (_ & Hsample & _).
  destruct (Hsample Examples.hx71x_clean Examples.hx71x_pending 0)
    as (s' & Hrun & _ & Ht); try reflexivity.
  - vm_compute. lia.
  - exists s'. split; [exact Hrun | exact Ht].
Defined.

(** C1 as stated fails.  The HX71x sensor is running ([rest_ticks] is
    1000) and pending, its timer has fired, and the background task
    polls it; the data line is low again after the read.  The task
    returns with an error record in the stream, and the timer is not
    outstanding. *)
Lemma C1_error_record_leaves_timer_unarmed :
  HX71x.pending_flag Examples.hx71x_pending = 1
  /\ exists s',
       HX71x.hx71x_capture_task Examples.board_72mhz
         (fun _ => Examples.hx71x_ready_again) (Family true [Examples.hx71x_pending])
       = Done (Family false [s'])
       /\ HX71x.rest_ticks s' = 1000
       /\ possible_overflows (HX71x.sb s') = HX71x.ERROR_READY_AFTER_READ
       /\ stream (HX71x.sb s') = le32 HX71x.SAMPLE_ERROR
       /\ scheduled (HX71x.timer s') = false.
Proof.
  split; [reflexivity |]. eexists. split; [vm_compute; reflexivity |].
  repeat split.
Qed.

(** C4 (as amended).  In the HX71x and ADS1220 drivers the pending flag
    is cleared when a poll ends in a sample or in an error record, and
    by the start/stop command; a deferred poll (chip not ready) leaves
    the flag as it was; the timer event sets it, and neither a poll nor
    the command does.  The buffer has room for the record, as it always
    has (C6). *)
Theorem C4_pending_cleared_by_sample_or_error_record (timer_from_us : Z -> Z) :
  (forall x s oid,
     HX71x.dout_before x = false -> append_ready (HX71x.sb s) ->
     exists s',
       HX71x.hx71x_read_adc timer_from_us x s oid = Done s'
       /\ HX71x.pending_flag s' = 0)
  /\ (forall x s oid,
        HX71x.dout_before x = true ->
        exists s',
          HX71x.hx71x_read_adc timer_from_us x s oid = Done s'
          /\ HX71x.pending_flag s' = HX71x.pending_flag s)
  /\ (forall rest now s, HX71x.pending_flag (HX71x.command_query_hx71x rest now s) = 0)
  /\ (forall s, HX71x.pending_flag (HX71x.hx71x_event s) = 1)
  /\ (forall x s oid,
        Spi.data_ready x = false -> append_ready (ADS1220.sb s) ->
        exists s',
          ADS1220.ads1220_read_adc timer_from_us x s oid = Done s'
          /\ ADS1220.pending_flag s' = 0)
  /\ (forall x s oid,
        Spi.data_ready x = true ->
        exists s',
          ADS1220.ads1220_read_adc timer_from_us x s oid = Done s'
          /\ ADS1220.pending_flag s' = ADS1220.pending_flag s)
  /\ (forall rest now s,
        ADS1220.pending_flag (ADS1220.command_query_ads1220 rest now s) = 0)
  /\ (forall s, ADS1220.pending_flag (ADS1220.ads1220_event s) = 1).
Proof.
  repeat apply conj.
  - intros x s oid Hready Hroom.
    destruct (HX71x.dout_after x) eqn:Hafter;
      [destruct (Z.lt_ge_cases (HX71x.elapsed x) (HX71x.MAX_READ_TIME timer_from_us)) |].
    + destruct (hx71x_poll_sample timer_from_us x s oid) as (s' & Hrun & Hp & _);
        try assumption.
      exists s'. split_all.
    + destruct (hx71x_poll_error timer_from_us x s oid) as (s' & Hrun & Hp & _);
        try assumption; [now right | now apply append_ready_fits |].
      exists s'. split_all.
    + destruct (hx71x_poll_error timer_from_us x s oid) as (s' & Hrun & Hp & _);
        try assumption; [now left | now apply append_ready_fits |].
      exists s'. split_all.
  - intros x s oid Hbusy. rewrite hx71x_read_adc_not_ready by assumption.
    eexists. split; reflexivity.
  - intros rest now s. unfold HX71x.command_query_hx71x.
    cbn [HX71x.set_rest_ticks HX71x.rest_ticks]. now destruct (u32 rest =? 0).
  - reflexivity.
  - intros x s oid Hready Hroom.
    destruct (Z.lt_ge_cases (Spi.time_diff x) (ADS1220.MAX_SPI_READ_TIME timer_from_us)).
    + destruct (ads1220_poll_sample timer_from_us x s oid) as (s' & Hrun & Hp & _);
        try assumption.
      exists s'. split_all.
    + destruct (ads1220_poll_error timer_from_us x s oid) as (s' & Hrun & Hp & _);
        try assumption; [now apply append_ready_fits |].
      exists s'. split_all.
  - intros x s oid Hbusy. rewrite ads1220_read_adc_not_ready by assumption.
    eexists. split; reflexivity.
  - intros rest now s. unfold ADS1220.command_query_ads1220.
    cbn [ADS1220.set_rest_ticks ADS1220.rest_ticks]. now destruct (u32 rest =? 0).
  - reflexivity.
Qed.

(** A clean HX71x read on the pending sensor clears the flag. *)
Lemma C4_witness_sample_clears_pending :
  HX71x.pending_flag Examples.hx71x_pending = 1
  /\ exists s',
       HX71x.hx71x_read_adc Examples.board_72mhz Examples.hx71x_clean
         Examples.hx71x_pending 0 = Done s'
       /\ HX71x.pending_flag s' = 0.
Proof.
  split; [reflexivity |].
  apply (proj1 (C4_pending_cleared_by_sample_or_error_record Examples.board_72mhz)).
  - reflexivity.
  - vm_compute. lia.
Defined.

(** C4 as stated fails.  A pending HX71x sensor and a pending ADS1220
    sensor are polled while the chip is not ready: the poll is deferred,
    nothing is appended, and each poll returns with the pending flag
    still set. *)
Lemma C4_pending_left_set_after_poll :
  HX71x.pending_flag Examples.hx71x_pending = 1
  /\ (exists s',
        HX71x.hx71x_read_adc Examples.board_72mhz Examples.hx71x_busy
          Examples.hx71x_pending 0 = Done s'
        /\ stream (HX71x.sb s') = []
        /\ HX71x.pending_flag s' = 1)
  /\ ADS1220.pending_flag Examples.ads1220_pending = 1
  /\ (exists s',
        ADS1220.ads1220_read_adc Examples.board_72mhz Examples.spi_busy
          Examples.ads1220_pending 0 = Done s'
        /\ stream (ADS1220.sb s') = []
        /\ ADS1220.pending_flag s' = 1).
Proof.
  split; [reflexivity |]. split; [| split; [reflexivity |]].
  - eexists. split; [vm_compute; reflexivity |]. split; reflexivity.
  - eexists. split; [vm_compute; reflexivity |]. split; reflexivity.
Qed.

(** ** The ADS1256 halts *)

(** C2 (as amended).  In the ADS1256 driver, every 3-byte burst read
    whose word is [0xFFFFFF] (decoded [-1]) halts the firmware: with
    "Possible bad read" when the transfer stayed within the time window,
    with the timing halt otherwise.  Within the time window every other
    word is appended as a sample, the midpoint [0x800000] (decoded
    [-0x800000]) included.  The test before the "Invalid Counts" halt,
    decoded counts [>= 0x800000], holds for no word. *)
Theorem C2_ads1256_halts_on_all_ones (timer_from_us : Z -> Z)
    (x : Spi.io) (s : ADS1256.ads1256_adc) (oid : Z) :
  Spi.data_ready x = false ->
  (Spi.word24 x = 0xFFFFFF ->
     ADS1256.extend_counts (Spi.word24 x) = -1
     /\ exists msg, ADS1256.ads1256_read_adc timer_from_us x s oid = Shutdown msg)
  /\ (Spi.word24 x = 0xFFFFFF ->
        Spi.time_diff x < ADS1256.MAX_SPI_READ_TIME timer_from_us ->
        ADS1256.ads1256_read_adc timer_from_us x s oid
        = Shutdown "ads1256: Possible bad read")
  /\ (Spi.word24 x <> 0xFFFFFF ->
        Spi.time_diff x < ADS1256.MAX_SPI_READ_TIME timer_from_us ->
        append_ready (ADS1256.sb s) ->
        exists s',
          ADS1256.ads1256_read_adc timer_from_us x s oid = Done s'
          /\ stream (ADS1256.sb s')
             = stream (ADS1256.sb s) ++ le32 (ADS1256.extend_counts (Spi.word24 x)))
  /\ (Spi.word24 x = 0x800000 ->
        ADS1256.extend_counts (Spi.word24 x) = - 0x800000)
  /\ (ADS1256.extend_counts (Spi.word24 x) >=? 0x800000) = false.
Proof.
  intros Hready. pose proof (word24_range x) as Hw.
  pose proof (ads1256_extend_range _ Hw) as Hr.
  assert (Hhalt : Spi.word24 x = 0xFFFFFF ->
            Spi.time_diff x < ADS1256.MAX_SPI_READ_TIME timer_from_us ->
            ADS1256.ads1256_read_adc timer_from_us x s oid
            = Shutdown "ads1256: Possible bad read").
  { intros Hones Htime. rewrite ads1256_read_adc_ready by assumption.
    destruct (Z.geb_spec (Spi.time_diff x) (ADS1256.MAX_SPI_READ_TIME timer_from_us));
      [lia |].
    now rewrite Hones. }
  repeat apply conj.
  - intros Hones. split; [rewrite Hones; reflexivity |].
    destruct (Z.lt_ge_cases (Spi.time_diff x) (ADS1256.MAX_SPI_READ_TIME timer_from_us))
      as [Htime | Hlong].
    + eexists. now apply Hhalt.
    + rewrite ads1256_read_adc_ready by assumption.
      destruct (Z.geb_spec (Spi.time_diff x)
                  (ADS1256.MAX_SPI_READ_TIME timer_from_us)); [| lia].
      eauto.
  - exact Hhalt.
  - intros Hword Htime Hroom.
    destruct (ads1256_sample timer_from_us x s oid)
      as (s' & Hrun & _ & _ & _ & _ & Hstr & _); try assumption.
    exists s'. split_all.
  - intros Hmid. rewrite Hmid. reflexivity.
  - destruct (Z.geb_spec (ADS1256.extend_counts (Spi.word24 x)) 0x800000);
      [lia | reflexivity].
Qed.

(** The bytes [FF FF FF], read in 100 ticks, halt the firmware. *)
Lemma C2_witness_all_ones_halts :
  Spi.word24 (Examples.transfer 0xFF 0xFF 0xFF 100) = 0xFFFFFF
  /\ ADS1256.ads1256_read_adc Examples.board_72mhz
       (Examples.transfer 0xFF 0xFF 0xFF 100) Examples.ads1256_pending 0
     = Shutdown "ads1256: Possible bad read".
Proof.
  split; [reflexivity |].
  destruct (C2_ads1256_halts_on_all_ones Examples.board_72mhz
              (Examples.transfer 0xFF 0xFF 0xFF 100) Examples.ads1256_pending 0
              eq_refl) as (_ & Hhalt & _).
  apply Hhalt; reflexivity.
Defined.

(** C2 as stated fails.  The bytes [80 00 00], the midpoint word, read
    in 100 ticks by a pending ADS1256 sensor with an empty buffer: the
    read returns, the sample [-0x800000] (bytes [00 00 80 FF]) is in the
    buffer, and the timer is rearmed; the firmware is not halted. *)
Lemma C2_midpoint_word_is_appended :
  Spi.word24 (Examples.transfer 0x80 0 0 100) = 0x800000
  /\ exists s',
       ADS1256.ads1256_read_adc Examples.board_72mhz
         (Examples.transfer 0x80 0 0 100) Examples.ads1256_pending 0 = Done s'
       /\ stream (ADS1256.sb s') = [0; 0; 128; 255]
       /\ of_le32 (stream (ADS1256.sb s')) = u32 (- 0x800000)
       /\ data_count (ADS1256.sb s') = 4%nat
       /\ ADS1256.timer s' = Timer 1400 true.
Proof.
  split; [reflexivity |]. eexists. split; [vm_compute; reflexivity |].
  repeat split.
Qed.

(** ** The buffer stays within its capacity *)

(** C6.  An append on a buffer that can take a sample stays inside the
    array and leaves [0 <= data_count <= capacity], a multiple of 4; the
    flush that follows reports the buffer (resetting [data_count] to 0)
    exactly when one more 4-byte sample would not fit, and leaves a buffer
    that can take a sample.  So along every sequence of timer events,
    runs of the background task and start/stop commands, from sensors
    whose buffers can take a sample, no call stores outside a buffer, and
    every buffer can take a sample after each event: the HX71x and
    ADS1220 families always return, the ADS1256 family returns or halts the
    firmware. *)
Theorem C6_buffer_stays_within_capacity (timer_from_us : Z -> Z) :
  (forall sb counts oid,
     append_ready sb ->
     exists sb1,
       Bulk.add_sample sb counts = Done sb1
       /\ within_capacity sb1
       /\ ((length (data sb1) < data_count sb1 + 4)%nat ->
           Bulk.flush_samples sb1 oid = sensor_bulk_report sb1 oid
           /\ data_count (Bulk.flush_samples sb1 oid) = 0%nat)
       /\ ((data_count sb1 + 4 <= length (data sb1))%nat ->
           Bulk.flush_samples sb1 oid = sb1)
       /\ append_ready (Bulk.flush_samples sb1 oid))
  /\ (forall events f,
        Forall (fun d => append_ready (HX71x.sb d)) (objs f) ->
        exists f',
          run (hx71x_step timer_from_us) events f = Done f'
          /\ Forall (fun d => append_ready (HX71x.sb d)) (objs f'))
  /\ (forall events f,
        Forall (fun d => append_ready (ADS1220.sb d)) (objs f) ->
        exists f',
          run (ads1220_step timer_from_us) events f = Done f'
          /\ Forall (fun d => append_ready (ADS1220.sb d)) (objs f'))
  /\ (forall events f,
        Forall (fun d => append_ready (ADS1256.sb d)) (objs f) ->
        (exists f',
           run (ads1256_step timer_from_us) events f = Done f'
           /\ Forall (fun d => append_ready (ADS1256.sb d)) (objs f'))
        \/ (exists msg, run (ads1256_step timer_from_us) events f = Shutdown msg))
  /\ (forall capacity gain s,
        (4 <= capacity)%nat ->
        HX71x.command_config_hx71x capacity gain = Done s ->
        append_ready (HX71x.sb s))
  /\ (forall capacity,
        (4 <= capacity)%nat ->
        append_ready (ADS1220.sb (ADS1220.command_config_ads1220 capacity))
        /\ append_ready (ADS1256.sb (ADS1256.command_config_ads1256 capacity))).
Proof.
  repeat apply conj.
  - intros sb counts oid Hroom.
    destruct (sample_buffer sb counts oid Hroom)
      as (sb1 & Hadd & Hwithin & Hnext & _).
    exists sb1. split; [exact Hadd |]. split; [exact Hwithin |].
    unfold Bulk.flush_samples, ARRAY_SIZE, BYTES_PER_SAMPLE in *.
    destruct (Nat.ltb_spec (length (data sb1)) (data_count sb1 + 4)).
    + split; [split; reflexivity |]. split; [lia | exact Hnext].
    + split; [lia |]. split; [reflexivity | exact Hnext].
  - intros events f. apply run_keeps. intros e f0. apply hx71x_step_keeps_ready.
  - intros events f. apply run_keeps. intros e f0. apply ads1220_step_keeps_ready.
  - intros events f. apply run_keeps_or_halts. intros e f0.
    apply ads1256_step_keeps_ready.
  - intros capacity gain s Hcap. unfold HX71x.command_config_hx71x.
    destruct (_ || _); [discriminate |]. intros [= <-].
    now apply config_buffer_ready.
  - intros capacity Hcap. split; now apply config_buffer_ready.
Qed.

(** Three clean polls of an HX71x sensor with an 8-byte buffer: the
    second sample fills the buffer, which is reported at once, and the
    third sample starts the buffer again. *)
Lemma C6_witness_three_polls :
  exists f',
    run (hx71x_step Examples.board_72mhz)
      [TaskRun (fun _ => Examples.hx71x_clean);
       TimerDue 0; TaskRun (fun _ => Examples.hx71x_clean);
       TimerDue 0; TaskRun (fun _ => Examples.hx71x_clean)]
      (Family true [Examples.hx71x_pending]) = Done f'
    /\ Forall (fun d => append_ready (HX71x.sb d)) (objs f').
Proof.
  apply (proj1 (proj2 (C6_buffer_stays_within_capacity Examples.board_72mhz))).
  repeat constructor.
Defined.

(** * Further properties of the code *)

(** ** Appending and flushing *)

Section MoreBulkFacts.

(** The array an append that fits leaves. *)
Lemma add_sample_stores sb counts :
  (data_count sb + 4 <= length (data sb))%nat ->
  Bulk.add_sample sb counts =
    Done (SensorBulk (possible_overflows sb) (data_count sb + 4)
            (<[(data_count sb + 3)%nat := u8 (Z.shiftr (u32 counts) 24)]>
               (<[(data_count sb + 2)%nat := u8 (Z.shiftr (u32 counts) 16)]>
                  (<[(data_count sb + 1)%nat := u8 (Z.shiftr (u32 counts) 8)]>
                     (<[data_count sb := u8 (u32 counts)]> (data sb)))))
            (reported sb)).
Proof.
  intros Hfit. unfold Bulk.add_sample.
  rewrite store_inside by lia. cbn [bind data data_count possible_overflows reported].
  rewrite store_inside by (cbn [data]; rewrite length_insert; lia).
  cbn [bind data data_count possible_overflows reported].
  rewrite store_inside by (cbn [data]; rewrite !length_insert; lia).
  cbn [bind data data_count possible_overflows reported].
  rewrite store_inside by (cbn [data]; rewrite !length_insert; lia).
  reflexivity.
Qed.

Lemma s32_u32 c : - 2 ^ 31 <= c < 2 ^ 31 -> s32 (u32 c) = c.
Proof. intros Hc. unfold s32, u32. Z.div_mod_to_equations. lia. Qed.

End MoreBulkFacts.

(** X1.  An append that fits stores the sample as four bytes, least
    significant first, at [data_count]: each is a byte, read back as a
    little-endian word they give the sample converted to [uint32_t], and
    read as a signed word they give back every [int32_t] sample. *)
Theorem X1_appended_bytes_read_back (sb : sensor_bulk) (counts : Z) :
  (data_count sb + 4 <= length (data sb))%nat ->
  exists sb',
    Bulk.add_sample sb counts = Done sb'
    /\ take 4 (drop (data_count sb) (data sb')) = le32 counts
    /\ Forall (fun b => 0 <= b < 256) (take 4 (drop (data_count sb) (data sb')))
    /\ of_le32 (take 4 (drop (data_count sb) (data sb'))) = u32 counts
    /\ (- 2 ^ 31 <= counts < 2 ^ 31 ->
        s32 (of_le32 (take 4 (drop (data_count sb) (data sb')))) = counts).
Proof.
  intros Hfit. destruct (add_sample_fits sb counts Hfit) as (d & Hadd & Hlen & Htake).
  eexists. split; [exact Hadd |]. cbn [data].
  assert (Hbytes : take 4 (drop (data_count sb) d) = le32 counts).
  { rewrite take_drop_commute, Htake.
    rewrite drop_app_length' by (rewrite length_take; lia). reflexivity. }
  rewrite Hbytes. split; [reflexivity |]. split.
  - unfold le32. repeat constructor; apply u8_range.
  - rewrite of_le32_le32. split; [reflexivity |]. apply s32_u32.
Qed.

(** The sample [-2] in an empty 8-byte buffer: bytes [FE FF FF FF]. *)
Lemma X1_witness_minus_two :
  exists sb',
    Bulk.add_sample (SensorBulk 0 0 (replicate 8 0) []) (-2) = Done sb'
    /\ take 4 (drop 0 (data sb')) = [0xFE; 0xFF; 0xFF; 0xFF]
    /\ s32 (of_le32 (take 4 (drop 0 (data sb')))) = -2.
Proof.
  destruct (X1_appended_bytes_read_back (SensorBulk 0 0 (replicate 8 0) []) (-2))
    as (sb' & Hadd & Hbytes & _ & _ & Hback).
  - vm_compute. lia.
  - exists sb'. split; [exact Hadd |]. split; [exact Hbytes |]. apply Hback. lia.
Defined.

(** X2.  An append that fits changes the four bytes from [data_count]
    on and the count, and nothing else: every other byte of the array,
    the size of the array, the error field and the reports already
    made are as before. *)
Theorem X2_append_touches_four_bytes (sb : sensor_bulk) (counts : Z) :
  (data_count sb + 4 <= length (data sb))%nat ->
  exists sb',
    Bulk.add_sample sb counts = Done sb'
    /\ data_count sb' = (data_count sb + 4)%nat
    /\ length (data sb') = length (data sb)
    /\ possible_overflows sb' = possible_overflows sb
    /\ reported sb' = reported sb
    /\ (forall i : nat,
          (i < data_count sb \/ data_count sb + 4 <= i)%nat ->
          data sb' !! i = data sb !! i).
Proof.
  intros Hfit. eexists. split; [now apply add_sample_stores |].
  cbn [data_count data possible_overflows reported].
  split; [reflexivity |]. split; [now rewrite !length_insert |].
  split; [reflexivity |]. split; [reflexivity |].
  intros i Hi. rewrite !list_lookup_insert_ne by lia. reflexivity.
Qed.

(** A second sample in an 8-byte buffer leaves the first in place. *)
Lemma X2_witness_second_sample :
  exists sb',
    Bulk.add_sample (SensorBulk 0 4 [1; 2; 3; 4; 0; 0; 0; 0] []) 5 = Done sb'
    /\ data sb' !! 0%nat = Some 1 /\ data sb' !! 3%nat = Some 4.
Proof.
  destruct (X2_append_touches_four_bytes (SensorBulk 0 4 [1; 2; 3; 4; 0; 0; 0; 0] []) 5)
    as (sb' & Hadd & _ & _ & _ & _ & Hframe).
  - vm_compute. lia.
  - exists sb'. split; [exact Hadd |].
    split; (rewrite Hframe; [reflexivity | left; vm_compute; lia]).
Defined.

(** X3.  [add_sample] does not look at the capacity: it returns exactly
    when four more bytes fit, and stores outside the array otherwise
    (a buffer filled to its capacity included).  It never halts the
    firmware. *)
Theorem X3_append_is_unchecked (sb : sensor_bulk) (counts : Z) :
  ((data_count sb + 4 <= length (data sb))%nat <->
   exists sb', Bulk.add_sample sb counts = Done sb')
  /\ ((length (data sb) < data_count sb + 4)%nat <->
      Bulk.add_sample sb counts = OutOfBounds)
  /\ (forall msg, Bulk.add_sample sb counts <> Shutdown msg).
Proof.
  destruct (Nat.le_gt_cases (data_count sb + 4) (length (data sb))) as [Hfit | Hover].
  - rewrite add_sample_stores by assumption. repeat split.
    + eauto.
    + intros _. assumption.
    + lia.
    + intros Heq. discriminate Heq.
    + intros msg Heq. discriminate Heq.
  - rewrite add_sample_overflows by assumption. repeat split.
    + lia.
    + intros [sb' Heq]. discriminate Heq.
    + intros _. assumption.
    + intros msg Heq. discriminate Heq.
Qed.

Section StoreAll.

(** Samples stored one after the other in a buffer that holds [j] of
    the [m] samples a report carries. *)
Lemma store_all_from oid m samples : forall sb j,
  (m = length (data sb) / 4)%nat -> (j < m)%nat -> data_count sb = (4 * j)%nat ->
  Forall (fun r => length (r_data r) = (4 * m)%nat /\ r_oid r = oid) (reported sb) ->
  exists sb',
    store_all oid samples sb = Done sb'
    /\ data_count sb' = (4 * ((j + length samples) mod m))%nat
    /\ length (reported sb') = (length (reported sb) + (j + length samples) / m)%nat
    /\ Forall (fun r => length (r_data r) = (4 * m)%nat /\ r_oid r = oid) (reported sb')
    /\ stream sb' = stream sb ++ concat (map le32 samples).
Proof.
  induction samples as [| c samples IH]; intros sb j Hm Hj Hcount Hreports.
  - exists sb. cbn [store_all length map concat].
    rewrite Nat.add_0_r, Nat.mod_small, Nat.div_small, Nat.add_0_r, app_nil_r by lia.
    split_all.
  - assert (Hcap : (4 * m <= length (data sb) < 4 * m + 4)%nat)
      by (pose proof (Nat.div_mod_eq (length (data sb)) 4);
          pose proof (Nat.mod_upper_bound (length (data sb)) 4); lia).
    assert (Hroom : append_ready sb).
    { unfold append_ready, ARRAY_SIZE. rewrite Hcount. split; [| lia].
      rewrite Nat.mul_comm. apply Nat.Div0.mod_mul. }
    destruct (sample_buffer sb c oid Hroom)
      as (sb1 & Hadd & _ & _ & Hstream & _ & Hlen & Hflush).
    cbn [store_all]. rewrite Hadd. cbn [bind].
    destruct (Nat.ltb_spec (length (data sb)) (data_count sb + 8)) as [Hfull | Hfree].
    + destruct Hflush as [H0 Hrep].
      assert (Hlast : S j = m) by lia.
      destruct (IH (Bulk.flush_samples sb1 oid) 0%nat)
        as (sb' & Hrun & Hcount' & Hnum & Hall & Hstr); try lia.
      { now rewrite Hlen. }
      { rewrite Hrep. apply Forall_app. split; [exact Hreports |].
        constructor; [| constructor]. cbn [r_data r_oid]. split; [| reflexivity].
        rewrite length_app, length_take, length_le32. lia. }
      exists sb'. split; [exact Hrun |].
      replace (j + length (c :: samples))%nat with (length samples + 1 * m)%nat
        by (cbn [length]; lia).
      rewrite Nat.Div0.mod_add, Nat.div_add by lia.
      rewrite Hrep, length_app in Hnum. cbn [length] in Hnum.
      cbn [Nat.add] in Hcount', Hnum.
      split; [exact Hcount' |]. split; [lia |]. split; [exact Hall |].
      rewrite Hstr, Hstream. cbn [map concat]. now rewrite <- app_assoc.
    + destruct Hflush as [Hnext Hrep].
      destruct (IH (Bulk.flush_samples sb1 oid) (S j))
        as (sb' & Hrun & Hcount' & Hnum & Hall & Hstr); try lia.
      { now rewrite Hlen. }
      { now rewrite Hrep. }
      exists sb'. split; [exact Hrun |].
      replace (j + length (c :: samples))%nat with (S j + length samples)%nat
        by (cbn [length]; lia).
      rewrite Hrep in Hnum.
      split; [exact Hcount' |]. split; [exact Hnum |]. split; [exact Hall |].
      rewrite Hstr, Hstream. cbn [map concat]. now rewrite <- app_assoc.
Qed.

End StoreAll.

(** X4.  Samples stored one after the other ([add_sample], then
    [flush_samples]) in an empty buffer of [capacity >= 4] bytes, with
    [m = capacity / 4] samples to a buffer: every call returns; the
    buffer is reported as soon as the sample that fills it has been
    stored, so every report carries exactly [m] samples, [k / m] reports
    have been made after [k] samples, and [k mod m] samples wait in the
    buffer; no byte is lost or reordered. *)
Theorem X4_reports_carry_full_buffers (oid : Z) (capacity : nat) (samples : list Z)
    (sb : sensor_bulk) :
  (4 <= capacity)%nat ->
  length (data sb) = capacity -> data_count sb = 0%nat -> reported sb = [] ->
  exists sb',
    store_all oid samples sb = Done sb'
    /\ data_count sb' = (4 * (length samples mod (capacity / 4)))%nat
    /\ length (reported sb') = (length samples / (capacity / 4))%nat
    /\ Forall (fun r => length (r_data r) = (4 * (capacity / 4))%nat /\ r_oid r = oid)
         (reported sb')
    /\ concat (map r_data (reported sb')) ++ take (data_count sb') (data sb')
       = concat (map le32 samples).
Proof.
  intros Hcap Hlen Hcount Hrep.
  assert (Hm : (0 < capacity / 4)%nat)
    by (pose proof (Nat.div_mod_eq capacity 4);
        pose proof (Nat.mod_upper_bound capacity 4); lia).
  destruct (store_all_from oid (capacity / 4) samples sb 0%nat)
    as (sb' & Hrun & Hcount' & Hnum & Hall & Hstr);
    [now rewrite Hlen | lia | now rewrite Hcount | rewrite Hrep; constructor |].
  exists sb'. rewrite Hrep in Hnum. cbn [length Nat.add] in Hcount', Hnum.
  split; [exact Hrun |]. split; [exact Hcount' |]. split; [exact Hnum |].
  split; [exact Hall |].
  change (stream sb' = concat (map le32 samples)). rewrite Hstr.
  unfold stream. now rewrite Hrep, Hcount.
Qed.

(** Five samples in a 10-byte buffer (two samples to a buffer): two
    reports of 8 bytes, one sample waiting. *)
Lemma X4_witness_five_samples :
  exists sb',
    store_all 7 [1; 2; 3; 4; 5] (SensorBulk 0 0 (replicate 10 0) []) = Done sb'
    /\ data_count sb' = 4%nat
    /\ length (reported sb') = 2%nat.
Proof.
  destruct (X4_reports_carry_full_buffers 7 10 [1; 2; 3; 4; 5]
              (SensorBulk 0 0 (replicate 10 0) []))
    as (sb' & Hrun & Hcount & Hnum & _); try reflexivity.
  - lia.
  - exists sb'. split; [exact Hrun |]. split; [exact Hcount | exact Hnum].
Defined.

(** ** Waiting on the timer *)

Section TimingFacts.

Import Timing.

Lemma u32_sub a b : u32 (u32 a - u32 b) = u32 (a - b).
Proof. unfold u32. now rewrite <- Zminus_mod. Qed.

(** The difference of two readings taken [d] ticks apart. *)
Lemma u32_apart start d : 0 <= d < 2 ^ 32 -> u32 (u32 (start + d) - u32 start) = d.
Proof.
  intros Hd. rewrite u32_sub. replace (start + d - start) with d by lia.
  now apply u32_small.
Qed.

Lemma delay_no_irq_of_delay start ticks clock :
  hx71x_delay_no_irq start ticks clock =
    match hx71x_delay start ticks clock with
    | Some (_, last, rest) => Some (last, rest)
    | None => None
    end.
Proof.
  induction clock as [| t clock IH]; [reflexivity |]. cbn [hx71x_delay_no_irq hx71x_delay].
  destruct (hx71x_check_elapsed start (u32 t) ticks); [reflexivity |].
  rewrite IH. now destruct (hx71x_delay start ticks clock) as [[[polls last] rest] |].
Qed.

Lemma delay_returns start ticks clock : forall polls last rest,
  hx71x_delay start ticks clock = Some (polls, last, rest) ->
  exists early t,
    clock = early ++ t :: rest
    /\ length early = polls
    /\ last = u32 t
    /\ ticks <= u32 (last - start)
    /\ Forall (fun e => u32 (u32 e - start) < ticks) early.
Proof.
  induction clock as [| t clock IH]; intros polls last rest Hrun; [discriminate Hrun |].
  cbn [hx71x_delay] in Hrun. unfold hx71x_check_elapsed in Hrun.
  destruct (Z.geb_spec (u32 (u32 t - start)) ticks) as [Hlate | Hearly].
  - injection Hrun as <- <- <-. exists [], t. repeat split; [lia | constructor].
  - destruct (hx71x_delay start ticks clock) as [[[polls' last'] rest'] |] eqn:Hrest;
      [| discriminate Hrun].
    injection Hrun as <- <- <-.
    destruct (IH _ _ _ eq_refl) as (early & t' & -> & Hlen & Hlast & Hlate & Hall).
    exists (t :: early), t'. cbn [app length]. rewrite Hlen.
    repeat split; try assumption. now constructor.
Qed.

Lemma delay_no_irq_returns start ticks clock last rest :
  hx71x_delay_no_irq start ticks clock = Some (last, rest) ->
  ticks <= u32 (last - start) /\ (length rest < length clock)%nat.
Proof.
  rewrite delay_no_irq_of_delay.
  destruct (hx71x_delay start ticks clock) as [[[polls last'] rest'] |] eqn:Hrun;
    [| discriminate].
  intros [= <- <-].
  destruct (delay_returns _ _ _ _ _ _ Hrun) as (early & t & -> & _ & _ & Hlate & _).
  split; [exact Hlate |]. rewrite length_app. cbn [length]. lia.
Qed.

End TimingFacts.

(** X5.  The elapsed-time tests survive the wrap-around of the 32-bit
    timer.  On a non-AVR build, where [hx71x_time_t] ([unsigned int])
    is 32 bits wide (on the AVR build it has 16 bits, and that build is
    not covered): for two readings
    taken [d] ticks apart ([d] below [2^32]), whatever the first reading,
    [hx71x_check_elapsed] compares [d] with the ticks to wait, and
    [hx71x_read_adc] measures exactly [d].  The two SPI drivers, whose
    times are [uint32_t] on every build, measure exactly [d] too. *)
Theorem X5_elapsed_time_survives_timer_wrap (start d ticks : Z) :
  0 <= d < 2 ^ 32 ->
  Timing.hx71x_check_elapsed (u32 start) (u32 (start + d)) ticks = (d >=? ticks)
  /\ (forall x : HX71x.io,
        HX71x.time_start x = start -> HX71x.time_end x = start + d ->
        HX71x.elapsed x = d)
  /\ (forall x : Spi.io,
        Spi.time_start x = start -> Spi.time_end x = start + d ->
        Spi.time_diff x = d).
Proof.
  intros Hd. repeat apply conj.
  - unfold Timing.hx71x_check_elapsed. now rewrite u32_apart.
  - intros x Hs He. unfold HX71x.elapsed. rewrite Hs, He. now apply u32_apart.
  - intros x Hs He. unfold Spi.time_diff. rewrite Hs, He. now apply u32_apart.
Qed.

(** The timer wraps during the wait: the first reading is 10 ticks
    before the wrap, the second 20 ticks after it. *)
Lemma X5_witness_across_the_wrap :
  Timing.hx71x_check_elapsed (2 ^ 32 - 10) 20 30 = true
  /\ Timing.hx71x_check_elapsed (2 ^ 32 - 10) 20 31 = false.
Proof.
  split.
  - exact (proj1 (X5_elapsed_time_survives_timer_wrap (2 ^ 32 - 10) 30 30 ltac:(lia))).
  - exact (proj1 (X5_elapsed_time_survives_timer_wrap (2 ^ 32 - 10) 30 31 ltac:(lia))).
Defined.

(** X6.  [hx71x_delay] returns at the first timer reading that is at
    least [ticks] after [start] (modulo [2^32]) and not before: every
    earlier reading was less than [ticks] after [start], and
    [irq_poll()] ran once for each of them.  It returns whenever such a
    reading comes, at once when [ticks] is 0, and [hx71x_delay_no_irq]
    ends on the same reading. *)
Theorem X6_delay_ends_on_first_late_reading (start ticks : Z) (clock : list Z) :
  (forall polls last rest,
     Timing.hx71x_delay start ticks clock = Some (polls, last, rest) ->
     exists early t,
       clock = early ++ t :: rest
       /\ length early = polls
       /\ last = u32 t
       /\ ticks <= u32 (last - start)
       /\ Forall (fun e => u32 (u32 e - start) < ticks) early)
  /\ (Exists (fun t => ticks <= u32 (u32 t - start)) clock ->
      exists polls last rest,
        Timing.hx71x_delay start ticks clock = Some (polls, last, rest))
  /\ (forall t rest,
        ticks <= 0 ->
        Timing.hx71x_delay start ticks (t :: rest) = Some (O, u32 t, rest))
  /\ Timing.hx71x_delay_no_irq start ticks clock
     = match Timing.hx71x_delay start ticks clock with
       | Some (_, last, rest) => Some (last, rest)
       | None => None
       end.
Proof.
  repeat apply conj.
  - apply delay_returns.
  - intros Hlate. induction Hlate as [t clock' Hlate | t clock' _ IH];
      cbn [Timing.hx71x_delay]; unfold Timing.hx71x_check_elapsed.
    + destruct (Z.geb_spec (u32 (u32 t - start)) ticks); [eauto | lia].
    + destruct (Z.geb_spec (u32 (u32 t - start)) ticks); [eauto |].
      destruct IH as (polls & last & rest & ->). eauto.
  - intros t rest Hzero. cbn [Timing.hx71x_delay]. unfold Timing.hx71x_check_elapsed.
    pose proof (u32_range (u32 t - start)).
    destruct (Z.geb_spec (u32 (u32 t - start)) ticks); [reflexivity | lia].
  - apply delay_no_irq_of_delay.
Qed.

(** A wait of 14 ticks from 100 with readings 105, 110, 114, 120: two
    polls, and the wait ends on the reading 114. *)
Lemma X6_witness_two_polls :
  Timing.hx71x_delay 100 14 [105; 110; 114; 120] = Some (2%nat, 114, [120]).
Proof.
  destruct (proj1 (proj2 (X6_delay_ends_on_first_late_reading 100 14 [105; 110; 114; 120])))
    as (polls & last & rest & Hrun).
  - apply Exists_cons_tl, Exists_cons_tl, Exists_cons_hd. vm_compute. discriminate.
  - reflexivity.
Defined.

(** X7.  A clock pulse that completes has kept the clock pin high, and
    then low, for at least the minimum pulse time: the timer readings
    that bracket each half are at least [min_pulse] ticks apart
    (modulo [2^32]), and the pulse took at least four readings. *)
Theorem X7_pulse_halves_last_the_minimum (min_pulse : Z) (clock rest : list Z)
    (p : Timing.pulse) :
  Timing.hx71x_pulse_clocks min_pulse clock = Some (p, rest) ->
  min_pulse <= u32 (Timing.high_until p - Timing.high_from p)
  /\ min_pulse <= u32 (Timing.low_until p - Timing.low_from p)
  /\ (length rest + 4 <= length clock)%nat.
Proof.
  unfold Timing.hx71x_pulse_clocks, Timing.hx71x_get_time. intros Hrun.
  destruct clock as [| t0 c0]; [discriminate Hrun |].
  destruct (Timing.hx71x_delay_no_irq (u32 t0) min_pulse c0) as [[t1 c1] |] eqn:Hhigh;
    [| discriminate Hrun].
  destruct c1 as [| t2 c2]; [discriminate Hrun |].
  destruct (Timing.hx71x_delay_no_irq (u32 t2) min_pulse c2) as [[t3 c3] |] eqn:Hlow;
    [| discriminate Hrun].
  injection Hrun as <- <-. cbn [Timing.high_until Timing.high_from Timing.low_until
                                Timing.low_from].
  destruct (delay_no_irq_returns _ _ _ _ _ Hhigh) as (Hh & Hl1).
  destruct (delay_no_irq_returns _ _ _ _ _ Hlow) as (Hl & Hl2).
  cbn [length] in *. repeat split; [exact Hh | exact Hl | lia].
Qed.

(** A pulse with a minimum of 14 ticks: high from 100 to 114, low from
    115 to 130. *)
Lemma X7_witness_one_pulse :
  Timing.hx71x_pulse_clocks 14 [100; 107; 114; 115; 122; 130; 131]
  = Some (Timing.Pulse 100 114 115 130, [131])
  /\ 14 <= u32 (114 - 100) /\ 14 <= u32 (130 - 115).
Proof.
  split; [reflexivity |].
  destruct (X7_pulse_halves_last_the_minimum 14 [100; 107; 114; 115; 122; 130; 131]
              [131] (Timing.Pulse 100 114 115 130) eq_refl) as (Hh & Hl & _).
  split; [exact Hh | exact Hl].
Defined.

(** X8.  On a board whose timer runs at a whole number [mhz] of MHz
    ([timer_from_us(us) = us * mhz]), and as long as nothing overflows
    32 bits, [nsecs_to_ticks(ns)] is [ns * mhz / 1000] rounded down: the
    ticks it gives never last longer than [ns] nanoseconds, and fall
    short of them by less than one tick. *)
Theorem X8_nsecs_to_ticks_rounds_down (timer_from_us : Z -> Z) (mhz ns : Z) :
  (forall us, timer_from_us us = us * mhz) ->
  0 <= ns -> 0 <= mhz -> ns * 1000 < 2 ^ 32 -> ns * 1000 * mhz < 2 ^ 32 ->
  Timing.nsecs_to_ticks timer_from_us ns = ns * mhz / 1000
  /\ Timing.nsecs_to_ticks timer_from_us ns * 1000 <= ns * mhz
  /\ ns * mhz < (Timing.nsecs_to_ticks timer_from_us ns + 1) * 1000.
Proof.
  intros Hboard Hns Hmhz Hus Hticks.
  assert (Hvalue : Timing.nsecs_to_ticks timer_from_us ns = ns * mhz / 1000).
  { unfold Timing.nsecs_to_ticks. rewrite (u32_small ns) by lia.
    rewrite (u32_small (ns * 1000)) by lia. rewrite Hboard.
    rewrite u32_small by nia.
    replace (ns * 1000 * mhz) with (ns * mhz * 1000) by lia.
    change 1000000 with (1000 * 1000).
    now rewrite Z.div_mul_cancel_r by lia. }
  rewrite Hvalue. split; [reflexivity |].
  pose proof (Z.div_mod (ns * mhz) 1000 ltac:(lia)).
  pose proof (Z.mod_pos_bound (ns * mhz) 1000 ltac:(lia)). lia.
Qed.

(** At 72 MHz the minimum pulse time of 200 ns is 14 ticks, which last
    194.4 ns. *)
Lemma X8_witness_72mhz :
  Timing.MIN_PULSE_TIME Examples.board_72mhz = 14
  /\ 14 * 1000 <= 200 * 72 < 15 * 1000.
Proof.
  destruct (X8_nsecs_to_ticks_rounds_down Examples.board_72mhz 72 200)
    as (Hvalue & Hle & Hlt); try lia; [reflexivity |].
  unfold Timing.MIN_PULSE_TIME. rewrite Hvalue in *.
  change (200 * 72 / 1000) with 14 in *. split; [reflexivity | lia].
Defined.

(** ** Configuration and flags *)

(** X9.  [command_config_hx71x] checks the gain/channel selection after
    it has been cut to 8 bits: the sensor is created exactly when the
    low byte of the argument is 1, 2, 3 or 4 (so 257 is taken as 1), and
    the firmware is halted otherwise.  The sensor created is stopped: not
    pending, no timer outstanding, [rest_ticks] 0, the clock pin high
    (the chip powered down), the buffer empty. *)
Theorem X9_config_checks_low_byte_of_gain (capacity : nat) (gain : Z) :
  (1 <= gain mod 256 <= 4 <->
   exists s, HX71x.command_config_hx71x capacity gain = Done s)
  /\ (~ 1 <= gain mod 256 <= 4 <->
      HX71x.command_config_hx71x capacity gain
      = Shutdown "HX71x gain/channel out of range 1-4")
  /\ (forall s,
        HX71x.command_config_hx71x capacity gain = Done s ->
        HX71x.gain_channel s = gain mod 256
        /\ HX71x.pending_flag s = 0
        /\ scheduled (HX71x.timer s) = false
        /\ HX71x.rest_ticks s = 0
        /\ HX71x.sclk s = true
        /\ data_count (HX71x.sb s) = 0%nat
        /\ length (data (HX71x.sb s)) = capacity).
Proof.
  assert (Hcases :
    (1 <= gain mod 256 <= 4
     /\ HX71x.command_config_hx71x capacity gain
        = Done (HX71x.Hx71xAdc (gain mod 256) 0 0 (Timer 0 false) true
                  (SensorBulk 0 0 (replicate capacity 0) [])))
    \/ (~ 1 <= gain mod 256 <= 4
        /\ HX71x.command_config_hx71x capacity gain
           = Shutdown "HX71x gain/channel out of range 1-4")).
  { unfold HX71x.command_config_hx71x, u8.
    destruct (Z.ltb_spec (gain mod 256) 1), (Z.gtb_spec (gain mod 256) 4); cbn [orb];
      first [left; split; [lia | reflexivity] | right; split; [lia | reflexivity]]. }
  destruct Hcases as [[Hin Hrun] | [Hout Hrun]]; rewrite Hrun; (split; [| split]).
  - split; [eauto | intros _; exact Hin].
  - split; [intros Hno; contradiction | intros Heq; discriminate Heq].
  - intros s [= <-]. cbn. rewrite length_replicate. repeat split.
  - split; [intros Hyes; contradiction | intros [s Heq]; discriminate Heq].
  - split; [reflexivity | intros _; exact Hout].
  - intros s Heq. discriminate Heq.
Qed.

(** X10.  The flag helpers of the ADS1256 driver, for any 8-bit mask:
    after [set_flag] the mask reads as set (unless it is 0), after
    [clear_flag] as clear; neither changes how a mask that shares no bit
    with it reads, and both keep [flags] within 8 bits. *)
Theorem X10_flag_helpers (mask other : Z) (s : ADS1256.ads1256_adc) :
  0 <= mask < 256 -> 0 <= other < 256 -> Z.land other mask = 0 ->
  ADS1256.is_flag_set mask (ADS1256.set_flag mask s) = negb (mask =? 0)
  /\ ADS1256.is_flag_set mask (ADS1256.clear_flag mask s) = false
  /\ ADS1256.is_flag_set other (ADS1256.set_flag mask s) = ADS1256.is_flag_set other s
  /\ ADS1256.is_flag_set other (ADS1256.clear_flag mask s) = ADS1256.is_flag_set other s
  /\ 0 <= ADS1256.flags (ADS1256.set_flag mask s) < 256
  /\ 0 <= ADS1256.flags (ADS1256.clear_flag mask s) < 256.
Proof.
  intros Hmask Hother Hdisjoint.
  assert (Hlow : forall a b, 0 <= a < 256 -> Z.land a (u8 b) = Z.land a b).
  { intros a b Ha. unfold u8. change 256 with (2 ^ 8).
    rewrite <- Z.land_ones by lia.
    rewrite (Z.land_comm b), Z.land_assoc, (Z.land_ones a) by lia.
    now rewrite Z.mod_small by (change (2 ^ 8) with 256; lia). }
  unfold ADS1256.is_flag_set, ADS1256.set_flag, ADS1256.clear_flag.
  cbn [ADS1256.set_flags ADS1256.flags]. rewrite !Hlow by assumption.
  repeat apply conj; try apply u8_range.
  - f_equal. f_equal. rewrite Z.land_lor_distr_r, Z.land_diag.
    rewrite (Z.lor_comm _ mask). apply Z.bits_inj'. intros n Hn.
    rewrite Z.lor_spec, Z.land_spec. now destruct (Z.testbit mask n).
  - replace (Z.land mask (Z.land (ADS1256.flags s) (Z.lnot mask))) with 0; [reflexivity |].
    symmetry. apply Z.bits_inj'. intros n Hn.
    rewrite !Z.land_spec, Z.lnot_spec, Z.bits_0 by assumption.
    now destruct (Z.testbit mask n), (Z.testbit (ADS1256.flags s) n).
  - now rewrite Z.land_lor_distr_r, Hdisjoint, Z.lor_0_r.
  - f_equal. f_equal. apply Z.bits_inj'. intros n Hn.
    rewrite !Z.land_spec, Z.lnot_spec by assumption.
    assert (Hbit : Z.testbit other n && Z.testbit mask n = false)
      by (rewrite <- Z.land_spec, Hdisjoint; apply Z.bits_0).
    destruct (Z.testbit other n), (Z.testbit mask n), (Z.testbit (ADS1256.flags s) n);
      try reflexivity; discriminate Hbit.
Qed.

(** The pending flag and a second flag [0x02] on the flags [0x02]. *)
Lemma X10_witness_pending_and_second_flag :
  ADS1256.is_flag_set ADS1256.FLAG_PENDING
    (ADS1256.set_flag ADS1256.FLAG_PENDING
       (ADS1256.set_flags 2 (ADS1256.command_config_ads1256 8))) = true
  /\ ADS1256.is_flag_set 2
       (ADS1256.clear_flag ADS1256.FLAG_PENDING
          (ADS1256.set_flags 2 (ADS1256.command_config_ads1256 8))) = true.
Proof.
  destruct (X10_flag_helpers ADS1256.FLAG_PENDING 2
              (ADS1256.set_flags 2 (ADS1256.command_config_ads1256 8)))
    as (Hset & _ & _ & Hother & _);
    [change ADS1256.FLAG_PENDING with 1; lia | lia | reflexivity |].
  split; [exact Hset |]. rewrite Hother. reflexivity.
Defined.

(** ** More on single polls *)

(** X11.  An ADS1256 poll that appends a sample forwards exactly that
    sample to an attached endstop, stamped with the time read before the
    transfer, and forwards nothing without one; a deferred poll forwards
    nothing and appends nothing. *)
Theorem X11_endstop_gets_each_sample (timer_from_us : Z -> Z)
    (x : Spi.io) (s : ADS1256.ads1256_adc) (oid : Z) :
  (Spi.data_ready x = false ->
   Spi.time_diff x < ADS1256.MAX_SPI_READ_TIME timer_from_us ->
   Spi.word24 x <> 0xFFFFFF ->
   append_ready (ADS1256.sb s) ->
   exists s',
     ADS1256.ads1256_read_adc timer_from_us x s oid = Done s'
     /\ stream (ADS1256.sb s')
        = stream (ADS1256.sb s) ++ le32 (ADS1256.extend_counts (Spi.word24 x))
     /\ ADS1256.lce s'
        = match ADS1256.lce s with
          | Some e =>
              Some (e ++ [(ADS1256.extend_counts (Spi.word24 x), u32 (Spi.time_start x))])
          | None => None
          end)
  /\ (Spi.data_ready x = true ->
      exists s',
        ADS1256.ads1256_read_adc timer_from_us x s oid = Done s'
        /\ stream (ADS1256.sb s') = stream (ADS1256.sb s)
        /\ ADS1256.lce s' = ADS1256.lce s).
Proof.
  split.
  - intros Hready Htime Hword Hroom.
    destruct (ads1256_sample timer_from_us x s oid Hready Htime Hword Hroom)
      as (s' & Hrun & _ & _ & _ & _ & Hstr & _).
    exists s'. split; [exact Hrun |]. split; [exact Hstr |].
    rewrite ads1256_read_adc_ready in Hrun by assumption.
    destruct (Z.geb_spec (Spi.time_diff x) (ADS1256.MAX_SPI_READ_TIME timer_from_us));
      [lia |].
    destruct (Z.eqb_spec (Spi.word24 x) 0xFFFFFF); [contradiction |].
    unfold ADS1256.add_sample in Hrun.
    destruct (add_sample_fits (ADS1256.sb s) (ADS1256.extend_counts (Spi.word24 x))
                (append_ready_fits _ Hroom)) as (d & Hadd & _).
    rewrite Hadd in Hrun. cbn [bind] in Hrun. injection Hrun as <-.
    unfold ADS1256.report_to_endstop. cbn [ADS1256.set_sb ADS1256.lce].
    destruct (ADS1256.lce s) eqn:Hlce;
      cbn [ADS1256.lce ADS1256.ads1256_reschedule_timer ADS1256.flush_samples
           ADS1256.set_timer ADS1256.set_flag ADS1256.set_flags ADS1256.set_sb
           ADS1256.set_lce ADS1256.load_cell_endstop_report_sample];
      rewrite ?Hlce; reflexivity.
  - intros Hbusy. rewrite ads1256_read_adc_not_ready by assumption.
    eexists. split; [reflexivity |]. split; reflexivity.
Qed.

(** A sensor with an endstop attached reads the bytes [00 00 05] at
    time 100: the endstop is given the sample 5 with the time 100. *)
Lemma X11_witness_sample_forwarded :
  exists s',
    ADS1256.ads1256_read_adc Examples.board_72mhz (Examples.transfer 0 0 5 100)
      (ADS1256.command_attach_endstop_ads1256 Examples.ads1256_pending) 0 = Done s'
    /\ ADS1256.lce s' = Some [(5, 100)].
Proof.
  destruct (proj1 (X11_endstop_gets_each_sample Examples.board_72mhz
                     (Examples.transfer 0 0 5 100)
                     (ADS1256.command_attach_endstop_ads1256 Examples.ads1256_pending) 0))
    as (s' & Hrun & _ & Hlce); try reflexivity.
  - intros Heq. discriminate Heq.
  - vm_compute. lia.
  - exists s'. split; [exact Hrun | exact Hlce].
Defined.

(** X12.  An HX71x poll never changes the gain/channel selection, the
    poll interval or the size of the buffer.  A poll that reads the
    chip leaves the clock pin low, whether it ends in a sample or in an
    error record, so the chip is not powered down by a poll; a deferred
    poll does not touch the pin.  The start/stop command leaves the pin
    high (power down) exactly when it stops the sensor. *)
Theorem X12_poll_keeps_settings_and_clock_low (timer_from_us : Z -> Z)
    (x : HX71x.io) (s : HX71x.hx71x_adc) (oid : Z) :
  append_ready (HX71x.sb s) ->
  (exists s',
     HX71x.hx71x_read_adc timer_from_us x s oid = Done s'
     /\ HX71x.gain_channel s' = HX71x.gain_channel s
     /\ HX71x.rest_ticks s' = HX71x.rest_ticks s
     /\ length (data (HX71x.sb s')) = length (data (HX71x.sb s))
     /\ HX71x.sclk s' = (if HX71x.dout_before x then HX71x.sclk s else false))
  /\ (forall rest now,
        HX71x.sclk (HX71x.command_query_hx71x rest now s) = (u32 rest =? 0)).
Proof.
  intros Hroom. split.
  - destruct (HX71x.dout_before x) eqn:Hbefore.
    + rewrite hx71x_read_adc_not_ready by assumption. eexists.
      split; [reflexivity |]. repeat split.
    + rewrite hx71x_read_adc_ready by assumption.
      assert (Herr : forall code,
        exists s',
          HX71x.send_error (HX71x.gpio_out_write false s) oid code = Done s'
          /\ HX71x.gain_channel s' = HX71x.gain_channel s
          /\ HX71x.rest_ticks s' = HX71x.rest_ticks s
          /\ length (data (HX71x.sb s')) = length (data (HX71x.sb s))
          /\ HX71x.sclk s' = false).
      { intros code.
        destruct (hx71x_send_error_record (HX71x.gpio_out_write false s) oid code
                    (append_ready_fits _ Hroom))
          as (s' & Hrun & _ & _ & Hr & Hg & Hc & _ & _ & _ & _ & Hlen).
        exists s'. split_all. }
      destruct (HX71x.dout_after x); cbn [negb]; [| apply Herr].
      destruct (HX71x.elapsed x >=? HX71x.MAX_READ_TIME timer_from_us); [apply Herr |].
      assert (Hin : HX71x.out_of_range (HX71x.extend_counts (HX71x.raw_word x)) = false).
      { pose proof (raw_word_range x) as Hraw.
        pose proof (hx71x_extend_in_range (HX71x.raw_word x) ltac:(lia)) as Hr.
        destruct (HX71x.out_of_range _) eqn:Hout; [| reflexivity].
        apply hx71x_out_of_range_iff in Hout. lia. }
      destruct (hx71x_store_counts_sample x (HX71x.gpio_out_write false s) oid _ Hroom Hin)
        as (s' & Hrun & _ & _ & Hr & Hg & Hc & _ & _ & _ & Hlen).
      exists s'. split_all.
  - intros rest now. unfold HX71x.command_query_hx71x.
    cbn [HX71x.set_rest_ticks HX71x.rest_ticks]. now destruct (u32 rest =? 0).
Qed.

(** A read that ends in an error record leaves the clock pin low. *)
Lemma X12_witness_clock_low_after_error :
  exists s',
    HX71x.hx71x_read_adc Examples.board_72mhz Examples.hx71x_ready_again
      Examples.hx71x_pending 0 = Done s'
    /\ HX71x.gain_channel s' = 1
    /\ HX71x.sclk s' = false.
Proof.
  destruct (proj1 (X12_poll_keeps_settings_and_clock_low Examples.board_72mhz
                     Examples.hx71x_ready_again Examples.hx71x_pending 0
                     ltac:(vm_compute; lia)))
    as (s' & Hrun & Hg & _ & _ & Hc).
  exists s'. split; [exact Hrun |]. split; [exact Hg | exact Hc].
Defined.

(** X16.  The decoding of the HX71x and ADS1220 drivers tells all
    24-bit words apart but two: the midpoint [0x800000] decodes to 0 as
    the word 0 does.  The decoding of the ADS1256 driver tells all words
    apart, and the word is the low 24 bits of the sample it stores. *)
Theorem X16_decoding_confuses_midpoint_with_zero (v w : Z) :
  0 <= v <= 0xFFFFFF -> 0 <= w <= 0xFFFFFF ->
  (HX71x.extend_counts v = HX71x.extend_counts w <->
   v = w \/ (v = 0 /\ w = 0x800000) \/ (v = 0x800000 /\ w = 0))
  /\ (ADS1220.extend_counts v = ADS1220.extend_counts w <->
      v = w \/ (v = 0 /\ w = 0x800000) \/ (v = 0x800000 /\ w = 0))
  /\ (ADS1256.extend_counts v = ADS1256.extend_counts w <-> v = w)
  /\ u32 (ADS1256.extend_counts v) mod 2 ^ 24 = v.
Proof.
  intros Hv Hw.
  assert (H71 : HX71x.extend_counts v = HX71x.extend_counts w <->
                v = w \/ (v = 0 /\ w = 0x800000) \/ (v = 0x800000 /\ w = 0)).
  { rewrite !hx71x_extend_cases by assumption.
    destruct (Z.eqb_spec v 0x800000), (Z.eqb_spec w 0x800000),
      (Z.ltb_spec v 0x800000), (Z.ltb_spec w 0x800000); lia. }
  split; [exact H71 |]. split; [rewrite !ads1220_extend_hx71x; exact H71 |].
  rewrite !ads1256_extend_cases by lia. split.
  - destruct (Z.ltb_spec v 0x800000), (Z.ltb_spec w 0x800000); lia.
  - unfold u32. destruct (Z.ltb_spec v 0x800000); Z.div_mod_to_equations; lia.
Qed.

(** The words 0 and [0x800000] give the same HX71x sample. *)
Lemma X16_witness_zero_and_midpoint :
  HX71x.extend_counts 0 = HX71x.extend_counts 0x800000
  /\ ADS1256.extend_counts 0 <> ADS1256.extend_counts 0x800000.
Proof.
  destruct (X16_decoding_confuses_midpoint_with_zero 0 0x800000 ltac:(lia) ltac:(lia))
    as (H71 & _ & H56 & _).
  split; [apply H71; right; left; split; reflexivity |].
  intros Heq. apply H56 in Heq. discriminate Heq.
Defined.

(** X17.  The error field after a poll.  An HX71x poll that finds the
    data line low again after the read records [ERROR_READY_AFTER_READ],
    whatever the time the read took; one that finds it high records
    [ERROR_READ_TOO_LONG] when the read took the maximum or longer; every
    other poll leaves the field as it was.  An ADS1220 poll records
    [ERROR_READ_TOO_LONG] when the transfer took the maximum or longer and
    leaves the field otherwise.  No poll records [ERROR_OUT_OF_RANGE]. *)
Theorem X17_error_code_of_a_poll (timer_from_us : Z -> Z) :
  (forall x s oid,
     append_ready (HX71x.sb s) ->
     exists s',
       HX71x.hx71x_read_adc timer_from_us x s oid = Done s'
       /\ possible_overflows (HX71x.sb s')
          = (if HX71x.dout_before x then possible_overflows (HX71x.sb s)
             else if negb (HX71x.dout_after x) then HX71x.ERROR_READY_AFTER_READ
             else if HX71x.elapsed x >=? HX71x.MAX_READ_TIME timer_from_us
                  then HX71x.ERROR_READ_TOO_LONG
             else possible_overflows (HX71x.sb s)))
  /\ (forall x s oid,
        append_ready (ADS1220.sb s) ->
        exists s',
          ADS1220.ads1220_read_adc timer_from_us x s oid = Done s'
          /\ possible_overflows (ADS1220.sb s')
             = (if Spi.data_ready x then possible_overflows (ADS1220.sb s)
                else if Spi.time_diff x >=? ADS1220.MAX_SPI_READ_TIME timer_from_us
                     then ADS1220.ERROR_READ_TOO_LONG
                else possible_overflows (ADS1220.sb s))).
Proof.
  split.
  - intros x s oid Hroom. destruct (HX71x.dout_before x) eqn:Hbefore.
    + rewrite hx71x_read_adc_not_ready by assumption. eexists. split; reflexivity.
    + destruct (HX71x.dout_after x) eqn:Hafter; cbn [negb].
      * destruct (Z.geb_spec (HX71x.elapsed x) (HX71x.MAX_READ_TIME timer_from_us)).
        -- destruct (hx71x_poll_error timer_from_us x s oid)
             as (s' & Hrun & _ & _ & _ & _ & Hpo & _);
             try assumption; [right; lia | now apply append_ready_fits |].
           rewrite Hafter in Hpo. exists s'. split_all.
        -- destruct (hx71x_poll_sample timer_from_us x s oid)
             as (s' & Hrun & _ & _ & _ & Hpo & _); try assumption.
           exists s'. split_all.
      * destruct (hx71x_poll_error timer_from_us x s oid)
          as (s' & Hrun & _ & _ & _ & _ & Hpo & _);
          try assumption; [now left | now apply append_ready_fits |].
        rewrite Hafter in Hpo. exists s'. split_all.
  - intros x s oid Hroom. destruct (Spi.data_ready x) eqn:Hbefore.
    + rewrite ads1220_read_adc_not_ready by assumption. eexists. split; reflexivity.
    + destruct (Z.geb_spec (Spi.time_diff x) (ADS1220.MAX_SPI_READ_TIME timer_from_us)).
      * destruct (ads1220_poll_error timer_from_us x s oid)
          as (s' & Hrun & _ & _ & _ & _ & Hpo & _);
          try assumption; [now apply append_ready_fits |].
        exists s'. split_all.
      * destruct (ads1220_poll_sample timer_from_us x s oid)
          as (s' & Hrun & _ & _ & _ & Hpo & _); try assumption.
        exists s'. split_all.
Qed.

(** ** The task and the life of a sensor *)

Section MoreFamilyFacts.

Context {D : Type}.

(** The loop over the sensors applies its body to each sensor, with
    the sensor's object id. *)
Lemma foreach_oid_each (body : Z -> D -> outcome D) : forall l first l',
  foreach_oid body first l = Done l' ->
  length l' = length l
  /\ forall (i : nat) d, l !! i = Some d ->
       exists d', l' !! i = Some d' /\ body (first + Z.of_nat i) d = Done d'.
Proof.
  induction l as [| a l IH]; intros first l' Hrun; cbn [foreach_oid] in Hrun.
  - injection Hrun as <-. split; [reflexivity |]. intros i d Hi. discriminate Hi.
  - destruct (body first a) as [a' | |] eqn:Ha; cbn [bind] in Hrun; try discriminate Hrun.
    destruct (foreach_oid body (first + 1) l) as [r | |] eqn:Hr; cbn [bind] in Hrun;
      try discriminate Hrun.
    injection Hrun as <-. destruct (IH _ _ Hr) as [Hlen Heach].
    split; [cbn [length]; now rewrite Hlen |].
    intros [| i] d Hi.
    + injection Hi as <-. exists a'. split; [reflexivity |].
      now rewrite Z.add_0_r.
    + destruct (Heach i d Hi) as (d' & Hd' & Hbody). exists d'. split; [exact Hd' |].
      now replace (first + Z.of_nat (S i)) with (first + 1 + Z.of_nat i) by lia.
Qed.

Lemma foreach_oid_single (body : Z -> D -> outcome D) first (s : D) :
  foreach_oid body first [s] = (let* d := body first s in Done [d]).
Proof. cbn [foreach_oid]. now destruct (body first s). Qed.

Lemma on_sensor_single (query : D -> D) w (s : D) :
  on_sensor query 0 (Family w [s]) = Family w [query s].
Proof. reflexivity. Qed.

Lemma timer_due_single (armed : D -> bool) (handler : D -> D) w (s : D) :
  timer_due armed handler 0 (Family w [s])
  = if armed s then Family true [handler s] else Family w [s].
Proof. reflexivity. Qed.

(** A sensor that no timer event fires for and that the task skips is
    left alone by every event that is not a command. *)
Lemma idle_sensor_untouched {IO : Type}
    (step : event IO -> family D -> outcome (family D))
    (armed : D -> bool) (handler : D -> D) (body : (Z -> IO) -> Z -> D -> outcome D)
    (s : D) (i : nat) :
  (forall oid f, step (TimerDue oid) f = Done (timer_due armed handler oid f)) ->
  (forall ios f,
     step (TaskRun ios) f =
       if negb (wake f) then Done f
       else let* l := foreach_oid (body ios) 0 (objs f) in Done (Family false l)) ->
  armed s = false -> (forall ios oid, body ios oid s = Done s) ->
  forall events f f',
    forallb no_command events = true -> objs f !! i = Some s ->
    run step events f = Done f' -> objs f' !! i = Some s.
Proof.
  intros Htimer Htask Harmed Hskip events.
  induction events as [| e events IH]; intros f f' Hall Hi Hrun; cbn [run] in Hrun.
  - now injection Hrun as <-.
  - cbn [forallb] in Hall. apply andb_true_iff in Hall as [He Hall].
    destruct (step e f) as [f1 | |] eqn:Hstep; cbn [bind] in Hrun; try discriminate Hrun.
    apply (IH f1 f' Hall); [| exact Hrun]. clear IH Hrun.
    destruct e as [oid | ios | oid rest now]; [| | discriminate He].
    + rewrite Htimer in Hstep. injection Hstep as <-. unfold timer_due.
      destruct (objs f !! oid) as [d |] eqn:Hd; [| exact Hi].
      destruct (armed d) eqn:Hdarmed; [| exact Hi].
      cbn [sched_wake_task objs]. rewrite list_lookup_insert_ne; [exact Hi |].
      intros ->. rewrite Hi in Hd. injection Hd as <-. congruence.
    + rewrite Htask in Hstep. destruct (wake f); cbn [negb] in Hstep.
      * destruct (foreach_oid (body ios) 0 (objs f)) as [l | |] eqn:Hl;
          cbn [bind] in Hstep; try discriminate Hstep.
        injection Hstep as <-. cbn [objs].
        destruct (foreach_oid_each _ _ _ _ Hl) as [_ Heach].
        destruct (Heach i s Hi) as (d' & Hd' & Hbody).
        rewrite Hskip in Hbody. now injection Hbody as <-.
      * now injection Hstep as <-.
Qed.

End MoreFamilyFacts.

(** X14.  Sampling stops at an error record until the host sends a
    command.  An HX71x or ADS1220 sensor whose timer has fired and whose
    poll ends in an error record is left neither pending nor scheduled;
    from then on no timer event and no run of the task changes it, in
    whatever family it lives, until a start/stop command arrives. *)
Theorem X14_sensor_idles_after_error_record (timer_from_us : Z -> Z) :
  (forall x s oid,
     scheduled (HX71x.timer s) = false ->
     HX71x.dout_before x = false ->
     HX71x.dout_after x = false
     \/ HX71x.MAX_READ_TIME timer_from_us <= HX71x.elapsed x ->
     append_ready (HX71x.sb s) ->
     exists s',
       HX71x.hx71x_read_adc timer_from_us x s oid = Done s'
       /\ HX71x.pending_flag s' = 0
       /\ scheduled (HX71x.timer s') = false
       /\ forall events f f' (i : nat),
            forallb no_command events = true -> objs f !! i = Some s' ->
            run (hx71x_step timer_from_us) events f = Done f' ->
            objs f' !! i = Some s')
  /\ (forall x s oid,
        scheduled (ADS1220.timer s) = false ->
        Spi.data_ready x = false ->
        ADS1220.MAX_SPI_READ_TIME timer_from_us <= Spi.time_diff x ->
        append_ready (ADS1220.sb s) ->
        exists s',
          ADS1220.ads1220_read_adc timer_from_us x s oid = Done s'
          /\ ADS1220.pending_flag s' = 0
          /\ scheduled (ADS1220.timer s') = false
          /\ forall events f f' (i : nat),
               forallb no_command events = true -> objs f !! i = Some s' ->
               run (ads1220_step timer_from_us) events f = Done f' ->
               objs f' !! i = Some s').
Proof.
  split.
  - intros x s oid Hfired Hready Hbad Hroom.
    destruct (hx71x_poll_error timer_from_us x s oid)
      as (s' & Hrun & Hp & Ht & _); try assumption; [now apply append_ready_fits |].
    exists s'. split; [exact Hrun |]. split; [exact Hp |].
    assert (Hs : scheduled (HX71x.timer s') = false) by now rewrite Ht.
    split; [exact Hs |]. intros events f f' i.
    apply (idle_sensor_untouched (hx71x_step timer_from_us)
             (fun d => scheduled (HX71x.timer d)) HX71x.hx71x_event
             (HX71x.capture_one timer_from_us)); try reflexivity; [exact Hs |].
    intros ios oid'. unfold HX71x.capture_one. now rewrite Hp.
  - intros x s oid Hfired Hready Hlong Hroom.
    destruct (ads1220_poll_error timer_from_us x s oid)
      as (s' & Hrun & Hp & Ht & _); try assumption; [now apply append_ready_fits |].
    exists s'. split; [exact Hrun |]. split; [exact Hp |].
    assert (Hs : scheduled (ADS1220.timer s') = false) by now rewrite Ht.
    split; [exact Hs |]. intros events f f' i.
    apply (idle_sensor_untouched (ads1220_step timer_from_us)
             (fun d => scheduled (ADS1220.timer d)) ADS1220.ads1220_event
             (ADS1220.capture_one timer_from_us)); try reflexivity; [exact Hs |].
    intros ios oid'. unfold ADS1220.capture_one. now rewrite Hp.
Qed.

(** The pending HX71x sensor after a read that found the data line low
    again: three more task runs and timer events leave it as it is. *)
Lemma X14_witness_no_more_polls :
  exists s',
    HX71x.hx71x_read_adc Examples.board_72mhz Examples.hx71x_ready_again
      Examples.hx71x_pending 0 = Done s'
    /\ run (hx71x_step Examples.board_72mhz)
         [TimerDue 0; TaskRun (fun _ => Examples.hx71x_clean); TimerDue 0;
          TaskRun (fun _ => Examples.hx71x_clean)]
         (Family true [s']) = Done (Family false [s']).
Proof.
  destruct (proj1 (X14_sensor_idles_after_error_record Examples.board_72mhz)
              Examples.hx71x_ready_again Examples.hx71x_pending 0)
    as (s' & Hrun & Hp & Hs & _); try reflexivity; [now left | vm_compute; lia |].
  exists s'. split; [exact Hrun |].
  cbn [run hx71x_step bind]. rewrite timer_due_single, Hs.
  unfold HX71x.hx71x_capture_task. cbn [wake negb objs].
  rewrite foreach_oid_single. unfold HX71x.capture_one at 1. rewrite Hp. cbn [Z.eqb bind].
  rewrite timer_due_single, Hs. reflexivity.
Defined.

Section StartedSensors.

(** The HX71x sensor the start command leaves. *)
Lemma hx71x_started rest now s :
  u32 rest <> 0 ->
  HX71x.command_query_hx71x rest now s
  = HX71x.Hx71xAdc (HX71x.gain_channel s) 0 (u32 rest)
      (Timer (u32 (u32 now + u32 rest)) true) false
      (sensor_bulk_reset (HX71x.sb s)).
Proof.
  intros Hrest. unfold HX71x.command_query_hx71x.
  cbn [HX71x.set_rest_ticks HX71x.rest_ticks].
  destruct (Z.eqb_spec (u32 rest) 0); [contradiction | reflexivity].
Qed.

(** The ADS1220 sensor the start command leaves. *)
Lemma ads1220_started rest now s :
  u32 rest <> 0 ->
  ADS1220.command_query_ads1220 rest now s
  = ADS1220.Ads1220Adc (Timer (u32 (u32 now + u32 rest)) true) (u32 rest) 0
      (sensor_bulk_reset (ADS1220.sb s)).
Proof.
  intros Hrest. unfold ADS1220.command_query_ads1220.
  cbn [ADS1220.set_rest_ticks ADS1220.rest_ticks].
  destruct (Z.eqb_spec (u32 rest) 0); [contradiction | reflexivity].
Qed.

Lemma reset_ready sb0 :
  (4 <= length (data sb0))%nat -> append_ready (sensor_bulk_reset sb0).
Proof.
  intros Hcap. unfold append_ready, ARRAY_SIZE. cbn [sensor_bulk_reset data_count data].
  split; [reflexivity | lia].
Qed.

Lemma stream_reset sb0 :
  stream (sensor_bulk_reset sb0) = concat (map r_data (reported sb0)).
Proof.
  unfold stream. cbn [sensor_bulk_reset reported data_count data].
  now rewrite take_0, app_nil_r.
Qed.

End StartedSensors.

(** X13.  One cycle of a sensor that is alone in its family: the start
    command with a poll interval that is not 0, the timer event, and a
    run of the task that finds the chip ready and reads it cleanly.  The
    three events return; the sensor ends not pending, with its timer
    rearmed one interval after the time read by the reschedule, and the
    stream holds the reports made before the start followed by the one
    new sample (bytes that were buffered but not reported before the
    start are gone). *)
Theorem X13_start_fire_poll (timer_from_us : Z -> Z) (rest now : Z) (w : bool) :
  u32 rest <> 0 ->
  (forall x s,
     (4 <= length (data (HX71x.sb s)))%nat ->
     HX71x.dout_before x = false -> HX71x.dout_after x = true ->
     HX71x.elapsed x < HX71x.MAX_READ_TIME timer_from_us ->
     exists s',
       run (hx71x_step timer_from_us)
         [Query 0 rest now; TimerDue 0; TaskRun (fun _ => x)] (Family w [s])
       = Done (Family false [s'])
       /\ HX71x.pending_flag s' = 0
       /\ HX71x.timer s' = Timer (u32 (u32 (HX71x.time_resched x) + u32 rest)) true
       /\ stream (HX71x.sb s')
          = concat (map r_data (reported (HX71x.sb s)))
            ++ le32 (HX71x.extend_counts (HX71x.raw_word x)))
  /\ (forall x s,
        (4 <= length (data (ADS1220.sb s)))%nat ->
        Spi.data_ready x = false ->
        Spi.time_diff x < ADS1220.MAX_SPI_READ_TIME timer_from_us ->
        exists s',
          run (ads1220_step timer_from_us)
            [Query 0 rest now; TimerDue 0; TaskRun (fun _ => x)] (Family w [s])
          = Done (Family false [s'])
          /\ ADS1220.pending_flag s' = 0
          /\ ADS1220.timer s' = Timer (u32 (u32 (Spi.time_resched x) + u32 rest)) true
          /\ stream (ADS1220.sb s')
             = concat (map r_data (reported (ADS1220.sb s)))
               ++ le32 (ADS1220.extend_counts (Spi.word24 x))).
Proof.
  intros Hrest. split.
  - intros x s Hcap Hready Hafter Htime.
    destruct (hx71x_poll_sample timer_from_us x
                (HX71x.hx71x_event (HX71x.command_query_hx71x rest now s)) 0)
      as (s' & Hrun & Hp & Ht & _ & _ & Hstr & _); try assumption.
    { rewrite hx71x_started by assumption. now apply reset_ready. }
    exists s'. rewrite hx71x_started in * by assumption.
    cbn [HX71x.hx71x_event HX71x.set_timer HX71x.set_pending_flag HX71x.sb
         HX71x.rest_ticks HX71x.timer HX71x.pending_flag] in Ht, Hstr.
    rewrite stream_reset in Hstr.
    split; [| split; [exact Hp | split; [exact Ht | exact Hstr]]].
    cbn [run hx71x_step bind]. rewrite on_sensor_single, hx71x_started by assumption.
    rewrite timer_due_single. cbn [HX71x.timer scheduled].
    unfold HX71x.hx71x_capture_task. cbn [wake negb objs].
    rewrite foreach_oid_single. unfold HX71x.capture_one at 1.
    cbn [HX71x.hx71x_event HX71x.set_timer HX71x.set_pending_flag HX71x.pending_flag
         Z.eqb].
    cbn [HX71x.hx71x_event HX71x.set_timer HX71x.set_pending_flag] in Hrun.
    rewrite Hrun. reflexivity.
  - intros x s Hcap Hready Htime.
    destruct (ads1220_poll_sample timer_from_us x
                (ADS1220.ads1220_event (ADS1220.command_query_ads1220 rest now s)) 0)
      as (s' & Hrun & Hp & Ht & _ & _ & Hstr & _); try assumption.
    { rewrite ads1220_started by assumption. now apply reset_ready. }
    exists s'. rewrite ads1220_started in * by assumption.
    cbn [ADS1220.ads1220_event ADS1220.set_timer ADS1220.set_pending_flag ADS1220.sb
         ADS1220.rest_ticks ADS1220.timer ADS1220.pending_flag] in Ht, Hstr.
    rewrite stream_reset in Hstr.
    split; [| split; [exact Hp | split; [exact Ht | exact Hstr]]].
    cbn [run ads1220_step bind]. rewrite on_sensor_single, ads1220_started by assumption.
    rewrite timer_due_single. cbn [ADS1220.timer scheduled].
    unfold ADS1220.ads1220_capture_task. cbn [wake negb objs].
    rewrite foreach_oid_single. unfold ADS1220.capture_one at 1.
    cbn [ADS1220.ads1220_event ADS1220.set_timer ADS1220.set_pending_flag
         ADS1220.pending_flag Z.eqb].
    cbn [ADS1220.ads1220_event ADS1220.set_timer ADS1220.set_pending_flag] in Hrun.
    rewrite Hrun. reflexivity.
Qed.

(** The ADS1220 sensor as configured, started with an interval of 1000
    ticks, reads the bytes [00 00 05]: the stream is the sample 5. *)
Lemma X13_witness_first_sample :
  exists s',
    run (ads1220_step Examples.board_72mhz)
      [Query 0 1000 5; TimerDue 0; TaskRun (fun _ => Examples.transfer 0 0 5 100)]
      (Family false [ADS1220.command_config_ads1220 8])
    = Done (Family false [s'])
    /\ ADS1220.timer s' = Timer 1400 true
    /\ stream (ADS1220.sb s') = [5; 0; 0; 0].
Proof.
  destruct (proj2 (X13_start_fire_poll Examples.board_72mhz 1000 5 false
                     ltac:(intros Heq; discriminate Heq))
              (Examples.transfer 0 0 5 100) (ADS1220.command_config_ads1220 8))
    as (s' & Hrun & _ & Ht & Hstr); try reflexivity.
  - vm_compute. lia.
  - exists s'. split; [exact Hrun |]. split; [exact Ht | exact Hstr].
Defined.

(** X15.  The background task of each driver polls exactly the pending
    sensors.  A run that is not woken changes nothing.  A woken run that
    returns has cleared the wake flag and kept the number of sensors; a
    sensor whose pending flag is clear is untouched, and a pending sensor
    has been polled once, with its own object id. *)
Theorem X15_task_polls_exactly_the_pending (timer_from_us : Z -> Z) :
  (forall ios f f',
     HX71x.hx71x_capture_task timer_from_us ios f = Done f' ->
     if wake f then
       wake f' = false /\ length (objs f') = length (objs f)
       /\ forall (i : nat) d, objs f !! i = Some d ->
            exists d',
              objs f' !! i = Some d'
              /\ if HX71x.pending_flag d =? 0 then d' = d
                 else HX71x.hx71x_read_adc timer_from_us (ios (Z.of_nat i)) d (Z.of_nat i)
                      = Done d'
     else f' = f)
  /\ (forall ios f f',
        ADS1220.ads1220_capture_task timer_from_us ios f = Done f' ->
        if wake f then
          wake f' = false /\ length (objs f') = length (objs f)
          /\ forall (i : nat) d, objs f !! i = Some d ->
               exists d',
                 objs f' !! i = Some d'
                 /\ if ADS1220.pending_flag d =? 0 then d' = d
                    else ADS1220.ads1220_read_adc timer_from_us (ios (Z.of_nat i)) d
                           (Z.of_nat i) = Done d'
        else f' = f)
  /\ (forall ios f f',
        ADS1256.ads1256_capture_task timer_from_us ios f = Done f' ->
        if wake f then
          wake f' = false /\ length (objs f') = length (objs f)
          /\ forall (i : nat) d, objs f !! i = Some d ->
               exists d',
                 objs f' !! i = Some d'
                 /\ if ADS1256.is_flag_set ADS1256.FLAG_PENDING d
                    then ADS1256.ads1256_read_adc timer_from_us (ios (Z.of_nat i)) d
                           (Z.of_nat i) = Done d'
                    else d' = d
        else f' = f).
Proof.
  repeat apply conj.
  - intros ios f f' Hrun. unfold HX71x.hx71x_capture_task in Hrun.
    destruct (wake f); cbn [negb] in Hrun; [| now injection Hrun as <-].
    destruct (foreach_oid _ 0 (objs f)) as [l | |] eqn:Hl; cbn [bind] in Hrun;
      try discriminate Hrun.
    injection Hrun as <-. destruct (foreach_oid_each _ _ _ _ Hl) as [Hlen Heach].
    split; [reflexivity |]. split; [exact Hlen |]. intros i d Hi.
    destruct (Heach i d Hi) as (d' & Hd' & Hbody). exists d'. split; [exact Hd' |].
    unfold HX71x.capture_one in Hbody. cbn [Z.add] in Hbody.
    destruct (HX71x.pending_flag d =? 0); [now injection Hbody as <- | exact Hbody].
  - intros ios f f' Hrun. unfold ADS1220.ads1220_capture_task in Hrun.
    destruct (wake f); cbn [negb] in Hrun; [| now injection Hrun as <-].
    destruct (foreach_oid _ 0 (objs f)) as [l | |] eqn:Hl; cbn [bind] in Hrun;
      try discriminate Hrun.
    injection Hrun as <-. destruct (foreach_oid_each _ _ _ _ Hl) as [Hlen Heach].
    split; [reflexivity |]. split; [exact Hlen |]. intros i d Hi.
    destruct (Heach i d Hi) as (d' & Hd' & Hbody). exists d'. split; [exact Hd' |].
    unfold ADS1220.capture_one in Hbody. cbn [Z.add] in Hbody.
    destruct (ADS1220.pending_flag d =? 0); [now injection Hbody as <- | exact Hbody].
  - intros ios f f' Hrun. unfold ADS1256.ads1256_capture_task in Hrun.
    destruct (wake f); cbn [negb] in Hrun; [| now injection Hrun as <-].
    destruct (foreach_oid _ 0 (objs f)) as [l | |] eqn:Hl; cbn [bind] in Hrun;
      try discriminate Hrun.
    injection Hrun as <-. destruct (foreach_oid_each _ _ _ _ Hl) as [Hlen Heach].
    split; [reflexivity |]. split; [exact Hlen |]. intros i d Hi.
    destruct (Heach i d Hi) as (d' & Hd' & Hbody). exists d'. split; [exact Hd' |].
    unfold ADS1256.capture_one in Hbody. cbn [Z.add] in Hbody.
    unfold ADS1256.is_flag_set. rewrite Z.land_comm.
    destruct (Z.land (ADS1256.flags d) ADS1256.FLAG_PENDING =? 0); cbn [negb];
      [now injection Hbody as <- | exact Hbody].
Qed.

(** A woken run over a started HX71x sensor whose timer has not fired
    and a pending one: the first is untouched, the second polled. *)
Lemma X15_witness_two_sensors :
  exists d',
    HX71x.hx71x_capture_task Examples.board_72mhz (fun _ => Examples.hx71x_clean)
      (Family true [HX71x.command_query_hx71x 1000 5 Examples.hx71x_configured;
                    Examples.hx71x_pending])
    = Done (Family false [HX71x.command_query_hx71x 1000 5 Examples.hx71x_configured; d'])
    /\ HX71x.hx71x_read_adc Examples.board_72mhz Examples.hx71x_clean
         Examples.hx71x_pending 1 = Done d'.
Proof.
  eexists. split; [vm_compute; reflexivity |].
  destruct (proj1 (X15_task_polls_exactly_the_pending Examples.board_72mhz)
              (fun _ => Examples.hx71x_clean)
              (Family true [HX71x.command_query_hx71x 1000 5 Examples.hx71x_configured;
                            Examples.hx71x_pending])
              _ ltac:(vm_compute; reflexivity))
    as (_ & _ & Heach).
  destruct (Heach 1%nat Examples.hx71x_pending eq_refl) as (d' & Hd' & Hpoll).
  cbn [objs] in Hd'. injection Hd' as <-. exact Hpoll.
Defined.

(** ** Words and bits *)

(** X19.  The SPI drivers assemble the three bytes of a transfer most
    significant first: the word is [65536 * msg[0] + 256 * msg[1] +
    msg[2]] on the bytes cut to 8 bits, always a 24-bit value, and the
    three bytes of any 24-bit value give the value back. *)
Theorem X19_transfer_word_is_big_endian (x : Spi.io) (v : Z) :
  0 <= v < 2 ^ 24 ->
  Spi.word24 x
  = 65536 * (Spi.msg0 x mod 256) + 256 * (Spi.msg1 x mod 256) + Spi.msg2 x mod 256
  /\ 0 <= Spi.word24 x < 2 ^ 24
  /\ Spi.word24
       (Spi.Io (Spi.data_ready x) (v / 65536) (v / 256 mod 256) (v mod 256)
          (Spi.time_start x) (Spi.time_end x) (Spi.time_resched x)) = v.
Proof.
  intros Hv. split; [apply word24_value |]. split; [apply word24_range |].
  rewrite word24_value. cbn [Spi.msg0 Spi.msg1 Spi.msg2]. unfold u8.
  change (2 ^ 24) with 16777216 in Hv. Z.div_mod_to_equations. lia.
Qed.

(** The value [0x123456] and its bytes [12 34 56]. *)
Lemma X19_witness_three_bytes :
  Spi.word24 (Examples.transfer 0x12 0x34 0x56 100) = 0x123456.
Proof.
  destruct (X19_transfer_word_is_big_endian (Examples.transfer 0x12 0x34 0x56 100)
              0x123456 ltac:(lia)) as (_ & _ & Hback).
  exact Hback.
Defined.

Section BitOrder.

(** The low [n + 1] bits of a number: bit [n], then the low [n] bits. *)
Lemma mod_pow2_succ a n :
  0 <= n -> a mod 2 ^ (n + 1) = 2 ^ n * level (Z.testbit a n) + a mod 2 ^ n.
Proof.
  intros Hn. rewrite Z.pow_add_r, Z.pow_1_r by lia.
  rewrite Z.rem_mul_r by lia.
  replace (level (Z.testbit a n)) with ((a / 2 ^ n) mod 2); [lia |].
  rewrite <- Z.testbit_spec' by assumption. now destruct (Z.testbit a n).
Qed.

(** Shifting in the bits of [v], from bit [23 - idx] down. *)
Lemma shifted_bits_of v (x : HX71x.io) n :
  (forall idx : nat, HX71x.dout_bit x idx = Z.testbit v (23 - Z.of_nat idx)) ->
  forall idx acc,
    Z.of_nat idx + Z.of_nat n <= 24 ->
    HX71x.shifted x idx n acc
    = acc * 2 ^ Z.of_nat n
      + (v / 2 ^ (24 - Z.of_nat idx - Z.of_nat n)) mod 2 ^ Z.of_nat n.
Proof.
  intros Hbits. induction n as [| n IH]; intros idx acc Hidx.
  - cbn [HX71x.shifted]. change (Z.of_nat 0) with 0. rewrite Z.pow_0_r, Z.mod_1_r. lia.
  - cbn [HX71x.shifted]. rewrite IH by lia. rewrite Hbits.
    replace (24 - Z.of_nat (S idx) - Z.of_nat n)
      with (24 - Z.of_nat idx - Z.of_nat (S n)) by lia.
    set (k := 24 - Z.of_nat idx - Z.of_nat (S n)).
    replace (Z.of_nat (S n)) with (Z.of_nat n + 1) by lia.
    rewrite (mod_pow2_succ (v / 2 ^ k)) by lia.
    rewrite Z.div_pow2_bits by lia.
    replace (Z.of_nat n + k) with (23 - Z.of_nat idx) by lia.
    rewrite Z.pow_add_r, Z.pow_1_r by lia. ring.
Qed.

End BitOrder.

(** X20.  The HX71x read takes the most significant bit first: when
    the data line shows bit [23 - idx] of a 24-bit value [v] at the
    [idx]-th of the 24 reads, the word the loop leaves is [v]. *)
Theorem X20_bits_are_shifted_in_msb_first (v : Z) (x : HX71x.io) (s : HX71x.hx71x_adc) :
  0 <= v < 2 ^ 24 ->
  (forall idx : nat, HX71x.dout_bit x idx = Z.testbit v (23 - Z.of_nat idx)) ->
  snd (HX71x.read_bits x 0 24 s 0) = v.
Proof.
  intros Hv Hbits. destruct (read_stage x s) as [-> _]. cbn [snd].
  unfold HX71x.raw_word. rewrite (shifted_bits_of v) by (assumption || lia).
  change (24 - Z.of_nat 0 - Z.of_nat 24) with 0. change (Z.of_nat 24) with 24.
  rewrite Z.pow_0_r, Z.div_1_r, Z.mod_small; lia.
Qed.

(** The value [0x800001]: its first and last bits are 1. *)
Lemma X20_witness_first_and_last_bit :
  snd (HX71x.read_bits
         (HX71x.Io false (fun idx => Z.testbit 0x800001 (23 - Z.of_nat idx)) true 0 0 0)
         0 24 Examples.hx71x_pending 0) = 0x800001.
Proof.
  apply X20_bits_are_shifted_in_msb_first; [lia | reflexivity].
Defined.

(** ** Polls without a timer event *)

(** X18.  The task polls a sensor on its pending flag alone, whether or
    not the sensor's timer is outstanding.  After the start command an
    ADS1256 sensor is pending at once, with its timer outstanding, so a
    woken run of the task polls it before its timer fires; an HX71x or
    ADS1220 sensor is skipped until its timer event.  After a deferred
    poll a pending HX71x or ADS1220 sensor is still pending, with its
    timer outstanding again, so the next woken run polls it again. *)
Theorem X18_polled_while_timer_is_outstanding (timer_from_us : Z -> Z)
    (ios_hx : Z -> HX71x.io) (ios : Z -> Spi.io) (oid rest now : Z) :
  u32 rest <> 0 ->
  (forall s,
     scheduled (ADS1256.timer (ADS1256.command_query_ads1256 rest now s)) = true
     /\ ADS1256.capture_one timer_from_us ios oid
          (ADS1256.command_query_ads1256 rest now s)
        = ADS1256.ads1256_read_adc timer_from_us (ios oid)
            (ADS1256.command_query_ads1256 rest now s) oid)
  /\ (forall s,
        HX71x.capture_one timer_from_us ios_hx oid (HX71x.command_query_hx71x rest now s)
        = Done (HX71x.command_query_hx71x rest now s))
  /\ (forall s,
        ADS1220.capture_one timer_from_us ios oid
          (ADS1220.command_query_ads1220 rest now s)
        = Done (ADS1220.command_query_ads1220 rest now s))
  /\ (forall x s,
        HX71x.pending_flag s <> 0 -> HX71x.dout_before x = true ->
        exists s',
          HX71x.hx71x_read_adc timer_from_us x s oid = Done s'
          /\ scheduled (HX71x.timer s') = true
          /\ HX71x.capture_one timer_from_us ios_hx oid s'
             = HX71x.hx71x_read_adc timer_from_us (ios_hx oid) s' oid)
  /\ (forall x s,
        ADS1220.pending_flag s <> 0 -> Spi.data_ready x = true ->
        exists s',
          ADS1220.ads1220_read_adc timer_from_us x s oid = Done s'
          /\ scheduled (ADS1220.timer s') = true
          /\ ADS1220.capture_one timer_from_us ios oid s'
             = ADS1220.ads1220_read_adc timer_from_us (ios oid) s' oid).
Proof.
  intros Hrest. repeat apply conj.
  - intros s. unfold ADS1256.command_query_ads1256.
    cbn [ADS1256.set_rest_ticks ADS1256.rest_ticks].
    destruct (Z.eqb_spec (u32 rest) 0); [contradiction |].
    split; [reflexivity |]. unfold ADS1256.capture_one.
    cbn [ADS1256.ads1256_reschedule_timer ADS1256.set_timer ADS1256.set_flag
         ADS1256.set_flags ADS1256.set_sb ADS1256.flags].
    now rewrite pending_after_set.
  - intros s. now rewrite hx71x_started by assumption.
  - intros s. now rewrite ads1220_started by assumption.
  - intros x s Hpending Hbusy. rewrite hx71x_read_adc_not_ready by assumption.
    eexists. split; [reflexivity |]. split; [reflexivity |].
    unfold HX71x.capture_one.
    cbn [HX71x.hx71x_reschedule_timer HX71x.set_timer HX71x.pending_flag].
    now destruct (Z.eqb_spec (HX71x.pending_flag s) 0).
  - intros x s Hpending Hbusy. rewrite ads1220_read_adc_not_ready by assumption.
    eexists. split; [reflexivity |]. split; [reflexivity |].
    unfold ADS1220.capture_one.
    cbn [ADS1220.ads1220_reschedule_timer ADS1220.set_timer ADS1220.pending_flag].
    now destruct (Z.eqb_spec (ADS1220.pending_flag s) 0).
Qed.

(** An ADS1256 sensor that has just been started, in a task run woken
    by another sensor: it is polled, and its timer moves from 1005 to
    1400. *)
Lemma X18_witness_polled_before_timer :
  ADS1256.timer (ADS1256.command_query_ads1256 1000 5 (ADS1256.command_config_ads1256 8))
  = Timer 1005 true
  /\ exists s',
       ADS1256.capture_one Examples.board_72mhz (fun _ => Examples.transfer 0 0 5 100) 0
         (ADS1256.command_query_ads1256 1000 5 (ADS1256.command_config_ads1256 8))
       = Done s'
       /\ ADS1256.timer s' = Timer 1400 true.
Proof.
  split; [reflexivity |].
  destruct (X18_polled_while_timer_is_outstanding Examples.board_72mhz
              (fun _ => Examples.hx71x_clean) (fun _ => Examples.transfer 0 0 5 100)
              0 1000 5 ltac:(intros Heq; discriminate Heq)) as (Hads & _).
  destruct (Hads (ADS1256.command_config_ads1256 8)) as [_ ->].
  eexists. split; [vm_compute; reflexivity | reflexivity].
Defined.
